(** * User session management: sessions, activity journeys, funnels,
      retention and GDPR operations

    A shallow embedding of the Python sources

      - [session/session_store.py], [session/session_manager.py]
      - [tracking/activity_tracker.py], [tracking/behavioral_tracker.py]
      - [analytics/activity_analytics.py]
      - [compliance/data_retention.py], [compliance/gdpr_handler.py]

    together with the properties the specification states about them.

    Modelling conventions.
      - The SQLite file is a record of four tables, each a list of rows in
        rowid order.  Every component creates its table with
        [CREATE TABLE IF NOT EXISTS] when it is constructed, so the tables
        are taken to exist.
      - Timestamps are [datetime.now().timestamp()] readings, stored in
        [REAL] columns.  They are modelled as integers (a count of clock
        units) with exact arithmetic; only their order and sums matter.
      - [datetime.now()] is an oracle: the world carries the sequence of
        readings the clock will give and the number of readings taken.
      - A computation returns [Ok a] or raises, [Raise e]; either way it
        leaves a world behind.
      - [json.dumps] and [json.loads] are modelled on a tree of JSON values
        whose numbers are integers; floats are outside the model, except
        for the funnel rates, which are computed on binary64 floats. *)

From Stdlib Require Import ZArith List String Ascii Bool Lia Arith.
From Stdlib Require Import DecimalString DecimalZ DecimalN DecimalPos.
From Stdlib Require Import Sorting.Sorted Sorting.Permutation.
From Stdlib Require Import Floats Uint63.
Import ListNotations.

#[local] Open Scope string_scope.
#[local] Open Scope Z_scope.

(* ================================================================== *)
(** ** Python values that [json] can carry *)
(* ================================================================== *)

(** A [dict] keeps its keys in insertion order; it is an association list
    whose keys are pairwise distinct (see [wf_json]). *)
#[warnings="-register-all"]
Inductive json : Type :=
| JNull
| JBool (b : bool)
| JInt (z : Z)
| JStr (s : string)
| JList (l : list json)
| JDict (d : list (string * json)).

Definition pydict : Type := list (string * json).

(** [d.get(key, default)] without the default: the value bound to [key]. *)
Fixpoint dict_get (key : string) (d : pydict) : option json :=
  match d with
  | [] => None
  | (k, v) :: d' => if String.eqb k key then Some v else dict_get key d'
  end.

(** [d[key] = value]: an existing key keeps its position, a new key goes
    last. *)
Fixpoint dict_set (key : string) (value : json) (d : pydict) : pydict :=
  match d with
  | [] => [(key, value)]
  | (k, v) :: d' =>
      if String.eqb k key then (k, value) :: d'
      else (k, v) :: dict_set key value d'
  end.

(** [dict(pairs)]: the pairs are inserted from left to right. *)
Definition dict_of_pairs (pairs : list (string * json)) : pydict :=
  fold_left (fun d kv => dict_set (fst kv) (snd kv) d) pairs [].

Fixpoint keys_distinct (d : pydict) : bool :=
  match d with
  | [] => true
  | (k, _) :: d' =>
      match dict_get k d' with
      | Some _ => false
      | None => keys_distinct d'
      end
  end.

(** The trees that are Python values: every dict inside has distinct
    keys. *)
Fixpoint wf_json (v : json) : bool :=
  match v with
  | JList l => forallb wf_json l
  | JDict d =>
      keys_distinct d
      && (fix wf_members (d : pydict) : bool :=
            match d with
            | [] => true
            | (_, v) :: d' => wf_json v && wf_members d'
            end) d
  | _ => true
  end.

Definition wf_members : pydict -> bool :=
  fix wf_members (d : pydict) : bool :=
    match d with
    | [] => true
    | (_, v) :: d' => wf_json v && wf_members d'
    end.

(** The fuel the scanner needs for a value: one unit for the value and
    one more for each element or member below it. *)
Fixpoint size (v : json) : nat :=
  match v with
  | JList l => S (list_sum (map (fun v => S (size v)) l))
  | JDict d =>
      S (list_sum (map (fun kv => match kv with (_, v) => S (size v) end) d))
  | _ => 1
  end.

Definition size_elems (l : list json) : nat :=
  list_sum (map (fun v => S (size v)) l).

Definition size_members (d : pydict) : nat :=
  list_sum (map (fun kv => match kv with (_, v) => S (size v) end) d).

(* ================================================================== *)
(** ** [json.dumps] *)
(* ================================================================== *)

Definition dquote : ascii := "034"%char.
Definition backslash : ascii := "\"%char.

Definition hex_digit (n : nat) : ascii :=
  match n with
  | 0 => "0" | 1 => "1" | 2 => "2" | 3 => "3" | 4 => "4"
  | 5 => "5" | 6 => "6" | 7 => "7" | 8 => "8" | 9 => "9"
  | 10 => "a" | 11 => "b" | 12 => "c" | 13 => "d" | 14 => "e"
  | _ => "f"
  end%nat%char.

(** One character of [encode_basestring_ascii]: the two-character escapes
    of [ESCAPE_DCT], a backslash-u escape (four lower-case hexadecimal
    digits) for everything else outside [' '..'~'], the character itself
    otherwise.  The output is put in front of [k]. *)
Definition escape_char (c : ascii) (k : string) : string :=
  if Ascii.eqb c dquote then String backslash (String dquote k)
  else if Ascii.eqb c backslash then String backslash (String backslash k)
  else if Ascii.eqb c "010" then String backslash (String "n" k)
  else if Ascii.eqb c "013" then String backslash (String "r" k)
  else if Ascii.eqb c "009" then String backslash (String "t" k)
  else if Ascii.eqb c "008" then String backslash (String "b" k)
  else if Ascii.eqb c "012" then String backslash (String "f" k)
  else
    let n := nat_of_ascii c in
    if ((32 <=? n) && (n <=? 126))%nat then String c k
    else
      String backslash (String "u" (String "0" (String "0"
        (String (hex_digit (n / 16)) (String (hex_digit (n mod 16)) k))))).

Fixpoint escape_string (s : string) (k : string) : string :=
  match s with
  | EmptyString => k
  | String c s' => escape_char c (escape_string s' k)
  end.

Definition dump_str (s : string) (k : string) : string :=
  String dquote (escape_string s (String dquote k)).

(** [int.__repr__]: decimal digits, a minus sign for a negative number. *)
Definition dump_int (z : Z) (k : string) : string :=
  NilZero.string_of_int (Z.to_int z) ++ k.

(** [json.dumps] with its default separators [", "] and [": "], writing in
    front of [k]. *)
Fixpoint dump (v : json) (k : string) : string :=
  match v with
  | JNull => "null" ++ k
  | JBool true => "true" ++ k
  | JBool false => "false" ++ k
  | JInt z => dump_int z k
  | JStr s => dump_str s k
  | JList l =>
      String "["
        match l with
        | [] => String "]" k
        | v0 :: l' =>
            dump v0
              ((fix dump_tail (l : list json) : string :=
                  match l with
                  | [] => String "]" k
                  | v :: l' => String "," (String " " (dump v (dump_tail l')))
                  end) l')
        end
  | JDict d =>
      String "{"
        match d with
        | [] => String "}" k
        | (k0, v0) :: d' =>
            dump_str k0 (String ":" (String " " (dump v0
              ((fix dump_tail (d : pydict) : string :=
                  match d with
                  | [] => String "}" k
                  | (k1, v) :: d' =>
                      String "," (String " " (dump_str k1
                        (String ":" (String " " (dump v (dump_tail d'))))))
                  end) d'))))
        end
  end.

Definition dump_elems_tail (k : string) : list json -> string :=
  fix dump_tail (l : list json) : string :=
    match l with
    | [] => String "]" k
    | v :: l' => String "," (String " " (dump v (dump_tail l')))
    end.

Definition dump_members_tail (k : string) : pydict -> string :=
  fix dump_tail (d : pydict) : string :=
    match d with
    | [] => String "}" k
    | (k1, v) :: d' =>
        String "," (String " " (dump_str k1
          (String ":" (String " " (dump v (dump_tail d'))))))
    end.

Definition json_dumps (v : json) : string := dump v "".

(* ================================================================== *)
(** ** [json.loads] *)
(* ================================================================== *)

Definition is_ws (c : ascii) : bool :=
  Ascii.eqb c " " || Ascii.eqb c "009" || Ascii.eqb c "010"
  || Ascii.eqb c "013".

Fixpoint skip_ws (s : string) : string :=
  match s with
  | String c s' => if is_ws c then skip_ws s' else s
  | EmptyString => EmptyString
  end.

Definition is_digit (c : ascii) : bool :=
  let n := nat_of_ascii c in ((48 <=? n) && (n <=? 57))%nat.

Fixpoint span_digits (s : string) : string * string :=
  match s with
  | String c s' =>
      if is_digit c then
        let (ds, rest) := span_digits s' in (String c ds, rest)
      else (EmptyString, s)
  | EmptyString => (EmptyString, EmptyString)
  end.

Definition hex_value (c : ascii) : option nat :=
  let n := nat_of_ascii c in
  if ((48 <=? n) && (n <=? 57))%nat then Some (n - 48)%nat
  else if ((97 <=? n) && (n <=? 102))%nat then Some (n - 87)%nat
  else if ((65 <=? n) && (n <=? 70))%nat then Some (n - 55)%nat
  else None.

(** The character after a backslash, as in the decoder's [BACKSLASH]
    table. *)
Definition unescape (e : ascii) : option ascii :=
  if Ascii.eqb e dquote then Some dquote
  else if Ascii.eqb e backslash then Some backslash
  else if Ascii.eqb e "/" then Some "/"%char
  else if Ascii.eqb e "b" then Some "008"%char
  else if Ascii.eqb e "f" then Some "012"%char
  else if Ascii.eqb e "n" then Some "010"%char
  else if Ascii.eqb e "r" then Some "013"%char
  else if Ascii.eqb e "t" then Some "009"%char
  else None.

Definition cons_char (c : ascii) (r : option (string * string))
  : option (string * string) :=
  match r with
  | Some (s, rest) => Some (String c s, rest)
  | None => None
  end.

(** [scanstring], strict: the text after an opening quote, up to and
    including the closing quote.  Characters are the code points below
    256; an escape that names a larger code point is refused. *)
Fixpoint parse_string (s : string) : option (string * string) :=
  match s with
  | EmptyString => None
  | String c s1 =>
      if Ascii.eqb c dquote then Some (EmptyString, s1)
      else if Ascii.eqb c backslash then
        match s1 with
        | EmptyString => None
        | String e s2 =>
            if Ascii.eqb e "u" then
              match s2 with
              | String h1 (String h2 (String h3 (String h4 s3))) =>
                  match hex_value h1, hex_value h2, hex_value h3,
                        hex_value h4 with
                  | Some 0%nat, Some 0%nat, Some n3, Some n4 =>
                      cons_char (ascii_of_nat (n3 * 16 + n4))
                        (parse_string s3)
                  | _, _, _, _ => None
                  end
              | _ => None
              end
            else
              match unescape e with
              | Some c' => cons_char c' (parse_string s2)
              | None => None
              end
        end
      else if (nat_of_ascii c <? 32)%nat then None
      else cons_char c (parse_string s1)
  end.

(** A fraction or an exponent follows: the number is a float. *)
Definition starts_float (rest : string) : bool :=
  match rest with
  | String c _ => Ascii.eqb c "." || Ascii.eqb c "e" || Ascii.eqb c "E"
  | EmptyString => false
  end.

(** A JSON number without fraction or exponent: an optional minus sign,
    then [0] or a digit string that does not start with [0].  A fraction
    or an exponent makes a float, which this model leaves out. *)
Definition parse_int (s : string) : option (Z * string) :=
  let (neg, s1) :=
    match s with
    | String c s' => if Ascii.eqb c "-" then (true, s') else (false, s)
    | EmptyString => (false, s)
    end in
  let (ds, rest) := span_digits s1 in
  match ds with
  | EmptyString => None
  | String c0 ds' =>
      if Ascii.eqb c0 "0" && negb (String.eqb ds' EmptyString) then None
      else if starts_float rest then None
      else
        match NilZero.uint_of_string ds with
        | Some d =>
            Some (if neg : bool then - Z.of_uint d else Z.of_uint d, rest)
        | None => None
        end
  end.

(** The text after the literal [lit], when [s] starts with it. *)
Fixpoint expect (lit : string) (s : string) : option string :=
  match lit with
  | EmptyString => Some s
  | String c lit' =>
      match s with
      | String c' s' => if Ascii.eqb c c' then expect lit' s' else None
      | EmptyString => None
      end
  end.

(** The scanner.  [fuel] bounds the nesting and the number of elements
    read; [json_loads] gives it more than the length of the text. *)
Fixpoint parse_value (fuel : nat) (s : string) : option (json * string) :=
  match fuel with
  | O => None
  | S fuel' =>
      match skip_ws s with
      | EmptyString => None
      | String c s1 =>
          if Ascii.eqb c dquote then
            match parse_string s1 with
            | Some (str, rest) => Some (JStr str, rest)
            | None => None
            end
          else if Ascii.eqb c "[" then
            match skip_ws s1 with
            | EmptyString => None
            | String c' rest =>
                if Ascii.eqb c' "]" then Some (JList [], rest)
                else
                  match parse_elems fuel' s1 with
                  | Some (l, rest) => Some (JList l, rest)
                  | None => None
                  end
            end
          else if Ascii.eqb c "{" then
            match skip_ws s1 with
            | EmptyString => None
            | String c' rest =>
                if Ascii.eqb c' "}" then Some (JDict [], rest)
                else
                  match parse_members fuel' s1 with
                  | Some (pairs, rest) =>
                      Some (JDict (dict_of_pairs pairs), rest)
                  | None => None
                  end
            end
          else if Ascii.eqb c "n" then
            match expect "ull" s1 with
            | Some rest => Some (JNull, rest)
            | None => None
            end
          else if Ascii.eqb c "t" then
            match expect "rue" s1 with
            | Some rest => Some (JBool true, rest)
            | None => None
            end
          else if Ascii.eqb c "f" then
            match expect "alse" s1 with
            | Some rest => Some (JBool false, rest)
            | None => None
            end
          else
            match parse_int (String c s1) with
            | Some (z, rest) => Some (JInt z, rest)
            | None => None
            end
      end
  end

with parse_elems (fuel : nat) (s : string) : option (list json * string) :=
  match fuel with
  | O => None
  | S fuel' =>
      match parse_value fuel' s with
      | None => None
      | Some (v, s1) =>
          match skip_ws s1 with
          | EmptyString => None
          | String c s2 =>
              if Ascii.eqb c "," then
                match parse_elems fuel' s2 with
                | Some (l, rest) => Some (v :: l, rest)
                | None => None
                end
              else if Ascii.eqb c "]" then Some ([v], s2)
              else None
          end
      end
  end

with parse_members (fuel : nat) (s : string)
  : option (list (string * json) * string) :=
  match fuel with
  | O => None
  | S fuel' =>
      match skip_ws s with
      | EmptyString => None
      | String c s1 =>
          if Ascii.eqb c dquote then
            match parse_string s1 with
            | None => None
            | Some (key, s2) =>
                match skip_ws s2 with
                | EmptyString => None
                | String c2 s3 =>
                    if Ascii.eqb c2 ":" then
                      match parse_value fuel' s3 with
                      | None => None
                      | Some (v, s4) =>
                          match skip_ws s4 with
                          | EmptyString => None
                          | String c4 s5 =>
                              if Ascii.eqb c4 "," then
                                match parse_members fuel' s5 with
                                | Some (l, rest) =>
                                    Some ((key, v) :: l, rest)
                                | None => None
                                end
                              else if Ascii.eqb c4 "}" then
                                Some ([(key, v)], s5)
                              else None
                          end
                      end
                    else None
                end
            end
          else None
      end
  end.

(** What may follow a value inside a text: nothing, or the comma or
    bracket that closes it. *)
Definition closes (k : string) : bool :=
  match k with
  | EmptyString => true
  | String c _ => Ascii.eqb c "," || Ascii.eqb c "]" || Ascii.eqb c "}"
  end.

(** [json.loads]: one value, then only white space. *)
Definition json_loads (s : string) : option json :=
  match parse_value (S (String.length s)) s with
  | Some (v, rest) =>
      match skip_ws rest with
      | EmptyString => Some v
      | String _ _ => None
      end
  | None => None
  end.

(* ================================================================== *)
(** ** The database, the clock and computations *)
(* ================================================================== *)

(** Table [sessions] ([SessionStore._init_database]). *)
Record session_row : Type := {
  s_session_id : string;            (* TEXT PRIMARY KEY *)
  s_user_id : Z;                    (* INTEGER NOT NULL *)
  s_created_at : Z;                 (* REAL NOT NULL *)
  s_expires_at : Z;                 (* REAL NOT NULL *)
  s_last_activity : Z;              (* REAL NOT NULL *)
  s_data : option string;           (* TEXT *)
  s_ip_address : option string;     (* TEXT *)
  s_user_agent : option string      (* TEXT *)
}.

(** Table [activities] ([ActivityTracker._init_database]).  The column
    [created_at], which SQLite fills with its own [CURRENT_TIMESTAMP] and
    which no query below reads by name, is left out. *)
Record activity_row : Type := {
  a_id : Z;                         (* INTEGER PRIMARY KEY AUTOINCREMENT *)
  a_user_id : Z;                    (* INTEGER NOT NULL *)
  a_session_id : option string;     (* TEXT *)
  a_event_type : string;            (* TEXT NOT NULL *)
  a_event_data : option string;     (* TEXT *)
  a_ip_address : option string;     (* TEXT *)
  a_user_agent : option string;     (* TEXT *)
  a_timestamp : Z                   (* REAL NOT NULL *)
}.

(** Table [preferences] ([PreferenceManager._init_database]), without the
    SQLite-filled [updated_at]. *)
Record preference_row : Type := {
  p_user_id : Z;                    (* INTEGER PRIMARY KEY *)
  p_preferences : string            (* TEXT NOT NULL *)
}.

(** Table [consent] ([GDPRHandler._init_database]). *)
Record consent_row : Type := {
  c_user_id : Z;
  c_consent_type : string;
  c_granted : bool;
  c_timestamp : Z
}.

Record Database : Type := {
  sessions : list session_row;
  activities : list activity_row;
  activities_seq : Z;               (* largest rowid AUTOINCREMENT gave *)
  preferences : list preference_row;
  consent : list consent_row
}.

(** The database file and the wall clock.  [clock n] is the value of the
    [n]-th call of [datetime.now().timestamp()]; [ticks] counts the calls
    made so far. *)
Record World : Type := {
  database : Database;
  clock : nat -> Z;
  ticks : nat
}.

(** The reading the next call of [datetime.now()] gives. *)
Definition current_time (w : World) : Z := clock w (ticks w).

Inductive exn : Type :=
| IntegrityError        (* sqlite3: UNIQUE constraint failed *)
| JSONDecodeError       (* json.loads on a text that is not JSON *)
| TypeError             (* item assignment on a value that is no dict *)
| AttributeError.       (* [.get] on a value that is no dict *)

Inductive result (A : Type) : Type :=
| Ok (a : A)
| Raise (e : exn).
Arguments Ok {A} a.
Arguments Raise {A} e.

(** A computation reads and writes the world and returns or raises; what
    it wrote before raising stays written (every statement is committed
    on its own connection). *)
Definition M (A : Type) : Type := World -> result A * World.

Definition ret {A} (a : A) : M A := fun w => (Ok a, w).

Definition raise {A} (e : exn) : M A := fun w => (Raise e, w).

Definition bind {A B} (m : M A) (f : A -> M B) : M B :=
  fun w =>
    match m w with
    | (Ok a, w') => f a w'
    | (Raise e, w') => (Raise e, w')
    end.

Declare Scope py_scope.
Delimit Scope py_scope with py.
Notation "x <- m ;; k" := (bind m (fun x => k))
  (at level 61, m at next level, right associativity) : py_scope.
Notation "m ;; k" := (bind m (fun _ => k))
  (at level 61, right associativity) : py_scope.
#[local] Open Scope py_scope.

(** [datetime.now().timestamp()]. *)
Definition now : M Z :=
  fun w =>
    (Ok (clock w (ticks w)),
     {| database := database w; clock := clock w; ticks := S (ticks w) |}).

Definition get_db : M Database := fun w => (Ok (database w), w).

Definition put_db (db : Database) : M unit :=
  fun w => (Ok tt, {| database := db; clock := clock w; ticks := ticks w |}).

Definition with_sessions (db : Database) (t : list session_row) : Database :=
  {| sessions := t; activities := activities db;
     activities_seq := activities_seq db;
     preferences := preferences db; consent := consent db |}.

Definition with_activities (db : Database) (t : list activity_row)
  : Database :=
  {| sessions := sessions db; activities := t;
     activities_seq := activities_seq db;
     preferences := preferences db; consent := consent db |}.

(** [json.loads(text) if text else {}], the guard used on every JSON
    column: [NULL] and the empty text give an empty dict.  [None] stands
    for the [JSONDecodeError] of a text that is not JSON. *)
Definition decode_column (text : option string) : option json :=
  match text with
  | None | Some EmptyString => Some (JDict [])
  | Some s => json_loads s
  end.

Definition loads_or_empty (text : option string) : M json :=
  match decode_column text with
  | Some v => ret v
  | None => raise JSONDecodeError
  end.

(** [cursor.rowcount] after a [DELETE]: the rows the statement removed. *)
Definition rowcount {A} (before after : list A) : Z :=
  Z.of_nat (List.length before - List.length after).

(* ================================================================== *)
(** ** [session/session_store.py] *)
(* ================================================================== *)

(** The session dictionary that [SessionStore.get_session] builds. *)
Record session : Type := {
  session_id : string;
  user_id : Z;
  created_at : Z;
  expires_at : Z;
  last_activity : Z;
  data : json;
  ip_address : option string;
  user_agent : option string
}.

Module SessionStore.

Definition has_id (sid : string) (r : session_row) : bool :=
  String.eqb (s_session_id r) sid.

Definition has_user (uid : Z) (r : session_row) : bool :=
  Z.eqb (s_user_id r) uid.

(** [SELECT * FROM sessions WHERE session_id = ?] and [fetchone]. *)
Definition select (sid : string) (t : list session_row)
  : option session_row :=
  find (has_id sid) t.

Definition create_session (sid : string) (uid : Z) (expires : Z)
    (ip ua : option string) : M unit :=
  current_time <- now ;;
  db <- get_db ;;
  if existsb (has_id sid) (sessions db) then raise IntegrityError
  else
    put_db (with_sessions db
      (sessions db ++
       [{| s_session_id := sid; s_user_id := uid;
           s_created_at := current_time; s_expires_at := expires;
           s_last_activity := current_time; s_data := Some "{}";
           s_ip_address := ip; s_user_agent := ua |}])).

(** The dictionary [get_session] builds from a row, [d] being the decoded
    [data] column. *)
Definition session_of_row (row : session_row) (d : json) : session :=
  {| session_id := s_session_id row;
     user_id := s_user_id row;
     created_at := s_created_at row;
     expires_at := s_expires_at row;
     last_activity := s_last_activity row;
     data := d;
     ip_address := s_ip_address row;
     user_agent := s_user_agent row |}.

Definition get_session (sid : string) : M (option session) :=
  db <- get_db ;;
  match select sid (sessions db) with
  | Some row =>
      d <- loads_or_empty (s_data row) ;;
      ret (Some (session_of_row row d))
  | None => ret None
  end.

Definition set_last_activity (t : Z) (r : session_row) : session_row :=
  {| s_session_id := s_session_id r; s_user_id := s_user_id r;
     s_created_at := s_created_at r; s_expires_at := s_expires_at r;
     s_last_activity := t; s_data := s_data r;
     s_ip_address := s_ip_address r; s_user_agent := s_user_agent r |}.

Definition set_data (text : string) (r : session_row) : session_row :=
  {| s_session_id := s_session_id r; s_user_id := s_user_id r;
     s_created_at := s_created_at r; s_expires_at := s_expires_at r;
     s_last_activity := s_last_activity r; s_data := Some text;
     s_ip_address := s_ip_address r; s_user_agent := s_user_agent r |}.

(** [UPDATE sessions SET ... WHERE session_id = ?]. *)
Definition update (sid : string) (f : session_row -> session_row)
    (t : list session_row) : list session_row :=
  map (fun r => if has_id sid r then f r else r) t.

Definition update_session_activity (sid : string) : M unit :=
  current_time <- now ;;
  db <- get_db ;;
  put_db (with_sessions db
            (update sid (set_last_activity current_time) (sessions db))).

Definition set_session_data (sid : string) (d : json) : M unit :=
  let data_json := json_dumps d in
  db <- get_db ;;
  put_db (with_sessions db (update sid (set_data data_json) (sessions db))).

Definition delete_session (sid : string) : M unit :=
  db <- get_db ;;
  put_db (with_sessions db
            (filter (fun r => negb (has_id sid r)) (sessions db))).

Definition delete_user_sessions (uid : Z) : M unit :=
  db <- get_db ;;
  put_db (with_sessions db
            (filter (fun r => negb (has_user uid r)) (sessions db))).

Definition delete_expired_sessions : M Z :=
  current_time <- now ;;
  db <- get_db ;;
  let kept :=
    filter (fun r => negb (s_expires_at r <? current_time)) (sessions db) in
  put_db (with_sessions db kept) ;;
  ret (rowcount (sessions db) kept).

Definition get_active_sessions_count : M Z :=
  current_time <- now ;;
  db <- get_db ;;
  ret (Z.of_nat
         (List.length
            (filter (fun r => current_time <? s_expires_at r)
               (sessions db)))).

End SessionStore.

(* ================================================================== *)
(** ** [session/session_manager.py] *)
(* ================================================================== *)

Module SessionManager.

(** [token] is the value of [secrets.token_urlsafe(32)]. *)
Definition create_session (session_timeout : Z) (token : string)
    (uid : Z) (ip ua : option string) : M string :=
  let sid := token in
  t <- now ;;
  let expires := t + session_timeout in
  SessionStore.create_session sid uid expires ip ua ;;
  ret sid.

Definition is_expired (s : session) : M bool :=
  current_time <- now ;;
  ret (current_time >? expires_at s).

Definition destroy_session (sid : string) : M unit :=
  SessionStore.delete_session sid.

Definition destroy_user_sessions (uid : Z) : M unit :=
  SessionStore.delete_user_sessions uid.

Definition get_session (sid : string) : M (option session) :=
  s <- SessionStore.get_session sid ;;
  match s with
  | None => ret None
  | Some sess =>
      expired <- is_expired sess ;;
      if expired : bool then
        destroy_session sid ;;
        ret None
      else
        SessionStore.update_session_activity sid ;;
        ret (Some sess)
  end.

Definition validate_session (sid : string) : M bool :=
  s <- get_session sid ;;
  ret (match s with Some _ => true | None => false end).

Definition set_session_data (sid : string) (key : string) (value : json)
  : M unit :=
  s <- SessionStore.get_session sid ;;
  match s with
  | Some sess =>
      match data sess with
      | JDict session_data =>
          SessionStore.set_session_data sid
            (JDict (dict_set key value session_data))
      | _ => raise TypeError
      end
  | None => ret tt
  end.

Definition get_session_data (sid : string) (key : string) (default : json)
  : M json :=
  s <- SessionStore.get_session sid ;;
  match s with
  | Some sess =>
      match data sess with
      | JDict d =>
          ret (match dict_get key d with
               | Some v => v
               | None => default
               end)
      | _ => raise AttributeError
      end
  | None => ret default
  end.

Definition cleanup_expired_sessions : M Z :=
  SessionStore.delete_expired_sessions.

End SessionManager.

(** The calls a client of the session manager can make on stored
    sessions once they exist: the manager's reads and writes, and the two
    store updates they go through. *)
Inductive session_op : Type :=
| OpGet (sid : string)
| OpValidate (sid : string)
| OpSetData (sid key : string) (value : json)
| OpGetData (sid key : string) (default : json)
| OpUpdateActivity (sid : string)
| OpStoreSetData (sid : string) (d : json).

Definition ignore {A} (m : M A) : World -> World := fun w => snd (m w).

Definition run_op (op : session_op) : World -> World :=
  match op with
  | OpGet sid => ignore (SessionManager.get_session sid)
  | OpValidate sid => ignore (SessionManager.validate_session sid)
  | OpSetData sid key value =>
      ignore (SessionManager.set_session_data sid key value)
  | OpGetData sid key default =>
      ignore (SessionManager.get_session_data sid key default)
  | OpUpdateActivity sid => ignore (SessionStore.update_session_activity sid)
  | OpStoreSetData sid d => ignore (SessionStore.set_session_data sid d)
  end.

(** A sequence of calls, each made whatever the previous one returned or
    raised. *)
Definition run_ops (ops : list session_op) (w : World) : World :=
  fold_left (fun w op => run_op op w) ops w.

(* ================================================================== *)
(** ** [tracking/activity_tracker.py], [tracking/behavioral_tracker.py] *)
(* ================================================================== *)

(** Python truthiness of an optional text: [None] and [''] are false. *)
Definition truthy (s : option string) : bool :=
  match s with
  | None | Some EmptyString => false
  | Some (String _ _) => true
  end.

(** Truthiness of a JSON value, as [if event_data] tests it. *)
Definition json_truthy (v : json) : bool :=
  match v with
  | JNull | JBool false | JInt 0 | JStr EmptyString | JList [] | JDict [] =>
      false
  | _ => true
  end.

(** [ORDER BY key ASC] over rows listed in rowid order: rows with equal
    keys keep their rowid order. *)
Fixpoint insert_by {A} (key : A -> Z) (x : A) (l : list A) : list A :=
  match l with
  | [] => [x]
  | y :: l' =>
      if key x <=? key y then x :: y :: l' else y :: insert_by key x l'
  end.

Fixpoint order_by {A} (key : A -> Z) (l : list A) : list A :=
  match l with
  | [] => []
  | x :: l' => insert_by key x (order_by key l')
  end.

(** Evaluate a computation on each element, in order ([for row in rows]
    with [append]). *)
Fixpoint for_each {A B} (f : A -> M B) (l : list A) : M (list B) :=
  match l with
  | [] => ret []
  | x :: l' =>
      y <- f x ;;
      ys <- for_each f l' ;;
      ret (y :: ys)
  end.

Module ActivityTracker.

Definition track_event (uid : Z) (event_type : string)
    (event_data : option json) (sid : option string)
    (ip ua : option string) : M unit :=
  let event_data_json :=
    match event_data with
    | Some v => if json_truthy v then Some (json_dumps v) else None
    | None => None
    end in
  timestamp <- now ;;
  db <- get_db ;;
  let rowid := Z.max (activities_seq db) 0 + 1 in
  put_db
    {| sessions := sessions db;
       activities :=
         activities db ++
         [{| a_id := rowid; a_user_id := uid; a_session_id := sid;
             a_event_type := event_type; a_event_data := event_data_json;
             a_ip_address := ip; a_user_agent := ua;
             a_timestamp := timestamp |}];
       activities_seq := rowid;
       preferences := preferences db; consent := consent db |}.

End ActivityTracker.

(** One step of a journey. *)
Record journey_step : Type := {
  event_type : string;
  event_data : json;
  timestamp : Z
}.

Module BehavioralTracker.

Definition of_user (uid : Z) (a : activity_row) : bool :=
  Z.eqb (a_user_id a) uid.

(** [session_id = ?]: a [NULL] column matches nothing. *)
Definition of_session (sid : string) (a : activity_row) : bool :=
  match a_session_id a with
  | Some s => String.eqb s sid
  | None => false
  end.

Definition journey_step_of (row : activity_row) : M journey_step :=
  d <- loads_or_empty (a_event_data row) ;;
  ret {| event_type := a_event_type row;
         event_data := d;
         timestamp := a_timestamp row |}.

(** The rows the query of [get_user_journey] selects. *)
Definition journey_rows (uid : Z) (session_id : option string)
    (t : list activity_row) : list activity_row :=
  match session_id with
  | Some sid =>
      if truthy session_id then
        order_by a_timestamp
          (filter (fun a => of_user uid a && of_session sid a) t)
      else
        firstn 100 (order_by a_timestamp (filter (of_user uid) t))
  | None =>
      firstn 100 (order_by a_timestamp (filter (of_user uid) t))
  end.

Definition get_user_journey (uid : Z) (session_id : option string)
  : M (list journey_step) :=
  db <- get_db ;;
  let rows := journey_rows uid session_id (activities db) in
  for_each journey_step_of rows.

End BehavioralTracker.

(* ================================================================== *)
(** ** [analytics/activity_analytics.py] *)
(* ================================================================== *)

(** Python's [int / int] on counts: both operands are converted to the
    nearest double and divided.  Counts below [2^53] convert exactly, and
    there the quotient is the correctly rounded one that CPython
    computes. *)
Definition float_of_int (z : Z) : float :=
  SF2Prim (SpecFloat.binary_normalize prec emax z 0 false).

Definition true_div (a b : Z) : float :=
  PrimFloat.div (float_of_int a) (float_of_int b).

Definition decimal (n : Z) : string :=
  NilZero.string_of_uint (N.to_uint (Z.to_N n)).

(** The text of the non-negative integer [n] hundredths, with two
    decimals. *)
Definition hundredths (n : Z) : string :=
  decimal (n / 100) ++ "."
  ++ decimal ((n mod 100) / 10) ++ decimal (n mod 10).

(** [m * 2^e * 100] rounded to the nearest integer, ties to even:
    the rounding of [format(x, '.2f')], which is exact on the binary
    value. *)
Definition round_hundredths (m : positive) (e : Z) : Z :=
  if 0 <=? e then Z.pos m * 2 ^ e * 100
  else
    let num := Z.pos m * 100 in
    let den := 2 ^ (- e) in
    let q := num / den in
    let r := num mod den in
    match 2 * r ?= den with
    | Lt => q
    | Gt => q + 1
    | Eq => if Z.even q then q else q + 1
    end.

(** [f"{x:.2f}"]. *)
Definition format_2f (x : float) : string :=
  match Prim2SF x with
  | SpecFloat.S754_zero s => (if s then "-" else "") ++ "0.00"
  | SpecFloat.S754_infinity s => (if s then "-" else "") ++ "inf"
  | SpecFloat.S754_nan => "nan"
  | SpecFloat.S754_finite s m e =>
      (if s then "-" else "") ++ hundredths (round_hundredths m e)
  end.

(** One entry of the funnel; [conversion_rate] is [None] when the
    dictionary has no such key. *)
Record funnel_entry : Type := {
  step : string;
  users : Z;
  conversion_rate : option string
}.

Module ActivityAnalytics.

(** [SELECT COUNT(DISTINCT user_id) FROM activities WHERE event_type = ?] *)
Definition count_distinct_users (step : string) (t : list activity_row)
  : Z :=
  Z.of_nat
    (List.length
       (nodup Z.eq_dec
          (map a_user_id
             (filter (fun a => String.eqb (a_event_type a) step) t)))).

Definition set_conversion_rate (rate : string) (e : funnel_entry)
  : funnel_entry :=
  {| step := step e; users := users e; conversion_rate := Some rate |}.

(** [funnel[i] = f(funnel[i])]; the index is in range where it is
    used. *)
Fixpoint update_at (i : nat) (f : funnel_entry -> funnel_entry)
    (l : list funnel_entry) : list funnel_entry :=
  match l, i with
  | [], _ => []
  | e :: l', O => f e :: l'
  | e :: l', S i' => e :: update_at i' f l'
  end.

Definition nobody : funnel_entry :=
  {| step := ""; users := 0; conversion_rate := None |}.

(** The body of [for i in range(1, len(funnel))]. *)
Definition rate_step (funnel : list funnel_entry) (i : nat)
  : list funnel_entry :=
  let prev := users (nth (i - 1) funnel nobody) in
  if prev >? 0 then
    let conversion_rate :=
      PrimFloat.mul (true_div (users (nth i funnel nobody)) prev)
        (float_of_int 100) in
    update_at i (set_conversion_rate (format_2f conversion_rate ++ "%"))
      funnel
  else funnel.

Definition get_conversion_funnel (steps : list string)
  : M (list funnel_entry) :=
  db <- get_db ;;
  let funnel :=
    map (fun s =>
           {| step := s;
              users := count_distinct_users s (activities db);
              conversion_rate := None |}) steps in
  ret (fold_left rate_step (seq 1 (List.length funnel - 1)) funnel).

End ActivityAnalytics.

(* ================================================================== *)
(** ** [compliance/data_retention.py] *)
(* ================================================================== *)

Record retention_summary : Type := {
  rs_activities_deleted : Z;
  rs_sessions_deleted : Z;
  rs_retention_days : Z;
  rs_applied_at : Z
}.

Module DataRetentionPolicy.

Definition cutoff_time (current : Z) (retention_days : Z) : Z :=
  current - retention_days * 24 * 60 * 60.

Definition delete_old_activities (retention_days : Z) : M Z :=
  t <- now ;;
  let cutoff := cutoff_time t retention_days in
  db <- get_db ;;
  let kept :=
    filter (fun a => negb (a_timestamp a <? cutoff)) (activities db) in
  put_db (with_activities db kept) ;;
  ret (rowcount (activities db) kept).

Definition delete_old_sessions (retention_days : Z) : M Z :=
  t <- now ;;
  let cutoff := cutoff_time t retention_days in
  db <- get_db ;;
  let kept :=
    filter (fun r => negb (s_created_at r <? cutoff)) (sessions db) in
  put_db (with_sessions db kept) ;;
  ret (rowcount (sessions db) kept).

Definition apply_retention_policy (retention_days : Z)
  : M retention_summary :=
  activities_deleted <- delete_old_activities retention_days ;;
  sessions_deleted <- delete_old_sessions retention_days ;;
  applied_at <- now ;;
  ret {| rs_activities_deleted := activities_deleted;
         rs_sessions_deleted := sessions_deleted;
         rs_retention_days := retention_days;
         rs_applied_at := applied_at |}.

End DataRetentionPolicy.

(* ================================================================== *)
(** ** [compliance/gdpr_handler.py] *)
(* ================================================================== *)

Record export_data : Type := {
  ex_user_id : Z;
  ex_export_date : Z;
  ex_sessions : list session_row;
  ex_activities : list activity_row;
  ex_preferences : json;
  ex_consent : list consent_row
}.

Record deletion_summary : Type := {
  ds_user_id : Z;
  ds_sessions_deleted : Z;
  ds_activities_deleted : Z;
  ds_preferences_deleted : Z;
  ds_consent_deleted : Z;
  ds_deleted_at : Z
}.

Module GDPRHandler.

Definition export_user_data (uid : Z) : M export_data :=
  db <- get_db ;;
  let sessions_ := filter (SessionStore.has_user uid) (sessions db) in
  let activities_ :=
    filter (BehavioralTracker.of_user uid) (activities db) in
  let pref_row :=
    find (fun p => Z.eqb (p_user_id p) uid) (preferences db) in
  preferences_ <-
    match pref_row with
    | Some row =>
        match json_loads (p_preferences row) with
        | Some v => ret v
        | None => raise JSONDecodeError
        end
    | None => ret (JDict [])
    end ;;
  let consent_ := filter (fun c => Z.eqb (c_user_id c) uid) (consent db) in
  export_date <- now ;;
  ret {| ex_user_id := uid; ex_export_date := export_date;
         ex_sessions := sessions_; ex_activities := activities_;
         ex_preferences := preferences_; ex_consent := consent_ |}.

Definition delete_user_data (uid : Z) : M deletion_summary :=
  db <- get_db ;;
  let sessions_kept :=
    filter (fun r => negb (SessionStore.has_user uid r)) (sessions db) in
  let activities_kept :=
    filter (fun a => negb (BehavioralTracker.of_user uid a))
      (activities db) in
  let preferences_kept :=
    filter (fun p => negb (Z.eqb (p_user_id p) uid)) (preferences db) in
  let consent_kept :=
    filter (fun c => negb (Z.eqb (c_user_id c) uid)) (consent db) in
  put_db {| sessions := sessions_kept; activities := activities_kept;
            activities_seq := activities_seq db;
            preferences := preferences_kept; consent := consent_kept |} ;;
  deleted_at <- now ;;
  ret {| ds_user_id := uid;
         ds_sessions_deleted := rowcount (sessions db) sessions_kept;
         ds_activities_deleted := rowcount (activities db) activities_kept;
         ds_preferences_deleted :=
           rowcount (preferences db) preferences_kept;
         ds_consent_deleted := rowcount (consent db) consent_kept;
         ds_deleted_at := deleted_at |}.

End GDPRHandler.

(* ================================================================== *)
(** ** Notions used to state the properties of the JSON codec *)
(* ================================================================== *)

Definition all_digits (s : string) : Prop :=
  forall c, In c (list_ascii_of_string s) -> is_digit c = true.

(** A value's text starts with a character that is neither white space
    nor a closing bracket. *)
Definition starts_value (c : ascii) : bool :=
  Ascii.eqb c dquote || Ascii.eqb c "[" || Ascii.eqb c "{"
  || Ascii.eqb c "n" || Ascii.eqb c "t" || Ascii.eqb c "f"
  || Ascii.eqb c "-" || is_digit c.

Definition scans_value (f : nat) : Prop :=
  forall v k,
    (size v <= f)%nat -> wf_json v = true -> closes k = true ->
    parse_value f (dump v k) = Some (v, k).

Definition scans_elems (f : nat) : Prop :=
  forall v l k,
    (S (size v) + size_elems l <= f)%nat ->
    wf_json v = true -> forallb wf_json l = true ->
    parse_elems f (dump v (dump_elems_tail k l)) = Some (v :: l, k).

Definition scans_members (f : nat) : Prop :=
  forall key v d k,
    (S (size v) + size_members d <= f)%nat ->
    wf_json v = true -> wf_members d = true ->
    parse_members f
      (dump_str key (String ":" (String " "
         (dump v (dump_members_tail k d)))))
    = Some ((key, v) :: d, k).

Definition fits (v : json) : Prop :=
  forall k, (size v + String.length k <= String.length (dump v k))%nat.


(* ================================================================== *)
(** ** Notions used to state the properties of sessions *)
(* ================================================================== *)

(** The world after the sessions table became [t] and the clock was read
    up to reading [n]. *)
Definition world_with (w : World) (t : list session_row) (n : nat) : World :=
  {| database := with_sessions (database w) t; clock := clock w; ticks := n |}.

(** The stored record of a session, if any. *)
Definition stored (sid : string) (w : World) : option session_row :=
  SessionStore.select sid (sessions (database w)).

(** The clock never runs backwards. *)
Definition monotone_clock (w : World) : Prop :=
  forall i j : nat, (i <= j)%nat -> clock w i <= clock w j.

(** [w'] comes after [w]: same clock, no fewer readings taken, and every
    stored record of [w'] is a record of [w] with the same expiry whose
    last activity is either untouched or a reading taken in between. *)
Definition evolves (w w' : World) : Prop :=
  clock w' = clock w
  /\ (ticks w <= ticks w')%nat
  /\ forall sid row',
       stored sid w' = Some row' ->
       exists row,
         stored sid w = Some row
         /\ s_expires_at row' = s_expires_at row
         /\ (s_last_activity row' = s_last_activity row
             \/ exists i, (ticks w <= i < ticks w')%nat
                          /\ s_last_activity row' = clock w i).

(** The row [create_session] inserts when the manager reads the clock at
    [t0] and the store at [t1]. *)
Definition created_row (timeout : Z) (token : string) (uid : Z)
    (ip ua : option string) (t0 t1 : Z) : session_row :=
  {| s_session_id := token; s_user_id := uid;
     s_created_at := t1; s_expires_at := t0 + timeout;
     s_last_activity := t1; s_data := Some "{}";
     s_ip_address := ip; s_user_agent := ua |}.

(** The claim that a session is valid exactly on the interval from
    [created_at] to [created_at + timeout], as a statement about every
    creation and every later probe. *)
Definition valid_on_created_interval : Prop :=
  forall (w : World) (timeout : Z) (token : string) (uid : Z)
         (ip ua : option string) (w1 : World) (row : session_row)
         (w2 : World),
    SessionManager.create_session timeout token uid ip ua w = (Ok token, w1) ->
    stored token w1 = Some row ->
    database w2 = database w1 ->
    (s_created_at row <= current_time w2 <= s_created_at row + timeout ->
     exists s, fst (SessionManager.get_session token w2) = Ok (Some s))
    /\ (current_time w2 > s_created_at row + timeout ->
        fst (SessionManager.get_session token w2) = Ok None).

(** The claim that [set_session_data] returns normally and leaves the
    database as it was when the session is missing or its record has
    expired. *)
Definition set_data_noop_when_missing_or_expired : Prop :=
  forall (w : World) (sid key : string) (value : json),
    (stored sid w = None
     \/ exists row, stored sid w = Some row
                    /\ current_time w > s_expires_at row) ->
    fst (SessionManager.set_session_data sid key value w) = Ok tt
    /\ database (snd (SessionManager.set_session_data sid key value w))
       = database w.

(** The claim that every operation leaves [expires_at] as it was and that
    [last_activity] never decreases, as a statement about every stored
    record, every clock and every sequence of operations. *)
Definition expiry_fixed_and_activity_never_decreases : Prop :=
  forall (w : World) (ops : list session_op) (sid : string)
         (row row' : session_row),
    stored sid w = Some row ->
    stored sid (run_ops ops w) = Some row' ->
    s_expires_at row' = s_expires_at row
    /\ s_last_activity row <= s_last_activity row'.

(** *** Sample worlds *)

Definition empty_database : Database :=
  {| sessions := []; activities := []; activities_seq := 0;
     preferences := []; consent := [] |}.

(** A clock whose first readings are 0, 1, 11, 12, ... *)
Definition sample_clock (n : nat) : Z :=
  match n with
  | O => 0
  | S O => 1
  | S (S k) => 11 + Z.of_nat k
  end.

Definition fresh_world : World :=
  {| database := empty_database; clock := sample_clock; ticks := 0 |}.

(** A session of user 7 that expired at 10, holding a cart. *)
Definition stale_row : session_row :=
  {| s_session_id := "tok"; s_user_id := 7;
     s_created_at := 0; s_expires_at := 10; s_last_activity := 1;
     s_data := Some (json_dumps (JDict [("cart", JInt 3)]));
     s_ip_address := None; s_user_agent := None |}.

(** The clock of this world reads 11 next: [stale_row] has expired. *)
Definition stale_world : World :=
  {| database := with_sessions empty_database [stale_row];
     clock := sample_clock; ticks := 2 |}.

(** The clock of this world reads 1 next: [stale_row] is still valid. *)
Definition live_world : World :=
  {| database := with_sessions empty_database [stale_row];
     clock := sample_clock; ticks := 1 |}.

(** A clock that is set back: it reads 5 three times, then 0. *)
Definition rewound_clock (n : nat) : Z :=
  match n with
  | 0%nat | 1%nat | 2%nat => 5
  | _ => 0
  end.

Definition rewound_world : World :=
  {| database := empty_database; clock := rewound_clock; ticks := 0 |}.

(* ================================================================== *)
(** ** Notions used to state the properties of journeys *)
(* ================================================================== *)

(** The journey step an activity row stands for, when its [event_data]
    column decodes. *)
Definition decoded_step (row : activity_row) : option journey_step :=
  match decode_column (a_event_data row) with
  | Some d =>
      Some {| event_type := a_event_type row;
              event_data := d;
              timestamp := a_timestamp row |}
  | None => None
  end.

Definition decodable (row : activity_row) : bool :=
  match decode_column (a_event_data row) with
  | Some _ => true
  | None => false
  end.

(** Ascending order of timestamps. *)
Definition ascending (steps : list journey_step) : Prop :=
  StronglySorted (fun s1 s2 => timestamp s1 <= timestamp s2) steps.

(** The claim that a journey asked for with a session id holds exactly
    the events whose [user_id] and [session_id] columns are the two
    arguments, as a statement about every session id. *)
Definition journey_exact_for_every_session_id : Prop :=
  forall (w : World) (uid : Z) (sid : string),
    forallb decodable
      (filter (fun a => Z.eqb (a_user_id a) uid) (activities (database w)))
    = true ->
    exists rows steps,
      BehavioralTracker.get_user_journey uid (Some sid) w = (Ok steps, w)
      /\ map decoded_step rows = map Some steps
      /\ Permutation rows
           (filter
              (fun a =>
                 Z.eqb (a_user_id a) uid
                 && match a_session_id a with
                    | Some s => String.eqb s sid
                    | None => false
                    end)
              (activities (database w))).

(** Three events of user 1, two of them in session ["s1"], stored out of
    timestamp order, and one event of user 2. *)
Definition sample_journey : list activity_row :=
  [ {| a_id := 1; a_user_id := 1; a_session_id := Some "s1";
       a_event_type := "page_view";
       a_event_data := Some (json_dumps (JDict [("page", JStr "/cart")]));
       a_ip_address := None; a_user_agent := None; a_timestamp := 30 |};
    {| a_id := 2; a_user_id := 1; a_session_id := Some "s2";
       a_event_type := "login"; a_event_data := None;
       a_ip_address := None; a_user_agent := None; a_timestamp := 20 |};
    {| a_id := 3; a_user_id := 2; a_session_id := Some "s1";
       a_event_type := "login"; a_event_data := None;
       a_ip_address := None; a_user_agent := None; a_timestamp := 5 |};
    {| a_id := 4; a_user_id := 1; a_session_id := Some "s1";
       a_event_type := "login"; a_event_data := None;
       a_ip_address := None; a_user_agent := None; a_timestamp := 10 |} ].

Definition journey_world : World :=
  {| database := with_activities empty_database sample_journey;
     clock := sample_clock; ticks := 2 |}.

(** A table in which users 1 to 10 viewed, users 1 to 4 put something in
    the cart and users 1 and 2 bought (user 1 twice). *)
Definition sample_event (uid : Z) (event : string) : activity_row :=
  {| a_id := uid; a_user_id := uid; a_session_id := None;
     a_event_type := event; a_event_data := None;
     a_ip_address := None; a_user_agent := None; a_timestamp := 100 + uid |}.

Definition sample_activities : list activity_row :=
  map (fun u => sample_event u "view") [1; 2; 3; 4; 5; 6; 7; 8; 9; 10]
  ++ map (fun u => sample_event u "cart") [1; 2; 3; 4]
  ++ map (fun u => sample_event u "buy") [1; 2; 1].

Definition shop_world : World :=
  {| database := with_activities empty_database sample_activities;
     clock := sample_clock; ticks := 2 |}.

(* ================================================================== *)
(** ** The remaining session operations *)
(* ================================================================== *)

(** An entry of the list [SessionStore.get_user_sessions] builds. *)
Record session_summary : Type := {
  ss_session_id : string;
  ss_created_at : Z;
  ss_expires_at : Z;
  ss_last_activity : Z
}.

(** The dictionary [SessionManager.get_session_stats] builds. *)
Record session_stats : Type := {
  active_sessions : Z;
  stats_session_timeout : Z
}.

Module UserSessions.

Definition summary_of_row (row : session_row) : session_summary :=
  {| ss_session_id := s_session_id row;
     ss_created_at := s_created_at row;
     ss_expires_at := s_expires_at row;
     ss_last_activity := s_last_activity row |}.

(** [SessionStore.get_user_sessions]:
    [SELECT * FROM sessions WHERE user_id = ?]. *)
Definition store_get_user_sessions (uid : Z) : M (list session_summary) :=
  db <- get_db ;;
  let rows := filter (SessionStore.has_user uid) (sessions db) in
  ret (map summary_of_row rows).

(** [SessionManager.get_user_sessions]. *)
Definition get_user_sessions (uid : Z) : M (list session_summary) :=
  store_get_user_sessions uid.

(** [SessionManager.get_session_stats]. *)
Definition get_session_stats (session_timeout : Z) : M session_stats :=
  active_count <- SessionStore.get_active_sessions_count ;;
  ret {| active_sessions := active_count;
         stats_session_timeout := session_timeout |}.

End UserSessions.

(** Every call a client can make on the session manager. *)
Inductive manager_call : Type :=
| CallCreate (session_timeout : Z) (token : string) (uid : Z)
    (ip ua : option string)
| CallGet (sid : string)
| CallValidate (sid : string)
| CallDestroy (sid : string)
| CallDestroyUser (uid : Z)
| CallSetData (sid key : string) (value : json)
| CallGetData (sid key : string) (default : json)
| CallCleanup
| CallUserSessions (uid : Z)
| CallStats (session_timeout : Z).

(** What a computation raised, if it did. *)
Definition raised {A} (r : result A * World) : option exn :=
  match fst r with
  | Ok _ => None
  | Raise e => Some e
  end.

(** A call, reduced to the exception it raised (if any) and the world it
    left. *)
Definition run_call (c : manager_call) (w : World) : option exn * World :=
  match c with
  | CallCreate timeout token uid ip ua =>
      let r := SessionManager.create_session timeout token uid ip ua w in
      (raised r, snd r)
  | CallGet sid =>
      let r := SessionManager.get_session sid w in (raised r, snd r)
  | CallValidate sid =>
      let r := SessionManager.validate_session sid w in (raised r, snd r)
  | CallDestroy sid =>
      let r := SessionManager.destroy_session sid w in (raised r, snd r)
  | CallDestroyUser uid =>
      let r := SessionManager.destroy_user_sessions uid w in (raised r, snd r)
  | CallSetData sid key value =>
      let r := SessionManager.set_session_data sid key value w in
      (raised r, snd r)
  | CallGetData sid key default =>
      let r := SessionManager.get_session_data sid key default w in
      (raised r, snd r)
  | CallCleanup =>
      let r := SessionManager.cleanup_expired_sessions w in (raised r, snd r)
  | CallUserSessions uid =>
      let r := UserSessions.get_user_sessions uid w in (raised r, snd r)
  | CallStats timeout =>
      let r := UserSessions.get_session_stats timeout w in (raised r, snd r)
  end.

(** The integers SQLite binds: an [INTEGER] holds 64 bits, and [sqlite3]
    raises [OverflowError] on a Python integer outside that range. *)
Definition int64 (z : Z) : bool :=
  (- 2 ^ 63 <=? z) && (z <? 2 ^ 63).


(** The values a call hands to the manager are Python values. *)
Definition call_ok (c : manager_call) : bool :=
  match c with
  | CallSetData _ _ value => wf_json value
  | _ => true
  end.

(** The sessions table as the manager leaves it: no two rows share an id,
    and every data column decodes to a dict. *)
Definition holds_dict (row : session_row) : Prop :=
  exists d, decode_column (s_data row) = Some (JDict d).

Definition sessions_ok (w : World) : Prop :=
  NoDup (map s_session_id (sessions (database w)))
  /\ Forall holds_dict (sessions (database w)).

(** The shapes the sessions table can take after a call. *)
Inductive table_step (t : list session_row) : list session_row -> Prop :=
| step_same : table_step t t
| step_insert (r : session_row) :
    SessionStore.select (s_session_id r) t = None -> holds_dict r ->
    table_step t (t ++ [r])
| step_delete (keep : session_row -> bool) : table_step t (filter keep t)
| step_update (sid : string) (f : session_row -> session_row) :
    (forall r, s_session_id (f r) = s_session_id r) ->
    (forall r, holds_dict r -> holds_dict (f r)) ->
    table_step t (SessionStore.update sid f t).

(** The worlds reached from [w] by a sequence of calls. *)
Fixpoint run_calls (cs : list manager_call) (w : World) : World :=
  match cs with
  | [] => w
  | c :: cs' => run_calls cs' (snd (run_call c w))
  end.

(* ================================================================== *)
(** ** The remaining operations on activities *)
(* ================================================================== *)

(** An entry of [get_user_activities]. *)
Record activity : Type := {
  act_id : Z;
  act_event_type : string;
  act_event_data : json;
  act_timestamp : Z;
  act_session_id : option string
}.

(** An entry of [get_activities_by_type], which has no session id. *)
Record typed_activity : Type := {
  ta_id : Z;
  ta_event_type : string;
  ta_event_data : json;
  ta_timestamp : Z
}.

(** [LIMIT ?]: a negative limit is no limit. *)
Definition limit_rows {A} (limit : Z) (l : list A) : list A :=
  if limit <? 0 then l else firstn (Z.to_nat limit) l.

(** [ORDER BY timestamp DESC] over rows in rowid order.  SQL does not fix
    the order of rows with equal timestamps; here they keep their rowid
    order. *)
Definition newest_first (l : list activity_row) : list activity_row :=
  order_by (fun a => - a_timestamp a) l.

(** [GROUP BY key] with [COUNT( * )]: one pair per distinct key.  SQL does
    not fix the order of the groups. *)
Fixpoint bump {K} (eqb : K -> K -> bool) (k : K) (groups : list (K * Z))
  : list (K * Z) :=
  match groups with
  | [] => [(k, 1)]
  | (k', n) :: groups' =>
      if eqb k' k then (k', n + 1) :: groups'
      else (k', n) :: bump eqb k groups'
  end.

Definition tally {K} (eqb : K -> K -> bool) (keys : list K) : list (K * Z) :=
  fold_left (fun groups k => bump eqb k groups) keys [].

(** [d.get(k)] on the dict built from the groups. *)
Fixpoint group_get {K} (eqb : K -> K -> bool) (k : K)
    (groups : list (K * Z)) : option Z :=
  match groups with
  | [] => None
  | (k', n) :: groups' => if eqb k' k then Some n else group_get eqb k groups'
  end.

Module ActivityQueries.

Definition of_type (event : string) (a : activity_row) : bool :=
  String.eqb (a_event_type a) event.

Definition activity_of (row : activity_row) : M activity :=
  d <- loads_or_empty (a_event_data row) ;;
  ret {| act_id := a_id row;
         act_event_type := a_event_type row;
         act_event_data := d;
         act_timestamp := a_timestamp row;
         act_session_id := a_session_id row |}.

Definition typed_activity_of (row : activity_row) : M typed_activity :=
  d <- loads_or_empty (a_event_data row) ;;
  ret {| ta_id := a_id row;
         ta_event_type := a_event_type row;
         ta_event_data := d;
         ta_timestamp := a_timestamp row |}.

(** [ActivityTracker.get_user_activities]; the default [limit] is 100. *)
Definition get_user_activities (uid : Z) (limit : Z) : M (list activity) :=
  db <- get_db ;;
  let rows :=
    limit_rows limit
      (newest_first (filter (BehavioralTracker.of_user uid)
                       (activities db))) in
  for_each activity_of rows.

(** [ActivityTracker.get_activities_by_type]. *)
Definition get_activities_by_type (uid : Z) (event : string)
  : M (list typed_activity) :=
  db <- get_db ;;
  let rows :=
    newest_first
      (filter (fun a => BehavioralTracker.of_user uid a && of_type event a)
         (activities db)) in
  for_each typed_activity_of rows.

(** [ActivityTracker.get_activity_count]. *)
Definition get_activity_count (uid : Z) (event_type : option string) : M Z :=
  db <- get_db ;;
  let count :=
    match event_type with
    | Some event =>
        if truthy event_type then
          List.length
            (filter (fun a => BehavioralTracker.of_user uid a
                              && of_type event a) (activities db))
        else
          List.length (filter (BehavioralTracker.of_user uid)
                         (activities db))
    | None =>
        List.length (filter (BehavioralTracker.of_user uid) (activities db))
    end in
  ret (Z.of_nat count).

(** [ActivityTracker.delete_old_activities]; the default [days] is 90. *)
Definition delete_old_activities (days : Z) : M Z :=
  t <- now ;;
  let cutoff_time := t - days * 24 * 60 * 60 in
  db <- get_db ;;
  let kept :=
    filter (fun a => negb (a_timestamp a <? cutoff_time)) (activities db) in
  put_db (with_activities db kept) ;;
  ret (rowcount (activities db) kept).

(** [BehavioralTracker.get_feature_usage]: the dict from event type to
    count, for one user. *)
Definition get_feature_usage (uid : Z) : M (list (string * Z)) :=
  db <- get_db ;;
  ret (tally String.eqb
         (map a_event_type
            (filter (BehavioralTracker.of_user uid) (activities db)))).

End ActivityQueries.

(** [tracking/event_logger.py]. *)
Module EventLogger.

Definition EVENT_LOGIN : string := "login".
Definition EVENT_LOGOUT : string := "logout".
Definition EVENT_PAGE_VIEW : string := "page_view".
Definition EVENT_BUTTON_CLICK : string := "button_click".
Definition EVENT_API_CALL : string := "api_call".

Definition log_login (uid : Z) (session_id ip : option string) : M unit :=
  ActivityTracker.track_event uid EVENT_LOGIN
    (Some (JDict [("action", JStr "user_logged_in")])) session_id ip None.

Definition log_logout (uid : Z) (session_id : option string) : M unit :=
  ActivityTracker.track_event uid EVENT_LOGOUT
    (Some (JDict [("action", JStr "user_logged_out")])) session_id None None.

Definition log_page_view (uid : Z) (page : json)
    (session_id : option string) : M unit :=
  ActivityTracker.track_event uid EVENT_PAGE_VIEW
    (Some (JDict [("page", page)])) session_id None None.

(** [details] defaults to [None], the JSON [null]. *)
Definition log_action (uid : Z) (action details : json)
    (session_id : option string) : M unit :=
  ActivityTracker.track_event uid EVENT_BUTTON_CLICK
    (Some (JDict [("action", action); ("details", details)]))
    session_id None None.

Definition log_api_call (uid : Z) (endpoint method : json)
    (session_id : option string) : M unit :=
  ActivityTracker.track_event uid EVENT_API_CALL
    (Some (JDict [("endpoint", endpoint); ("method", method)]))
    session_id None None.

End EventLogger.

(** [analytics/user_analytics.py]: the dictionary [get_user_summary]
    builds. *)
Record user_summary : Type := {
  us_user_id : Z;
  total_activities : Z;
  total_sessions : Z;
  us_last_activity : option Z;
  event_breakdown : list (string * Z)
}.

Module UserAnalytics.

Definition get_user_summary (uid : Z) : M user_summary :=
  db <- get_db ;;
  let mine := filter (BehavioralTracker.of_user uid) (activities db) in
  let total_activities_ := Z.of_nat (List.length mine) in
  let total_sessions_ :=
    Z.of_nat (List.length (filter (SessionStore.has_user uid)
                             (sessions db))) in
  let last_activity_row := hd_error (limit_rows 1 (newest_first mine)) in
  let last_activity_ :=
    match last_activity_row with
    | Some row => Some (a_timestamp row)
    | None => None
    end in
  let event_breakdown_ := tally String.eqb (map a_event_type mine) in
  ret {| us_user_id := uid;
         total_activities := total_activities_;
         total_sessions := total_sessions_;
         us_last_activity := last_activity_;
         event_breakdown := event_breakdown_ |}.

End UserAnalytics.

(* ================================================================== *)
(** ** [preferences/preference_manager.py] *)
(* ================================================================== *)

(** Where a preferences value came from: decoded from the stored row (a
    new object), or [self.defaults.copy()], a shallow copy whose nested
    dicts are the very dicts of [self.defaults]. *)
Inductive origin : Type :=
| Loaded
| CopiedDefaults.

Module PreferenceManager.

(** The value [__init__] gives [self.defaults].  The functions below take
    the current value of that attribute as [self_defaults]. *)
Definition defaults : pydict :=
  [("theme", JStr "light");
   ("language", JStr "en");
   ("notifications",
    JDict [("email", JBool true); ("push", JBool false);
           ("sms", JBool false)]);
   ("privacy",
    JDict [("profile_public", JBool false); ("show_activity", JBool true);
           ("allow_analytics", JBool true)])].

Definition of_user (uid : Z) (p : preference_row) : bool :=
  Z.eqb (p_user_id p) uid.

(** The body of [get_preferences], with the origin of what it returns. *)
Definition get_preferences_from (self_defaults : pydict) (uid : Z)
  : M (json * origin) :=
  db <- get_db ;;
  match find (of_user uid) (preferences db) with
  | Some row =>
      match json_loads (p_preferences row) with
      | Some v => ret (v, Loaded)
      | None => raise JSONDecodeError
      end
  | None => ret (JDict self_defaults, CopiedDefaults)
  end.

Definition get_preferences (self_defaults : pydict) (uid : Z) : M json :=
  r <- get_preferences_from self_defaults uid ;;
  ret (fst r).

(** [INSERT OR REPLACE]: the row of the user, if any, gives way to the
    new one. *)
Definition set_preferences (uid : Z) (prefs : json) : M unit :=
  let preferences_json := json_dumps prefs in
  db <- get_db ;;
  put_db {| sessions := sessions db; activities := activities db;
            activities_seq := activities_seq db;
            preferences :=
              filter (fun p => negb (of_user uid p)) (preferences db)
              ++ [{| p_user_id := uid; p_preferences := preferences_json |}];
            consent := consent db |}.

Definition update_preference (self_defaults : pydict) (uid : Z)
    (key : string) (value : json) : M unit :=
  prefs <- get_preferences self_defaults uid ;;
  match prefs with
  | JDict d => set_preferences uid (JDict (dict_set key value d))
  | _ => raise TypeError
  end.

Definition get_preference (self_defaults : pydict) (uid : Z)
    (key : string) (default : json) : M json :=
  prefs <- get_preferences self_defaults uid ;;
  match prefs with
  | JDict d =>
      ret (match dict_get key d with
           | Some v => v
           | None => default
           end)
  | _ => raise AttributeError
  end.

End PreferenceManager.

(* ================================================================== *)
(** ** [compliance/privacy_manager.py] *)
(* ================================================================== *)

Module PrivacyManager.

(** The common body of [set_profile_visibility], [set_activity_visibility]
    and [set_analytics_consent]:

      preferences = get_preferences(user_id)
      if 'privacy' not in preferences: preferences['privacy'] = {}
      preferences['privacy'][flag] = value
      set_preferences(user_id, preferences)

    It returns the value of [self.defaults] of the preference manager
    after the call: when [preferences] is the shallow copy of the
    defaults, its ['privacy'] dict is the one of the defaults, and the
    assignment to the flag changes both. *)
Definition set_flag (flag : string) (self_defaults : pydict) (uid : Z)
    (value : bool) : M pydict :=
  r <- PreferenceManager.get_preferences_from self_defaults uid ;;
  match fst r with
  | JDict d =>
      match dict_get "privacy" d with
      | None =>
          PreferenceManager.set_preferences uid
            (JDict (dict_set "privacy" (JDict [(flag, JBool value)]) d)) ;;
          ret self_defaults
      | Some (JDict p) =>
          let p' := dict_set flag (JBool value) p in
          PreferenceManager.set_preferences uid
            (JDict (dict_set "privacy" (JDict p') d)) ;;
          match snd r with
          | Loaded => ret self_defaults
          | CopiedDefaults =>
              ret (dict_set "privacy" (JDict p') self_defaults)
          end
      | Some _ => raise TypeError
      end
  | _ => raise TypeError
  end.

Definition set_profile_visibility := set_flag "profile_public".
Definition set_activity_visibility := set_flag "show_activity".
Definition set_analytics_consent := set_flag "allow_analytics".

(** [preferences.get('privacy', {})]. *)
Definition get_privacy_settings (self_defaults : pydict) (uid : Z) : M json :=
  prefs <- PreferenceManager.get_preferences self_defaults uid ;;
  match prefs with
  | JDict d =>
      ret (match dict_get "privacy" d with
           | Some v => v
           | None => JDict []
           end)
  | _ => raise AttributeError
  end.

(** [s.split('.')]. *)
Fixpoint split_dots (s : string) : list string :=
  match s with
  | EmptyString => [EmptyString]
  | String c s' =>
      if Ascii.eqb c "." then EmptyString :: split_dots s'
      else
        match split_dots s' with
        | part :: parts => String c part :: parts
        | [] => [String c EmptyString]
        end
  end.

(** ['.'.join(parts)]. *)
Fixpoint join_dots (parts : list string) : string :=
  match parts with
  | [] => EmptyString
  | [part] => part
  | part :: parts' => part ++ String "." (join_dots parts')
  end.

(** [parts[-1] = '0'] on a list that is not empty. *)
Fixpoint set_last (parts : list string) : list string :=
  match parts with
  | [] => []
  | [_] => ["0"]
  | part :: parts' => part :: set_last parts'
  end.

Definition anonymize_ip (ip_address : option string) : option string :=
  match ip_address with
  | None | Some EmptyString => None
  | Some ip =>
      let parts := split_dots ip in
      if Nat.eqb (List.length parts) 4 then Some (join_dots (set_last parts))
      else Some ip
  end.

End PrivacyManager.

(* ================================================================== *)
(** ** Consent, in [compliance/gdpr_handler.py] *)
(* ================================================================== *)

Definition with_consent_rows (db : Database) (t : list consent_row)
  : Database :=
  {| sessions := sessions db; activities := activities db;
     activities_seq := activities_seq db;
     preferences := preferences db; consent := t |}.

Module Consent.

Definition is_for (uid : Z) (consent_type : string) (c : consent_row)
  : bool :=
  Z.eqb (c_user_id c) uid && String.eqb (c_consent_type c) consent_type.

(** [GDPRHandler.record_consent]: [INSERT OR REPLACE] on the key
    [(user_id, consent_type)]. *)
Definition record_consent (uid : Z) (consent_type : string)
    (granted : bool) : M unit :=
  timestamp <- now ;;
  db <- get_db ;;
  put_db (with_consent_rows db
            (filter (fun c => negb (is_for uid consent_type c)) (consent db)
             ++ [{| c_user_id := uid; c_consent_type := consent_type;
                    c_granted := granted; c_timestamp := timestamp |}])).

(** [GDPRHandler.get_consent]. *)
Definition get_consent (uid : Z) (consent_type : string) : M bool :=
  db <- get_db ;;
  match find (is_for uid consent_type) (consent db) with
  | Some row => ret (c_granted row)
  | None => ret false
  end.

End Consent.

(** A part of an address: a string without a dot. *)
Definition no_dot (s : string) : Prop :=
  ~ In "."%char (list_ascii_of_string s).

(** User 1 stored preferences; user 2 did not. *)
Definition prefs_world : World :=
  {| database :=
       {| sessions := []; activities := []; activities_seq := 0;
          preferences :=
            [{| p_user_id := 1;
                p_preferences :=
                  json_dumps
                    (JDict [("theme", JStr "dark");
                            ("privacy",
                             JDict [("profile_public", JBool false)])]) |}];
          consent := [] |};
     clock := sample_clock; ticks := 2 |}.

(** The funnel after its loop over [range(1, len(funnel))], by recursion
    on the entries: [prev] is the count of the entry before. *)
Fixpoint rated (prev : Z) (l : list funnel_entry) : list funnel_entry :=
  match l with
  | [] => []
  | e :: l' =>
      (if prev >? 0 then
         ActivityAnalytics.set_conversion_rate
           (format_2f
              (PrimFloat.mul (true_div (users e) prev) (float_of_int 100))
            ++ "%") e
       else e) :: rated (users e) l'
  end.

(** What is exported, without the export date. *)
Definition export_contents (e : export_data)
  : list session_row * list activity_row * json * list consent_row :=
  (ex_sessions e, ex_activities e, ex_preferences e, ex_consent e).

(** The same outcome up to the export date. *)
Definition same_export (r1 r2 : result export_data) : Prop :=
  match r1, r2 with
  | Ok e1, Ok e2 => export_contents e1 = export_contents e2
  | Raise x1, Raise x2 => x1 = x2
  | _, _ => False
  end.

(** The count a grouped result gives a key, 0 when the key is absent,
    and the sum of all its counts. *)
Definition count_of (k : string) (groups : list (string * Z)) : Z :=
  match group_get String.eqb k groups with
  | Some n => n
  | None => 0
  end.

Definition total_of (groups : list (string * Z)) : Z :=
  fold_right (fun g acc => snd g + acc) 0 groups.

(* ================================================================== *)
(** ** [session/session_middleware.py] and the routes of [api/app.py] *)
(* ================================================================== *)

(** [g.session], [g.user_id] and [g.session_id] as
    [before_request_handler] leaves them: all three set from one session,
    or, for [None], all three [None]. *)
Record g_attrs : Type := {
  g_session : session;
  g_user_id : Z;
  g_session_id : string
}.

Definition flask_g : Type := option g_attrs.

(** What a view under [@require_session] answers: the 401 of the
    decorator, or what the view returns. *)
Inductive response (A : Type) : Type :=
| Unauthorized
| Returned (a : A).

Arguments Unauthorized {A}.
Arguments Returned {A} a.

Module SessionMiddleware.

(** [a or b] on two values that are a string or [None]. *)
Definition py_or (a b : option string) : option string :=
  if truthy a then a else b.

(** [cookie] is [request.cookies.get('session_id')], [header] is
    [request.headers.get('X-Session-ID')]. *)
Definition before_request_handler (cookie header : option string)
  : M flask_g :=
  let session_id := py_or cookie header in
  if truthy session_id then
    match session_id with
    | Some sid =>
        s <- SessionManager.get_session sid ;;
        match s with
        | Some sess =>
            ret (Some {| g_session := sess; g_user_id := user_id sess;
                         g_session_id := sid |})
        | None => ret None
        end
    | None => ret None
    end
  else ret None.

Definition require_session {A : Type} (f : g_attrs -> M A) (g : flask_g)
  : M (response A) :=
  match g with
  | None => ret Unauthorized
  | Some attrs =>
      a <- f attrs ;;
      ret (Returned a)
  end.

(** A request to a view under [@require_session]: the handler registered
    with [before_request] runs, then the decorated view. *)
Definition handle {A : Type} (cookie header : option string)
    (view : g_attrs -> M A) : M (response A) :=
  g <- before_request_handler cookie header ;;
  require_session view g.

End SessionMiddleware.

Module App.

(** [POST /auth/logout], up to the response it builds. *)
Definition logout (g : g_attrs) : M unit :=
  EventLogger.log_logout (g_user_id g) (Some (g_session_id g)) ;;
  SessionManager.destroy_session (g_session_id g).

(** [DELETE /api/gdpr/delete]. *)
Definition delete_user_data (g : g_attrs) : M deletion_summary :=
  GDPRHandler.delete_user_data (g_user_id g).

(** [GET /api/gdpr/export]. *)
Definition export_user_data (g : g_attrs) : M export_data :=
  GDPRHandler.export_user_data (g_user_id g).

End App.

(* ================================================================== *)
(** * Properties *)
(* ================================================================== *)

(** ** [json.loads] inverts [json.dumps] *)

Section JsonRoundTrip.

Lemma parse_escape_char (c : ascii) (k : string) :
  parse_string (escape_char c k) = cons_char c (parse_string k).
Proof.
  destruct c as [[|] [|] [|] [|] [|] [|] [|] [|]]; reflexivity.
Qed.

Lemma parse_escape_string (s k : string) :
  parse_string (escape_string s (String dquote k)) = Some (s, k).
Proof.
  induction s as [|c s IH]; simpl.
  - reflexivity.
  - rewrite parse_escape_char, IH. reflexivity.
Qed.

End JsonRoundTrip.

Section JsonNumbers.

Lemma digits_of_uint (d : Decimal.uint) :
  all_digits (NilEmpty.string_of_uint d).
Proof.
  induction d; simpl; intros c Hc; simpl in Hc;
    try contradiction; destruct Hc as [<- | Hc]; auto.
Qed.

Lemma closes_cases (k : string) :
  closes k = true ->
  k = EmptyString \/
  exists k', k = String "," k' \/ k = String "]" k' \/ k = String "}" k'.
Proof.
  destruct k as [|c k]; simpl; auto.
  intros H. right. exists k.
  apply orb_true_iff in H. destruct H as [H | H];
    [apply orb_true_iff in H; destruct H as [H | H] |];
    apply Ascii.eqb_eq in H; subst c; auto.
Qed.

Lemma span_digits_app (s k : string) :
  all_digits s ->
  closes k = true ->
  span_digits (s ++ k) = (s, k).
Proof.
  intros Hs Hk. induction s as [|c s IH]; simpl.
  - destruct (closes_cases k Hk) as [-> | [k' [-> | [-> | ->]]]];
      reflexivity.
  - rewrite (Hs c) by (simpl; auto).
    rewrite IH; auto.
    intros c' Hc'. apply Hs. simpl; auto.
Qed.

Lemma closes_not_float (k : string) :
  closes k = true -> starts_float k = false.
Proof.
  intros Hk.
  destruct (closes_cases k Hk) as [-> | [k' [-> | [-> | ->]]]];
    reflexivity.
Qed.

Lemma nzhead_not_D0 (d d' : Decimal.uint) :
  Decimal.nzhead d <> Decimal.D0 d'.
Proof.
  induction d; simpl; auto; discriminate.
Qed.

Lemma to_uint_unorm (p : positive) :
  Decimal.unorm (Pos.to_uint p) = Pos.to_uint p.
Proof.
  rewrite <- (DecimalPos.Unsigned.to_of (Pos.to_uint p)).
  rewrite DecimalPos.Unsigned.of_to. reflexivity.
Qed.

Lemma to_uint_no_leading_zero (p : positive) (d : Decimal.uint) :
  Pos.to_uint p <> Decimal.D0 d.
Proof.
  intros H.
  pose proof (to_uint_unorm p) as Hn.
  pose proof (DecimalPos.Unsigned.to_uint_nonzero p) as Hz.
  rewrite H in Hn, Hz. unfold Decimal.unorm in Hn. simpl in Hn.
  destruct (Decimal.nzhead d) eqn:E; try discriminate.
  - injection Hn as <-. apply Hz. reflexivity.
  - injection Hn as Hd. subst d. exact (nzhead_not_D0 _ _ E).
Qed.

Lemma digit_not_minus (c : ascii) :
  is_digit c = true -> Ascii.eqb c "-" = false.
Proof.
  destruct c as [[|] [|] [|] [|] [|] [|] [|] [|]];
    (discriminate || reflexivity).
Qed.

(** The digits of a positive number, followed by [k], read back as the
    number, and [k] is what is left. *)
Lemma parse_digits (p : positive) (k : string) :
  closes k = true ->
  exists c ds',
    NilZero.string_of_uint (Pos.to_uint p) = String c ds'
    /\ is_digit c = true
    /\ forall neg : bool,
         (let (ds, rest) := span_digits (String c ds' ++ k) in
          match ds with
          | EmptyString => None
          | String c0 ds' =>
              if Ascii.eqb c0 "0" && negb (String.eqb ds' EmptyString)
              then None
              else if starts_float rest then None
              else
                match NilZero.uint_of_string ds with
                | Some d =>
                    Some (if neg then - Z.of_uint d else Z.of_uint d, rest)
                | None => None
                end
          end)
         = Some (if neg then Z.neg p else Z.pos p, k).
Proof.
  intros Hk.
  pose proof (DecimalPos.Unsigned.to_uint_nonnil p) as Hnil.
  pose proof (NilZero.usu (Pos.to_uint p) Hnil) as Hnum.
  pose proof (digits_of_uint (Pos.to_uint p)) as Hdig.
  pose proof (to_uint_no_leading_zero p) as Hlead.
  assert (Hof : Z.of_uint (Pos.to_uint p) = Z.pos p).
  { change (Z.of_int (Z.to_int (Z.pos p)) = Z.pos p).
    apply DecimalZ.of_to. }
  assert (Hs : NilZero.string_of_uint (Pos.to_uint p)
               = NilEmpty.string_of_uint (Pos.to_uint p)).
  { destruct (Pos.to_uint p); first [reflexivity | contradiction]. }
  rewrite Hs in *.
  destruct (NilEmpty.string_of_uint (Pos.to_uint p)) as [|c ds'] eqn:E.
  { destruct (Pos.to_uint p); first [discriminate | contradiction]. }
  exists c, ds'. split; [reflexivity|]. split.
  { apply Hdig. simpl; auto. }
  intros neg.
  rewrite (span_digits_app (String c ds') k Hdig Hk).
  assert (Hz : Ascii.eqb c "0" && negb (String.eqb ds' EmptyString) = false).
  { destruct (Ascii.eqb_spec c "0") as [-> | _]; [|reflexivity].
    destruct ds' as [|c' ds'']; [reflexivity|].
    exfalso. destruct (Pos.to_uint p) eqn:Ep; try discriminate.
    exact (Hlead _ eq_refl). }
  rewrite Hz, (closes_not_float k Hk), Hnum, Hof.
  destruct neg; reflexivity.
Qed.

Lemma parse_dump_int (z : Z) (k : string) :
  closes k = true ->
  parse_int (dump_int z k) = Some (z, k).
Proof.
  intros Hk. unfold dump_int.
  destruct z as [|p|p]; simpl.
  - unfold parse_int. simpl.
    destruct (closes_cases k Hk) as [-> | [k' [-> | [-> | ->]]]];
      reflexivity.
  - destruct (parse_digits p k Hk) as (c & ds' & -> & Hc & H).
    unfold parse_int. simpl. rewrite (digit_not_minus c Hc).
    exact (H false).
  - destruct (parse_digits p k Hk) as (c & ds' & -> & Hc & H).
    unfold parse_int. simpl.
    exact (H true).
Qed.

End JsonNumbers.

Section JsonValues.

Lemma size_pos (v : json) : (1 <= size v)%nat.
Proof. destruct v; simpl; lia. Qed.

Lemma dump_list_cons (v : json) (l : list json) (k : string) :
  dump (JList (v :: l)) k = String "[" (dump v (dump_elems_tail k l)).
Proof. reflexivity. Qed.

Lemma dump_dict_cons (key : string) (v : json) (d : pydict) (k : string) :
  dump (JDict ((key, v) :: d)) k
  = String "{" (dump_str key
      (String ":" (String " " (dump v (dump_members_tail k d))))).
Proof. reflexivity. Qed.

Lemma dump_elems_tail_cons (k : string) (v : json) (l : list json) :
  dump_elems_tail k (v :: l)
  = String "," (String " " (dump v (dump_elems_tail k l))).
Proof. reflexivity. Qed.

Lemma dump_members_tail_cons (k key : string) (v : json) (d : pydict) :
  dump_members_tail k ((key, v) :: d)
  = String "," (String " " (dump_str key
      (String ":" (String " " (dump v (dump_members_tail k d)))))).
Proof. reflexivity. Qed.

Lemma closes_elems_tail (k : string) (l : list json) :
  closes (dump_elems_tail k l) = true.
Proof. destruct l; reflexivity. Qed.

Lemma closes_members_tail (k : string) (d : pydict) :
  closes (dump_members_tail k d) = true.
Proof. destruct d as [|[key v] d]; reflexivity. Qed.

Lemma starts_value_spec (c : ascii) :
  starts_value c = true ->
  is_ws c = false /\ Ascii.eqb c "]" = false /\ Ascii.eqb c "}" = false.
Proof.
  destruct c as [[|] [|] [|] [|] [|] [|] [|] [|]];
    (discriminate || (intros _; repeat split)).
Qed.

Lemma dump_int_head (z : Z) (k : string) :
  exists c s, dump_int z k = String c s
              /\ (Ascii.eqb c "-" || is_digit c) = true.
Proof.
  unfold dump_int. destruct z as [|p|p]; simpl.
  - eexists _, _. split; reflexivity.
  - destruct (parse_digits p EmptyString eq_refl) as (c & ds' & -> & Hc & _).
    exists c, (ds' ++ k)%string. split; [reflexivity|].
    rewrite Hc. apply orb_true_r.
  - eexists _, _. split; reflexivity.
Qed.

Lemma dump_head (v : json) (k : string) :
  exists c s, dump v k = String c s /\ starts_value c = true.
Proof.
  destruct v as [|[|]|z|s|[|v l]|[|[key v] d]];
    try (eexists _, _; split; reflexivity).
  destruct (dump_int_head z k) as (c & s & E & H).
  exists c, s. split; [exact E|].
  unfold starts_value. rewrite <- orb_assoc, H. 
  repeat rewrite orb_true_r. reflexivity.
Qed.

Lemma skip_ws_nonws (c : ascii) (s : string) :
  is_ws c = false -> skip_ws (String c s) = String c s.
Proof. intros H. simpl. rewrite H. reflexivity. Qed.

Lemma skip_ws_value (v : json) (k : string) :
  skip_ws (dump v k) = dump v k.
Proof.
  destruct (dump_head v k) as (c & s & -> & H).
  apply starts_value_spec in H. destruct H as (H & _).
  simpl. rewrite H. reflexivity.
Qed.

Lemma parse_value_space (f : nat) (s : string) :
  parse_value f (String " " s) = parse_value f s.
Proof. destruct f; reflexivity. Qed.

Lemma parse_elems_space (f : nat) (s : string) :
  parse_elems f (String " " s) = parse_elems f s.
Proof.
  destruct f; [reflexivity|]. simpl. rewrite parse_value_space.
  reflexivity.
Qed.

Lemma parse_members_space (f : nat) (s : string) :
  parse_members f (String " " s) = parse_members f s.
Proof. destruct f; reflexivity. Qed.

Lemma parse_value_int (f : nat) (c : ascii) (s : string) :
  (Ascii.eqb c "-" || is_digit c) = true ->
  parse_value (S f) (String c s)
  = match parse_int (String c s) with
    | Some (z, rest) => Some (JInt z, rest)
    | None => None
    end.
Proof.
  destruct c as [[|] [|] [|] [|] [|] [|] [|] [|]];
    (discriminate || (intros _; reflexivity)).
Qed.

Lemma parse_value_str (f : nat) (s : string) :
  parse_value (S f) (String dquote s)
  = match parse_string s with
    | Some (str, rest) => Some (JStr str, rest)
    | None => None
    end.
Proof. reflexivity. Qed.

Lemma parse_value_list (f : nat) (c : ascii) (s : string) :
  starts_value c = true ->
  parse_value (S f) (String "[" (String c s))
  = match parse_elems f (String c s) with
    | Some (l, rest) => Some (JList l, rest)
    | None => None
    end.
Proof.
  intros H. apply starts_value_spec in H. destruct H as (Hw & Hb & _).
  cbn [parse_value skip_ws]. change (is_ws "[") with false.
  cbn iota. change (Ascii.eqb "[" dquote) with false.
  change (Ascii.eqb "[" "[") with true. cbn iota.
  rewrite (skip_ws_nonws c s Hw), Hb. reflexivity.
Qed.

Lemma parse_value_dict (f : nat) (c : ascii) (s : string) :
  starts_value c = true ->
  parse_value (S f) (String "{" (String c s))
  = match parse_members f (String c s) with
    | Some (pairs, rest) => Some (JDict (dict_of_pairs pairs), rest)
    | None => None
    end.
Proof.
  intros H. apply starts_value_spec in H. destruct H as (Hw & _ & Hb).
  cbn [parse_value skip_ws]. change (is_ws "{") with false.
  cbn iota. change (Ascii.eqb "{" dquote) with false.
  change (Ascii.eqb "{" "[") with false.
  change (Ascii.eqb "{" "{") with true. cbn iota.
  rewrite (skip_ws_nonws c s Hw), Hb. reflexivity.
Qed.

End JsonValues.

Section JsonDicts.

Lemma dict_get_set_same (key : string) (value : json) (d : pydict) :
  dict_get key (dict_set key value d) = Some value.
Proof.
  induction d as [|[k v] d IH]; simpl.
  - rewrite String.eqb_refl. reflexivity.
  - destruct (String.eqb k key) eqn:E; simpl; rewrite E; auto.
Qed.

Lemma dict_get_set_other (key key' : string) (value : json) (d : pydict) :
  key' <> key ->
  dict_get key' (dict_set key value d) = dict_get key' d.
Proof.
  intros Hne. induction d as [|[k v] d IH]; simpl.
  - destruct (String.eqb_spec key key'); congruence.
  - destruct (String.eqb_spec k key) as [-> | Hk]; simpl.
    + destruct (String.eqb_spec key key'); congruence.
    + rewrite IH. reflexivity.
Qed.

Lemma dict_set_fresh (key : string) (value : json) (d : pydict) :
  dict_get key d = None ->
  dict_set key value d = (d ++ [(key, value)])%list.
Proof.
  induction d as [|[k v] d IH]; simpl; auto.
  destruct (String.eqb k key); [discriminate|].
  intros H. rewrite IH; auto.
Qed.

Lemma dict_get_app (key : string) (d1 d2 : pydict) :
  dict_get key (d1 ++ d2)%list
  = match dict_get key d1 with
    | Some v => Some v
    | None => dict_get key d2
    end.
Proof.
  induction d1 as [|[k v] d1 IH]; simpl; auto.
  destruct (String.eqb k key); auto.
Qed.

Lemma fold_dict_set_distinct (l acc : pydict) :
  keys_distinct l = true ->
  (forall key v, In (key, v) l -> dict_get key acc = None) ->
  fold_left (fun d kv => dict_set (fst kv) (snd kv) d) l acc
  = (acc ++ l)%list.
Proof.
  revert acc. induction l as [|[k v] l IH]; intros acc Hd Hacc; simpl.
  - rewrite app_nil_r. reflexivity.
  - simpl in Hd. destruct (dict_get k l) eqn:Hk; [discriminate|].
    rewrite dict_set_fresh by (apply (Hacc k v); simpl; auto).
    rewrite IH; auto.
    + rewrite <- app_assoc. reflexivity.
    + intros key v' Hin. rewrite dict_get_app.
      rewrite (Hacc key v') by (simpl; auto). simpl.
      destruct (String.eqb_spec k key) as [-> | _]; auto.
      exfalso. clear - Hk Hin.
      induction l as [|[k1 v1] l IHl]; simpl in *; auto.
      destruct Hin as [Hin | Hin].
      * injection Hin as -> ->. rewrite String.eqb_refl in Hk.
        discriminate.
      * destruct (String.eqb k1 key); [discriminate | auto].
Qed.

(** A dict built from the pairs of a dict is that dict. *)
Lemma dict_of_pairs_distinct (d : pydict) :
  keys_distinct d = true -> dict_of_pairs d = d.
Proof.
  intros H. unfold dict_of_pairs.
  rewrite fold_dict_set_distinct; auto.
Qed.

Lemma keys_distinct_set (key : string) (value : json) (d : pydict) :
  keys_distinct d = true -> keys_distinct (dict_set key value d) = true.
Proof.
  induction d as [|[k v] d IH]; simpl; auto.
  destruct (dict_get k d) eqn:Hk; [discriminate|]. intros Hd.
  destruct (String.eqb_spec k key) as [-> | Hne]; simpl.
  - rewrite Hk. exact Hd.
  - rewrite dict_get_set_other by exact Hne. rewrite Hk. auto.
Qed.

Lemma wf_members_set (key : string) (value : json) (d : pydict) :
  wf_json value = true -> wf_members d = true ->
  wf_members (dict_set key value d) = true.
Proof.
  intros Hv. induction d as [|[k v] d IH]; simpl.
  - rewrite Hv. reflexivity.
  - intros H. apply andb_true_iff in H. destruct H as [H1 H2].
    destruct (String.eqb k key); simpl.
    + rewrite Hv, H2. reflexivity.
    + rewrite H1, IH; auto.
Qed.

Lemma wf_dict_iff (d : pydict) :
  wf_json (JDict d) = (keys_distinct d && wf_members d)%bool.
Proof. reflexivity. Qed.

(** Assigning a Python value to a key of a dict gives a dict. *)
Lemma wf_dict_set (key : string) (value : json) (d : pydict) :
  wf_json value = true -> wf_json (JDict d) = true ->
  wf_json (JDict (dict_set key value d)) = true.
Proof.
  rewrite !wf_dict_iff. intros Hv H.
  apply andb_true_iff in H. destruct H as [H1 H2].
  rewrite keys_distinct_set, wf_members_set; auto.
Qed.

End JsonDicts.

Section JsonScanner.

Lemma scans_value_step (f : nat) :
  scans_elems f -> scans_members f -> scans_value (S f).
Proof.
  intros He Hm v k Hsize Hwf Hk.
  destruct v as [|[|]|z|s|[|v l]|[|[key v] d]]; try reflexivity.
  - (* an integer *)
    destruct (dump_int_head z k) as (c & s & E & H).
    change (dump (JInt z) k) with (dump_int z k).
    rewrite E, parse_value_int by exact H.
    rewrite <- E, parse_dump_int by exact Hk. reflexivity.
  - (* a string *)
    change (dump (JStr s) k) with (dump_str s k). unfold dump_str.
    rewrite parse_value_str, parse_escape_string. reflexivity.
  - (* a list with a first element *)
    rewrite dump_list_cons.
    destruct (dump_head v (dump_elems_tail k l)) as (c & s & E & H).
    simpl in Hwf. apply andb_true_iff in Hwf. destruct Hwf as [Hv Hl].
    rewrite E, parse_value_list by exact H. rewrite <- E.
    rewrite He; auto.
    simpl in Hsize. unfold size_elems. lia.
  - (* a dict with a first member *)
    rewrite dump_dict_cons.
    rewrite wf_dict_iff in Hwf.
    apply andb_true_iff in Hwf. destruct Hwf as [Hd Hw].
    simpl in Hw. apply andb_true_iff in Hw. destruct Hw as [Hv Hw].
    unfold dump_str at 1.
    rewrite parse_value_dict by reflexivity.
    change (String dquote (escape_string key (String dquote ?x)))
      with (dump_str key x).
    rewrite Hm; auto.
    + rewrite dict_of_pairs_distinct by exact Hd. reflexivity.
    + simpl in Hsize. unfold size_members. lia.
Qed.

Lemma scans_elems_step (f : nat) :
  scans_value f -> scans_elems f -> scans_elems (S f).
Proof.
  intros Hv He v l k Hsize Hwf Hl.
  cbn [parse_elems].
  rewrite Hv; auto using closes_elems_tail; [|lia].
  destruct l as [|v' l].
  - reflexivity.
  - rewrite dump_elems_tail_cons. simpl in Hl.
    apply andb_true_iff in Hl. destruct Hl as [Hv' Hl].
    cbn [skip_ws]. change (is_ws ",") with false. cbn iota.
    change (Ascii.eqb "," ",") with true. cbn iota.
    rewrite parse_elems_space, He; auto.
    unfold size_elems in *. simpl in Hsize. lia.
Qed.

Lemma scans_members_step (f : nat) :
  scans_value f -> scans_members f -> scans_members (S f).
Proof.
  intros Hv Hm key v d k Hsize Hwf Hd.
  unfold dump_str at 1. cbn [parse_members skip_ws].
  replace (is_ws dquote) with false by reflexivity. cbn iota.
  rewrite Ascii.eqb_refl, parse_escape_string.
  cbn [skip_ws]. change (is_ws ":") with false. cbn iota.
  change (Ascii.eqb ":" ":") with true. cbn iota.
  rewrite parse_value_space, Hv; auto using closes_members_tail; [|lia].
  destruct d as [|[key' v'] d].
  - reflexivity.
  - rewrite dump_members_tail_cons. simpl in Hd.
    apply andb_true_iff in Hd. destruct Hd as [Hv' Hd].
    cbn [skip_ws]. change (is_ws ",") with false. cbn iota.
    change (Ascii.eqb "," ",") with true. cbn iota.
    rewrite parse_members_space, Hm; auto.
    unfold size_members in *. simpl in Hsize. lia.
Qed.

Lemma scans_all (f : nat) :
  scans_value f /\ scans_elems f /\ scans_members f.
Proof.
  induction f as [|f (Hv & He & Hm)].
  - repeat split.
    + intros v k H. pose proof (size_pos v). lia.
    + intros v l k H. lia.
    + intros key v d k H. lia.
  - repeat split.
    + apply scans_value_step; assumption.
    + apply scans_elems_step; assumption.
    + apply scans_members_step; assumption.
Qed.

(** With fuel for its size, the scanner reads a dumped value back and
    stops right after it. *)
Lemma parse_value_dump (f : nat) (v : json) (k : string) :
  (size v <= f)%nat -> wf_json v = true -> closes k = true ->
  parse_value f (dump v k) = Some (v, k).
Proof. apply scans_all. Qed.

End JsonScanner.

Section JsonFuel.

Lemma length_app (s1 s2 : string) :
  String.length (s1 ++ s2) = (String.length s1 + String.length s2)%nat.
Proof. induction s1; simpl; auto. Qed.

Lemma length_escape_char (c : ascii) (k : string) :
  (String.length k < String.length (escape_char c k))%nat.
Proof.
  unfold escape_char.
  repeat match goal with
         | |- context [if ?b then _ else _] => destruct b
         end; simpl; lia.
Qed.

Lemma length_escape_string (s k : string) :
  (String.length k <= String.length (escape_string s k))%nat.
Proof.
  induction s as [|c s IH]; simpl; auto.
  pose proof (length_escape_char c (escape_string s k)). lia.
Qed.

Lemma length_dump_str (s k : string) :
  (2 + String.length k <= String.length (dump_str s k))%nat.
Proof.
  unfold dump_str. simpl.
  pose proof (length_escape_string s (String dquote k)) as H.
  simpl in H. lia.
Qed.

Lemma length_dump_int (z : Z) (k : string) :
  (1 + String.length k <= String.length (dump_int z k))%nat.
Proof.
  destruct (dump_int_head z EmptyString) as (c & s & E & _).
  unfold dump_int in *.
  destruct (NilZero.string_of_int (Z.to_int z)) as [|c' s'];
    [discriminate E|].
  simpl. rewrite length_app. lia.
Qed.

Lemma fits_elems (l : list json) (k : string) :
  Forall fits l ->
  (size_elems l + String.length k
   < String.length (dump_elems_tail k l))%nat.
Proof.
  induction 1 as [|v l Hv Hl IH]; simpl.
  - lia.
  - specialize (Hv (dump_elems_tail k l)).
    fold (size_elems l). fold (dump_elems_tail k l). lia.
Qed.

Lemma fits_members (d : pydict) (k : string) :
  Forall (fun kv => fits (snd kv)) d ->
  (size_members d + String.length k
   < String.length (dump_members_tail k d))%nat.
Proof.
  induction 1 as [|[key v] d Hv Hd IH]; simpl.
  - lia.
  - simpl in Hv.
    fold (size_members d). fold (dump_members_tail k d).
    pose proof (length_dump_str key
      (String ":" (String " " (dump v (dump_members_tail k d))))) as Hs.
    unfold dump_str in Hs.
    specialize (Hv (dump_members_tail k d)).
    simpl in Hs. lia.
Qed.

Lemma fits_bounded (n : nat) (v : json) : (size v <= n)%nat -> fits v.
Proof.
  revert v. induction n as [|n IH]; intros v Hn.
  { pose proof (size_pos v). lia. }
  destruct v as [|[|]|z|s|l|d]; intros k;
    try (simpl; rewrite ?length_app; simpl; lia).
  - change (dump (JInt z) k) with (dump_int z k).
    pose proof (length_dump_int z k).
    change (size (JInt z)) with 1%nat. lia.
  - change (dump (JStr s) k) with (dump_str s k).
    pose proof (length_dump_str s k).
    change (size (JStr s)) with 1%nat. lia.
  - assert (Hl : Forall fits l).
    { simpl in Hn. apply Forall_forall. intros v Hin. apply IH.
      clear - Hn Hin. induction l as [|v' l IHl]; simpl in *.
      - contradiction.
      - destruct Hin as [-> | Hin]; [lia|]. apply IHl; auto. lia. }
    destruct l as [|v l].
    + simpl. lia.
    + rewrite dump_list_cons. inversion Hl as [|? ? Hv Hl']; subst.
      pose proof (fits_elems l k Hl').
      specialize (Hv (dump_elems_tail k l)).
      simpl. fold (size_elems l). lia.
  - assert (Hd : Forall (fun kv => fits (snd kv)) d).
    { simpl in Hn. apply Forall_forall. intros [key v] Hin. apply IH.
      clear - Hn Hin. induction d as [|[key' v'] d IHd]; simpl in *.
      - contradiction.
      - destruct Hin as [Hin | Hin];
          [injection Hin as -> ->; lia|]. apply IHd; auto. lia. }
    destruct d as [|[key v] d].
    + simpl. lia.
    + rewrite dump_dict_cons. inversion Hd as [|? ? Hv Hd']; subst.
      pose proof (fits_members d k Hd').
      pose proof (length_dump_str key
        (String ":" (String " " (dump v (dump_members_tail k d))))) as Hs.
      specialize (Hv (dump_members_tail k d)).
      simpl in Hv, Hs |- *. fold (size_members d). lia.
Qed.

(** A value's text is at least as long as the fuel the value needs. *)
Lemma size_le_length (v : json) :
  (size v <= String.length (json_dumps v))%nat.
Proof.
  pose proof (fits_bounded (size v) v (le_n _) EmptyString) as H.
  simpl in H. unfold json_dumps. lia.
Qed.

(** [json.loads(json.dumps(v)) == v] for every Python value [v] of the
    model. *)
Lemma json_loads_dumps (v : json) :
  wf_json v = true -> json_loads (json_dumps v) = Some v.
Proof.
  intros Hwf. unfold json_loads.
  unfold json_dumps at 2.
  rewrite parse_value_dump; auto.
  pose proof (size_le_length v). lia.
Qed.

End JsonFuel.

(** ** What [json.loads] returns is a Python value *)

Section JsonLoadsWf.

Lemma keys_distinct_pairs (pairs acc : pydict) :
  keys_distinct acc = true ->
  keys_distinct
    (fold_left (fun d kv => dict_set (fst kv) (snd kv) d) pairs acc) = true.
Proof.
  revert acc. induction pairs as [|[k v] pairs IH]; intros acc H; simpl; auto.
  apply IH. apply keys_distinct_set. exact H.
Qed.

Lemma wf_members_pairs (pairs acc : pydict) :
  forallb (fun kv => wf_json (snd kv)) pairs = true ->
  wf_members acc = true ->
  wf_members
    (fold_left (fun d kv => dict_set (fst kv) (snd kv) d) pairs acc) = true.
Proof.
  revert acc. induction pairs as [|[k v] pairs IH]; intros acc Hp H; simpl;
    auto.
  simpl in Hp. apply andb_true_iff in Hp. destruct Hp as [Hv Hp].
  apply IH; auto. apply wf_members_set; auto.
Qed.

Lemma wf_dict_of_pairs (pairs : pydict) :
  forallb (fun kv => wf_json (snd kv)) pairs = true ->
  wf_json (JDict (dict_of_pairs pairs)) = true.
Proof.
  intros H. rewrite wf_dict_iff. unfold dict_of_pairs.
  rewrite keys_distinct_pairs, wf_members_pairs; auto.
Qed.

Ltac parsed :=
  repeat match goal with
         | H : Some _ = Some _ |- _ => injection H as <- <-
         | H : None = Some _ |- _ => discriminate H
         | H : match ?x with _ => _ end = Some _ |- _ =>
             destruct x eqn:?
         | H : (if ?b then _ else _) = Some _ |- _ => destruct b eqn:?
         | H : (let (_, _) := ?p in _) = Some _ |- _ => destruct p eqn:?
         end.

Lemma parse_all_wf (f : nat) :
  (forall s v rest, parse_value f s = Some (v, rest) -> wf_json v = true)
  /\ (forall s l rest,
        parse_elems f s = Some (l, rest) -> forallb wf_json l = true)
  /\ (forall s pairs rest,
        parse_members f s = Some (pairs, rest) ->
        forallb (fun kv => wf_json (snd kv)) pairs = true).
Proof.
  induction f as [|f (Hv & He & Hm)].
  - repeat split; intros; discriminate.
  - split; [|split].
    + intros s v rest H. cbn [parse_value] in H. parsed; try reflexivity.
      * simpl. eapply He; eassumption.
      * apply wf_dict_of_pairs. eapply Hm; eassumption.
    + intros s l rest H. cbn [parse_elems] in H. parsed; simpl.
      * erewrite Hv by eassumption. eapply He; eassumption.
      * erewrite Hv by eassumption. reflexivity.
    + intros s pairs rest H. cbn [parse_members] in H. parsed; simpl.
      * erewrite Hv by eassumption. eapply Hm; eassumption.
      * erewrite Hv by eassumption. reflexivity.
Qed.

Lemma json_loads_wf (s : string) (v : json) :
  json_loads s = Some v -> wf_json v = true.
Proof.
  unfold json_loads. intros H.
  destruct (parse_value (S (String.length s)) s) as [[v' rest]|] eqn:E;
    [|discriminate].
  destruct (skip_ws rest); [|discriminate]. injection H as <-.
  eapply (proj1 (parse_all_wf _)). exact E.
Qed.

Lemma decode_column_wf (text : option string) (v : json) :
  decode_column text = Some v -> wf_json v = true.
Proof.
  destruct text as [[|c s]|]; simpl.
  - intros [= <-]. reflexivity.
  - apply json_loads_wf.
  - intros [= <-]. reflexivity.
Qed.

Lemma json_dumps_not_empty (v : json) : json_dumps v <> EmptyString.
Proof.
  unfold json_dumps. destruct (dump_head v EmptyString) as (c & s & -> & _).
  discriminate.
Qed.

(** A text written by [json.dumps] decodes to the value dumped. *)
Lemma decode_column_dumps (v : json) :
  wf_json v = true -> decode_column (Some (json_dumps v)) = Some v.
Proof.
  intros H. unfold decode_column.
  destruct (json_dumps v) eqn:E.
  - exfalso. exact (json_dumps_not_empty v E).
  - rewrite <- E. apply json_loads_dumps. exact H.
Qed.

End JsonLoadsWf.

(** ** The session store *)

Section StoreFacts.

Import SessionStore.

Lemma select_none_existsb (sid : string) (t : list session_row) :
  select sid t = None <-> existsb (has_id sid) t = false.
Proof.
  unfold select. induction t as [|r t IH]; simpl.
  - tauto.
  - destruct (has_id sid r); simpl; [split; discriminate | exact IH].
Qed.

Lemma select_app_new (sid : string) (t : list session_row)
    (r : session_row) :
  select sid t = None -> s_session_id r = sid ->
  select sid (t ++ [r]) = Some r.
Proof.
  unfold select. intros Hnone Hid.
  induction t as [|r' t IH]; simpl in *.
  - unfold has_id. rewrite Hid, String.eqb_refl. reflexivity.
  - destruct (has_id sid r'); [discriminate | auto].
Qed.

Lemma select_app_old (sid sid' : string) (t : list session_row)
    (r : session_row) :
  s_session_id r = sid -> sid' <> sid ->
  select sid' (t ++ [r]) = select sid' t.
Proof.
  unfold select. intros Hid Hne.
  induction t as [|r' t IH]; simpl.
  - unfold has_id. rewrite Hid.
    destruct (String.eqb_spec sid sid'); congruence.
  - destruct (has_id sid' r'); auto.
Qed.

Lemma select_delete_same (sid : string) (t : list session_row) :
  select sid (filter (fun r => negb (has_id sid r)) t) = None.
Proof.
  unfold select. induction t as [|r t IH]; simpl; auto.
  destruct (has_id sid r) eqn:E; simpl; auto. rewrite E. exact IH.
Qed.

Lemma select_filter_none (sid : string) (keep : session_row -> bool)
    (t : list session_row) :
  select sid t = None -> select sid (filter keep t) = None.
Proof.
  unfold select. induction t as [|r t IH]; simpl; auto.
  destruct (has_id sid r) eqn:E; [discriminate|]. intros H.
  destruct (keep r); simpl; auto. rewrite E. auto.
Qed.

Lemma select_update (sid sid' : string) (f : session_row -> session_row)
    (t : list session_row) :
  (forall r, s_session_id (f r) = s_session_id r) ->
  select sid' (update sid f t)
  = option_map (fun r => if has_id sid r then f r else r) (select sid' t).
Proof.
  intros Hf. unfold select, update.
  induction t as [|r t IH]; simpl; auto.
  assert (E : has_id sid' (if has_id sid r then f r else r) = has_id sid' r).
  { destruct (has_id sid r); auto. unfold has_id. rewrite Hf. reflexivity. }
  rewrite E. destruct (has_id sid' r); auto.
Qed.

Lemma select_has_id (sid : string) (t : list session_row)
    (row : session_row) :
  select sid t = Some row -> has_id sid row = true.
Proof.
  unfold select. intros H. apply find_some in H. tauto.
Qed.

Lemma store_get_session_found (w : World) (sid : string)
    (row : session_row) (d : json) :
  select sid (sessions (database w)) = Some row ->
  decode_column (s_data row) = Some d ->
  get_session sid w = (Ok (Some (session_of_row row d)), w).
Proof.
  intros Hsel Hdec. unfold get_session, bind, get_db, loads_or_empty.
  rewrite Hsel, Hdec. reflexivity.
Qed.

Lemma store_get_session_missing (w : World) (sid : string) :
  select sid (sessions (database w)) = None ->
  get_session sid w = (Ok None, w).
Proof.
  intros Hsel. unfold get_session, bind, get_db. rewrite Hsel. reflexivity.
Qed.

End StoreFacts.

(** ** Lazy expiry *)

Section Expiry.

Import SessionStore.

Lemma manager_get_session_missing (w : World) (sid : string) :
  select sid (sessions (database w)) = None ->
  SessionManager.get_session sid w = (Ok None, w).
Proof.
  intros Hsel. unfold SessionManager.get_session, bind.
  rewrite store_get_session_missing by exact Hsel. reflexivity.
Qed.

Lemma manager_get_session_expired (w : World) (sid : string)
    (row : session_row) (d : json) :
  select sid (sessions (database w)) = Some row ->
  decode_column (s_data row) = Some d ->
  current_time w > s_expires_at row ->
  SessionManager.get_session sid w
  = (Ok None,
     {| database :=
          with_sessions (database w)
            (filter (fun r => negb (has_id sid r)) (sessions (database w)));
        clock := clock w;
        ticks := S (ticks w) |}).
Proof.
  intros Hsel Hdec Hexp. unfold SessionManager.get_session, bind.
  rewrite (store_get_session_found w sid row d Hsel Hdec).
  unfold SessionManager.is_expired, bind, now, ret. simpl.
  unfold current_time in Hexp.
  destruct (Z.gtb_spec (clock w (ticks w)) (s_expires_at row)); [|lia].
  reflexivity.
Qed.

End Expiry.

(** ** What the session operations do to stored records *)

Section Evolution.

Import SessionStore.

Lemma select_delete_other (sid sid' : string) (t : list session_row) :
  sid' <> sid ->
  select sid' (filter (fun r => negb (has_id sid r)) t) = select sid' t.
Proof.
  intros Hne. unfold select. induction t as [|r t IH]; simpl; auto.
  destruct (has_id sid r) eqn:E; simpl.
  - assert (E' : has_id sid' r = false).
    { unfold has_id in *. apply String.eqb_eq in E.
      destruct (String.eqb_spec (s_session_id r) sid'); congruence. }
    rewrite E'. exact IH.
  - destruct (has_id sid' r); auto.
Qed.

Lemma evolves_refl (w : World) : evolves w w.
Proof.
  repeat split; auto. intros sid row' H. exists row'. auto.
Qed.

Lemma evolves_trans (w1 w2 w3 : World) :
  evolves w1 w2 -> evolves w2 w3 -> evolves w1 w3.
Proof.
  intros (Hc1 & Ht1 & H1) (Hc2 & Ht2 & H2). repeat split.
  - congruence.
  - lia.
  - intros sid row3 Hsel3.
    destruct (H2 sid row3 Hsel3) as (row2 & Hsel2 & He2 & Hl2).
    destruct (H1 sid row2 Hsel2) as (row1 & Hsel1 & He1 & Hl1).
    exists row1. repeat split; auto; try congruence.
    destruct Hl2 as [Hl2 | (i & Hi & Hl2)].
    + destruct Hl1 as [Hl1 | (i & Hi & Hl1)].
      * left. congruence.
      * right. exists i. split; [lia | congruence].
    + right. exists i. split; [lia | congruence].
Qed.

Lemma evolves_tick (w : World) (n : nat) :
  (ticks w <= n)%nat -> evolves w (world_with w (sessions (database w)) n).
Proof.
  intros Hn. split; [reflexivity|]. split; [exact Hn|].
  intros sid row' H. exists row'. auto.
Qed.

Lemma evolves_delete (w : World) (sid : string) (n : nat) :
  (ticks w <= n)%nat ->
  evolves w
    (world_with w
       (filter (fun r => negb (has_id sid r)) (sessions (database w))) n).
Proof.
  intros Hn. split; [reflexivity|]. split; [exact Hn|].
  intros sid' row'. unfold stored. simpl.
  destruct (String.eqb_spec sid' sid) as [-> | Hne].
  - rewrite select_delete_same. discriminate.
  - rewrite select_delete_other by exact Hne. intros H.
    exists row'. auto.
Qed.

Lemma evolves_set_data (w : World) (sid text : string) :
  evolves w
    (world_with w (update sid (set_data text) (sessions (database w)))
       (ticks w)).
Proof.
  split; [reflexivity|]. split; [apply le_n|].
  intros sid' row'. unfold stored. simpl.
  rewrite select_update by reflexivity.
  destruct (select sid' (sessions (database w))) as [row|]; simpl;
    [|discriminate].
  intros [= <-]. exists row. destruct (has_id sid row); auto.
Qed.

Lemma evolves_set_last_activity (w : World) (sid : string) (i : nat) :
  (ticks w <= i)%nat ->
  evolves w
    (world_with w
       (update sid (set_last_activity (clock w i)) (sessions (database w)))
       (S i)).
Proof.
  intros Hi. split; [reflexivity|]. split; [simpl; lia|].
  intros sid' row'. unfold stored. simpl.
  rewrite select_update by reflexivity.
  destruct (select sid' (sessions (database w))) as [row|]; simpl;
    [|discriminate].
  intros [= <-]. exists row. destruct (has_id sid row); simpl; auto.
  repeat split; auto. right. exists i. split; [lia | reflexivity].
Qed.

(** The worlds a call of [get_session] can leave. *)
Lemma manager_get_session_world (w : World) (sid : string) :
  let w' := snd (SessionManager.get_session sid w) in
  w' = w
  \/ w' = world_with w
            (filter (fun r => negb (has_id sid r)) (sessions (database w)))
            (S (ticks w))
  \/ w' = world_with w
            (update sid (set_last_activity (clock w (S (ticks w))))
               (sessions (database w)))
            (S (S (ticks w))).
Proof.
  unfold SessionManager.get_session, bind, get_session, get_db,
    loads_or_empty, bind, ret, raise.
  destruct (select sid (sessions (database w))) as [row|]; simpl; auto.
  destruct (decode_column (s_data row)) as [d|]; simpl; auto.
  destruct (clock w (ticks w) >? s_expires_at row); simpl; auto.
Qed.

Lemma manager_set_session_data_world (w : World) (sid key : string)
    (value : json) :
  let w' := snd (SessionManager.set_session_data sid key value w) in
  w' = w
  \/ exists text,
       w' = world_with w (update sid (set_data text) (sessions (database w)))
              (ticks w).
Proof.
  unfold SessionManager.set_session_data, bind, get_session, get_db,
    loads_or_empty, bind, ret, raise.
  destruct (select sid (sessions (database w))) as [row|]; simpl; auto.
  destruct (decode_column (s_data row)) as [[| | | | |d]|]; simpl; auto.
  right. eexists. reflexivity.
Qed.

Lemma manager_get_session_data_world (w : World) (sid key : string)
    (default : json) :
  snd (SessionManager.get_session_data sid key default w) = w.
Proof.
  unfold SessionManager.get_session_data, bind, get_session, get_db,
    loads_or_empty, bind, ret, raise.
  destruct (select sid (sessions (database w))) as [row|]; simpl; auto.
  destruct (decode_column (s_data row)) as [[| | | | |d]|]; simpl; auto.
Qed.

Lemma validate_session_world (w : World) (sid : string) :
  snd (SessionManager.validate_session sid w)
  = snd (SessionManager.get_session sid w).
Proof.
  unfold SessionManager.validate_session, bind.
  destruct (SessionManager.get_session sid w) as [[s|e] w']; reflexivity.
Qed.

Lemma run_op_evolves (op : session_op) (w : World) : evolves w (run_op op w).
Proof.
  destruct op as [sid|sid|sid key value|sid key default|sid|sid d];
    unfold run_op, ignore.
  - destruct (manager_get_session_world w sid) as [-> | [-> | ->]].
    + apply evolves_refl.
    + apply evolves_delete. lia.
    + apply evolves_set_last_activity. lia.
  - rewrite validate_session_world.
    destruct (manager_get_session_world w sid) as [-> | [-> | ->]].
    + apply evolves_refl.
    + apply evolves_delete. lia.
    + apply evolves_set_last_activity. lia.
  - destruct (manager_set_session_data_world w sid key value)
      as [-> | [text ->]].
    + apply evolves_refl.
    + apply evolves_set_data.
  - rewrite manager_get_session_data_world. apply evolves_refl.
  - apply (evolves_set_last_activity w sid (ticks w)). lia.
  - apply evolves_set_data.
Qed.

Lemma run_ops_evolves (ops : list session_op) (w : World) :
  evolves w (run_ops ops w).
Proof.
  revert w. induction ops as [|op ops IH]; intros w; simpl.
  - apply evolves_refl.
  - eapply evolves_trans; [apply run_op_evolves | apply IH].
Qed.

Lemma evolves_missing (w w' : World) (sid : string) :
  evolves w w' -> stored sid w = None -> stored sid w' = None.
Proof.
  intros (_ & _ & H) Hnone.
  destruct (stored sid w') as [row'|] eqn:E; auto.
  destruct (H sid row' E) as (row & Hsel & _). congruence.
Qed.

End Evolution.

(** ** The JSON columns stay decodable *)

Section Columns.

Import SessionStore.

(** [create_session] writes a data column that decodes to the empty
    dict. *)
Lemma created_data_is_empty_dict : decode_column (Some "{}") = Some (JDict []).
Proof. reflexivity. Qed.

(** After a successful [set_session_data] the data column of the session
    decodes to a dict again. *)
Lemma set_session_data_keeps_dict (w : World) (sid key : string)
    (value : json) (row : session_row) (d : pydict) :
  stored sid w = Some row ->
  decode_column (s_data row) = Some (JDict d) ->
  wf_json value = true ->
  exists row',
    stored sid (snd (SessionManager.set_session_data sid key value w))
    = Some row'
    /\ decode_column (s_data row') = Some (JDict (dict_set key value d)).
Proof.
  intros Hsel Hdec Hwf.
  pose proof (decode_column_wf _ _ Hdec) as Hd.
  unfold SessionManager.set_session_data, bind.
  rewrite (store_get_session_found w sid row (JDict d) Hsel Hdec).
  eexists. split.
  - unfold stored in *. simpl. rewrite select_update by reflexivity.
    rewrite Hsel. simpl. rewrite (select_has_id sid _ row Hsel).
    reflexivity.
  - apply decode_column_dumps. apply wf_dict_set; assumption.
Qed.

(** The row [track_event] appends has an [event_data] column that
    decodes. *)
Lemma track_event_decodable (w : World) (uid : Z) (event : string)
    (event_data : option json) (sid ip ua : option string) :
  match event_data with
  | Some v => wf_json v = true
  | None => True
  end ->
  exists row,
    activities
      (database
         (snd (ActivityTracker.track_event uid event event_data sid ip ua w)))
    = (activities (database w) ++ [row])%list
    /\ decodable row = true.
Proof.
  intros Hwf. eexists. split; [reflexivity|].
  unfold decodable. cbn [a_event_data].
  destruct event_data as [v|]; [|reflexivity].
  destruct (json_truthy v); [|reflexivity].
  rewrite decode_column_dumps by exact Hwf. reflexivity.
Qed.

End Columns.

(** ** Claims about the session manager *)

Section SessionClaims.

Import SessionStore.

(** C1.  A [get] on a stored record with [now > expires_at] returns
    not-found and deletes the record: the record is gone afterwards, and
    a later [get] on the same id returns not-found again, whatever reads
    and writes of existing sessions happen in between. *)
Theorem expired_get_is_not_found_and_deletes (w : World) (sid : string)
    (row : session_row) (d : json) :
  stored sid w = Some row ->
  decode_column (s_data row) = Some d ->
  current_time w > s_expires_at row ->
  exists w1,
    SessionManager.get_session sid w = (Ok None, w1)
    /\ stored sid w1 = None
    /\ forall ops,
         SessionManager.get_session sid (run_ops ops w1)
         = (Ok None, run_ops ops w1).
Proof.
  intros Hsel Hdec Hexp. eexists. split; [|split].
  - apply (manager_get_session_expired w sid row d); assumption.
  - unfold stored. simpl. apply select_delete_same.
  - intros ops. apply manager_get_session_missing.
    apply (evolves_missing _ _ sid (run_ops_evolves ops _)).
    unfold stored. simpl. apply select_delete_same.
Qed.

Lemma expired_get_witness :
  stored "tok" stale_world = Some stale_row
  /\ decode_column (s_data stale_row) = Some (JDict [("cart", JInt 3)])
  /\ current_time stale_world > s_expires_at stale_row
  /\ exists w1,
       SessionManager.get_session "tok" stale_world = (Ok None, w1)
       /\ stored "tok" w1 = None
       /\ forall ops,
            SessionManager.get_session "tok" (run_ops ops w1)
            = (Ok None, run_ops ops w1).
Proof.
  split; [reflexivity|]. split; [reflexivity|]. split; [reflexivity|].
  apply (expired_get_is_not_found_and_deletes stale_world "tok" stale_row
           (JDict [("cart", JInt 3)])); reflexivity.
Defined.

(** C3 as stated does not hold: on an expired record that is still
    stored, [set_session_data] writes the key. *)
Lemma set_data_writes_expired_record :
  ~ set_data_noop_when_missing_or_expired.
Proof.
  intros H.
  specialize (H stale_world "tok" "k" (JInt 1)).
  assert (Hexp : stored "tok" stale_world = None
                 \/ exists row, stored "tok" stale_world = Some row
                                /\ current_time stale_world
                                   > s_expires_at row).
  { right. exists stale_row. split; reflexivity. }
  destruct (H Hexp) as [_ Hdb].
  apply (f_equal (fun db => map s_data (sessions db))) in Hdb.
  vm_compute in Hdb. discriminate Hdb.
Qed.

(** C3, amended.  On a session id that is missing from the store,
    [set_session_data] returns normally and leaves the world as it
    was. *)
Theorem set_data_on_missing_session_is_noop (w : World) (sid key : string)
    (value : json) :
  stored sid w = None ->
  SessionManager.set_session_data sid key value w = (Ok tt, w).
Proof.
  intros Hsel. unfold SessionManager.set_session_data, bind.
  rewrite store_get_session_missing by exact Hsel. reflexivity.
Qed.

Lemma set_data_on_missing_session_witness :
  stored "gone" stale_world = None
  /\ SessionManager.set_session_data "gone" "k" (JInt 1) stale_world
     = (Ok tt, stale_world).
Proof.
  split; [reflexivity|].
  apply (set_data_on_missing_session_is_noop stale_world "gone" "k" (JInt 1)).
  reflexivity.
Defined.

(** C4.  On a stored record with [now > expires_at], where
    [get_session] answers not-found, [get_session_data] still returns
    the value stored under the key and leaves the world as it was: the
    record is neither deleted nor refreshed. *)
Theorem get_session_data_bypasses_expiry (w : World) (sid key : string)
    (default : json) (row : session_row) (d : pydict) (v : json) :
  stored sid w = Some row ->
  decode_column (s_data row) = Some (JDict d) ->
  dict_get key d = Some v ->
  current_time w > s_expires_at row ->
  SessionManager.get_session_data sid key default w = (Ok v, w)
  /\ fst (SessionManager.get_session sid w) = Ok None.
Proof.
  intros Hsel Hdec Hkey Hexp. split.
  - unfold SessionManager.get_session_data, bind.
    rewrite (store_get_session_found w sid row (JDict d) Hsel Hdec).
    simpl. rewrite Hkey. reflexivity.
  - rewrite (manager_get_session_expired w sid row (JDict d)); auto.
Qed.

Lemma get_session_data_bypasses_expiry_witness :
  stored "tok" stale_world = Some stale_row
  /\ decode_column (s_data stale_row) = Some (JDict [("cart", JInt 3)])
  /\ dict_get "cart" [("cart", JInt 3)] = Some (JInt 3)
  /\ current_time stale_world > s_expires_at stale_row
  /\ SessionManager.get_session_data "tok" "cart" JNull stale_world
     = (Ok (JInt 3), stale_world)
  /\ fst (SessionManager.get_session "tok" stale_world) = Ok None.
Proof.
  split; [reflexivity|]. split; [reflexivity|]. split; [reflexivity|].
  split; [reflexivity|].
  apply (get_session_data_bypasses_expiry stale_world "tok" "cart" JNull
           stale_row [("cart", JInt 3)] (JInt 3)); reflexivity.
Defined.

(** C5 as stated does not hold: [update_session_activity] stores the
    clock reading as it is, so when the clock is set back between two
    readings the [last_activity] of a session just created goes down at
    the next [get]. *)
Lemma last_activity_follows_clock_back :
  ~ expiry_fixed_and_activity_never_decreases.
Proof.
  intros H.
  pose (w1 := snd (SessionManager.create_session 100 "tok" 7 None None
                     rewound_world)).
  pose (row :=
    {| s_session_id := "tok"; s_user_id := 7;
       s_created_at := 5; s_expires_at := 105; s_last_activity := 5;
       s_data := Some "{}";
       s_ip_address := None; s_user_agent := None |}).
  pose (row' :=
    {| s_session_id := "tok"; s_user_id := 7;
       s_created_at := 5; s_expires_at := 105; s_last_activity := 0;
       s_data := Some "{}";
       s_ip_address := None; s_user_agent := None |}).
  destruct (H w1 [OpGet "tok"] "tok" row row' eq_refl eq_refl)
    as [_ Hle].
  vm_compute in Hle. apply Hle. reflexivity.
Qed.

(** C5, amended.  Across any sequence of reads, data writes and activity
    refreshes, a stored record keeps the [expires_at] it had; and when
    the clock never runs backwards and the record's [last_activity] is
    not ahead of the clock, its [last_activity] does not decrease and is
    again not ahead of the clock. *)
Theorem expires_at_fixed_last_activity_monotone (w : World)
    (ops : list session_op) (sid : string) (row row' : session_row) :
  stored sid w = Some row ->
  stored sid (run_ops ops w) = Some row' ->
  s_expires_at row' = s_expires_at row
  /\ (monotone_clock w -> s_last_activity row <= current_time w ->
      s_last_activity row <= s_last_activity row'
      /\ s_last_activity row' <= current_time (run_ops ops w)).
Proof.
  intros Hsel Hsel'.
  destruct (run_ops_evolves ops w) as (Hclock & Hticks & H).
  destruct (H sid row' Hsel') as (row0 & Hsel0 & Hexp & Hact).
  rewrite Hsel in Hsel0. injection Hsel0 as <-.
  split; [exact Hexp|].
  intros Hmono Hnow. unfold current_time in *. rewrite Hclock.
  pose proof (Hmono (ticks w) (ticks (run_ops ops w)) Hticks).
  destruct Hact as [-> | (i & Hi & ->)]; [lia|].
  pose proof (Hmono (ticks w) i).
  pose proof (Hmono i (ticks (run_ops ops w))).
  lia.
Qed.

End SessionClaims.

Section SessionLifetime.

Import SessionStore.

Lemma sample_clock_monotone : monotone_clock live_world.
Proof.
  intros i j Hij. change (sample_clock i <= sample_clock j).
  destruct i as [|[|i]], j as [|[|j]]; unfold sample_clock; lia.
Qed.

Lemma expires_at_fixed_witness :
  let ops := [OpGet "tok"; OpSetData "tok" "k" (JInt 1);
              OpUpdateActivity "tok"] in
  let row' :=
    {| s_session_id := "tok"; s_user_id := 7;
       s_created_at := 0; s_expires_at := 10; s_last_activity := 12;
       s_data := Some (json_dumps (JDict [("cart", JInt 3); ("k", JInt 1)]));
       s_ip_address := None; s_user_agent := None |} in
  stored "tok" live_world = Some stale_row
  /\ stored "tok" (run_ops ops live_world) = Some row'
  /\ monotone_clock live_world
  /\ s_last_activity stale_row <= current_time live_world
  /\ s_expires_at row' = s_expires_at stale_row
  /\ s_last_activity stale_row <= s_last_activity row'
  /\ s_last_activity row' <= current_time (run_ops ops live_world).
Proof.
  intros ops row'.
  assert (H1 : stored "tok" live_world = Some stale_row) by reflexivity.
  assert (H2 : stored "tok" (run_ops ops live_world) = Some row')
    by (vm_compute; reflexivity).
  assert (H3 : s_last_activity stale_row <= current_time live_world)
    by (vm_compute; discriminate).
  destruct (expires_at_fixed_last_activity_monotone live_world ops "tok"
              stale_row row' H1 H2) as [He Ha].
  destruct (Ha sample_clock_monotone H3) as [Hle Hnow].
  pose proof sample_clock_monotone as Hm.
  repeat split; assumption.
Defined.



(** Creating a session under a fresh token appends its row; the
    manager reads the clock first, the store second. *)
Lemma create_session_fresh (w : World) (timeout : Z) (token : string)
    (uid : Z) (ip ua : option string) :
  stored token w = None ->
  SessionManager.create_session timeout token uid ip ua w
  = (Ok token,
     world_with w
       (sessions (database w)
        ++ [created_row timeout token uid ip ua
              (clock w (ticks w)) (clock w (S (ticks w)))])
       (S (S (ticks w)))).
Proof.
  intros Hnew. unfold stored in Hnew.
  pose proof (proj1 (select_none_existsb _ _) Hnew) as Hex.
  unfold SessionManager.create_session, create_session, bind, now, get_db.
  simpl. rewrite Hex. reflexivity.
Qed.

Lemma stored_created (w : World) (timeout : Z) (token : string)
    (uid : Z) (ip ua : option string) (t0 t1 : Z) (n : nat) :
  stored token w = None ->
  stored token
    (world_with w
       (sessions (database w)
        ++ [created_row timeout token uid ip ua t0 t1]) n)
  = Some (created_row timeout token uid ip ua t0 t1).
Proof.
  intros Hnew. unfold stored. simpl.
  apply select_app_new; [exact Hnew | reflexivity].
Qed.

(** From its creation on, a session that is still stored has the
    [expires_at] computed when it was created. *)
Lemma expires_at_as_created (w : World) (timeout : Z) (token : string)
    (uid : Z) (ip ua : option string) (ops : list session_op)
    (row' : session_row) :
  stored token w = None ->
  stored token
    (run_ops ops
       (snd (SessionManager.create_session timeout token uid ip ua w)))
  = Some row' ->
  s_expires_at row' = current_time w + timeout.
Proof.
  intros Hnew Hsel'. rewrite create_session_fresh in Hsel' by exact Hnew.
  simpl in Hsel'.
  match type of Hsel' with
  | stored _ (run_ops _ ?w1) = _ =>
      destruct (run_ops_evolves ops w1) as (_ & _ & H)
  end.
  destruct (H token row' Hsel') as (row & Hsel & Hexp & _).
  rewrite stored_created in Hsel by exact Hnew.
  injection Hsel as <-. exact Hexp.
Qed.

(** C2 as stated does not hold: when the clock advances between the
    manager's reading (which fixes [expires_at]) and the store's reading
    (which fixes [created_at]), a probe at [created_at + timeout] is
    already past [expires_at]. *)
Lemma probe_at_created_plus_timeout_expired : ~ valid_on_created_interval.
Proof.
  intros H.
  pose (w1 := snd (SessionManager.create_session 10 "tok" 7 None None
                     fresh_world)).
  pose (row :=
    {| s_session_id := "tok"; s_user_id := 7;
       s_created_at := 1; s_expires_at := 10; s_last_activity := 1;
       s_data := Some "{}";
       s_ip_address := None; s_user_agent := None |}).
  destruct (H fresh_world 10 "tok" 7 None None w1 row w1
              eq_refl eq_refl eq_refl) as [Hvalid _].
  destruct Hvalid as [s Hs].
  - split; vm_compute; discriminate.
  - vm_compute in Hs. discriminate Hs.
Qed.

(** C2, amended.  Creating a session under a fresh token stores a record
    whose [expires_at] is the manager's clock reading plus the timeout
    and whose [created_at] is the store's later reading, so that
    [expires_at] is [created_at + timeout] less the time between the two
    readings.  A [get] probe at any time up to and including
    [expires_at] finds the session; a probe at any time strictly after
    [expires_at] finds it expired. *)
Theorem session_valid_until_expires_at (w : World) (timeout : Z)
    (token : string) (uid : Z) (ip ua : option string) :
  stored token w = None ->
  exists w1 row,
    SessionManager.create_session timeout token uid ip ua w = (Ok token, w1)
    /\ stored token w1 = Some row
    /\ s_expires_at row = current_time w + timeout
    /\ s_created_at row = clock w (S (ticks w))
    /\ s_expires_at row
       = s_created_at row + timeout - (clock w (S (ticks w)) - current_time w)
    /\ forall w2,
         database w2 = database w1 ->
         (current_time w2 <= s_expires_at row ->
          fst (SessionManager.get_session token w2)
          = Ok (Some (session_of_row row (JDict []))))
         /\ (current_time w2 > s_expires_at row ->
             fst (SessionManager.get_session token w2) = Ok None).
Proof.
  intros Hnew.
  set (row := created_row timeout token uid ip ua
                (clock w (ticks w)) (clock w (S (ticks w)))).
  eexists. exists row. split; [|split; [|split; [|split; [|split]]]].
  - apply create_session_fresh. exact Hnew.
  - apply stored_created. exact Hnew.
  - reflexivity.
  - reflexivity.
  - unfold current_time. simpl. lia.
  - intros w2 Hdb.
    assert (Hsel2 : select token (sessions (database w2)) = Some row).
    { rewrite Hdb. apply stored_created. exact Hnew. }
    split; intros Ht.
    + unfold SessionManager.get_session, bind.
      erewrite store_get_session_found; [|exact Hsel2|reflexivity].
      unfold SessionManager.is_expired, bind, now, ret.
      cbn [expires_at session_of_row s_expires_at clock ticks].
      unfold current_time in Ht. cbn [s_expires_at row created_row] in Ht.
      destruct (Z.gtb_spec (clock w2 (ticks w2))
                  (s_expires_at row)); [simpl in *; lia|].
      reflexivity.
    + erewrite manager_get_session_expired;
        [reflexivity | exact Hsel2 | reflexivity | exact Ht].
Qed.

Lemma session_valid_until_expires_at_witness :
  stored "tok" fresh_world = None
  /\ exists w1 row,
       SessionManager.create_session 10 "tok" 7 None None fresh_world
       = (Ok "tok", w1)
       /\ stored "tok" w1 = Some row
       /\ s_expires_at row = current_time fresh_world + 10
       /\ s_created_at row = clock fresh_world (S (ticks fresh_world))
       /\ s_expires_at row
          = s_created_at row + 10
            - (clock fresh_world (S (ticks fresh_world))
               - current_time fresh_world)
       /\ forall w2,
            database w2 = database w1 ->
            (current_time w2 <= s_expires_at row ->
             fst (SessionManager.get_session "tok" w2)
             = Ok (Some (session_of_row row (JDict []))))
            /\ (current_time w2 > s_expires_at row ->
                fst (SessionManager.get_session "tok" w2) = Ok None).
Proof.
  split; [reflexivity|].
  apply (session_valid_until_expires_at fresh_world 10 "tok" 7 None None).
  reflexivity.
Defined.

End SessionLifetime.

(** ** Journeys *)

Section Journey.

Import BehavioralTracker.

Context {A : Type} (key : A -> Z).

Let le_key (x y : A) : Prop := key x <= key y.

Lemma insert_by_perm (x : A) (l : list A) :
  Permutation (insert_by key x l) (x :: l).
Proof.
  induction l as [|y l IH]; simpl; auto.
  destruct (key x <=? key y); auto.
  rewrite IH. apply perm_swap.
Qed.

Lemma order_by_perm (l : list A) : Permutation (order_by key l) l.
Proof.
  induction l as [|x l IH]; simpl; auto.
  rewrite insert_by_perm. auto.
Qed.

Lemma insert_by_sorted (x : A) (l : list A) :
  StronglySorted le_key l -> StronglySorted le_key (insert_by key x l).
Proof.
  induction 1 as [|y l Hs IH Hy]; simpl.
  - repeat constructor.
  - destruct (Z.leb_spec (key x) (key y)) as [Hle | Hgt].
    + constructor; [constructor; assumption|].
      constructor; [exact Hle|].
      eapply Forall_impl; [|exact Hy]. unfold le_key. intros z Hz. lia.
    + constructor; [exact IH|].
      rewrite insert_by_perm. constructor; [unfold le_key; lia | exact Hy].
Qed.

Lemma order_by_sorted (l : list A) : StronglySorted le_key (order_by key l).
Proof.
  induction l as [|x l IH]; simpl.
  - constructor.
  - apply insert_by_sorted. exact IH.
Qed.

Lemma firstn_sorted (n : nat) (l : list A) :
  StronglySorted le_key l -> StronglySorted le_key (firstn n l).
Proof.
  intros H. revert n. induction H as [|x l Hs IH Hx]; intros [|n]; simpl;
    try constructor; auto.
  apply Forall_forall. intros y Hy.
  rewrite Forall_forall in Hx. apply Hx.
  rewrite <- (firstn_skipn n l). apply in_or_app. auto.
Qed.

End Journey.

Section JourneyClaim.

Import BehavioralTracker.

Lemma sorted_map {A} (f : A -> Z) (l : list A) :
  StronglySorted (fun x y => f x <= f y) l
  <-> StronglySorted Z.le (map f l).
Proof.
  induction l as [|x l IH]; simpl.
  - split; constructor.
  - split; intros H; inversion H as [|? ? Hs Hx]; subst; constructor;
      try (apply IH; assumption).
    + apply Forall_map. exact Hx.
    + exact (proj1 (Forall_map _ _ _) Hx).
Qed.

Lemma journey_step_of_decoded (row : activity_row) (d : json) (w : World) :
  decode_column (a_event_data row) = Some d ->
  journey_step_of row w
  = (Ok {| event_type := a_event_type row; event_data := d;
           timestamp := a_timestamp row |}, w).
Proof.
  intros E. unfold journey_step_of, loads_or_empty, bind. rewrite E.
  reflexivity.
Qed.

Lemma for_each_steps (rows : list activity_row) (w : World) :
  forallb decodable rows = true ->
  exists steps,
    for_each journey_step_of rows w = (Ok steps, w)
    /\ map decoded_step rows = map Some steps
    /\ map timestamp steps = map a_timestamp rows.
Proof.
  induction rows as [|row rows IH]; intros H.
  - exists []. repeat split.
  - simpl in H. apply andb_true_iff in H. destruct H as [Hrow Hrows].
    destruct (IH Hrows) as (steps & Hrun & Hdec & Hts).
    unfold decodable in Hrow.
    destruct (decode_column (a_event_data row)) as [d|] eqn:E;
      [|discriminate].
    exists ({| event_type := a_event_type row; event_data := d;
               timestamp := a_timestamp row |} :: steps).
    split; [|split].
    + cbn [for_each]. unfold bind at 1.
      rewrite (journey_step_of_decoded row d w E).
      unfold bind. rewrite Hrun. reflexivity.
    + simpl. unfold decoded_step at 1. rewrite E, Hdec. reflexivity.
    + simpl. rewrite Hts. reflexivity.
Qed.

Lemma forallb_incl {A} (p : A -> bool) (l l' : list A) :
  incl l l' -> forallb p l' = true -> forallb p l = true.
Proof.
  intros Hincl H. rewrite forallb_forall in *. auto.
Qed.

Lemma journey_rows_of_user (uid : Z) (session_id : option string)
    (t : list activity_row) :
  incl (journey_rows uid session_id t) (filter (of_user uid) t).
Proof.
  assert (Hcap : incl (firstn 100 (order_by a_timestamp
                                     (filter (of_user uid) t)))
                   (filter (of_user uid) t)).
  { intros a Ha.
    apply (Permutation_in a (order_by_perm a_timestamp _)).
    rewrite <- (firstn_skipn 100 (order_by a_timestamp _)).
    apply in_or_app. auto. }
  unfold journey_rows. destruct session_id as [sid|]; [|exact Hcap].
  destruct (truthy (Some sid)); [|exact Hcap].
  intros a Ha.
  apply (Permutation_in a (order_by_perm a_timestamp _)) in Ha.
  apply filter_In in Ha. destruct Ha as [Hin Hp].
  apply andb_true_iff in Hp. apply filter_In. tauto.
Qed.

Lemma journey_rows_sorted (uid : Z) (session_id : option string)
    (t : list activity_row) :
  StronglySorted (fun a b => a_timestamp a <= a_timestamp b)
    (journey_rows uid session_id t).
Proof.
  unfold journey_rows.
  destruct session_id as [sid|]; [destruct (truthy (Some sid))|];
    try apply firstn_sorted; apply order_by_sorted.
Qed.

(** C7 as stated does not hold: the code tests the session id for
    truth, so with the empty text as session id the journey is the
    unfiltered one.  User 1 has three events, none of them in a session
    [""], and all three are returned. *)
Lemma journey_of_empty_session_id_returns_all :
  ~ journey_exact_for_every_session_id.
Proof.
  intros H.
  destruct (H journey_world 1 EmptyString) as (rows & steps & Hrun & Hmap & Hperm).
  { vm_compute. reflexivity. }
  vm_compute in Hperm. apply Permutation_sym, Permutation_nil in Hperm.
  subst rows. vm_compute in Hrun. injection Hrun as <-.
  discriminate Hmap.
Qed.

(** C7, amended.  When the event data of the user's activities decode,
    [get_user_journey] returns the steps of rows in ascending timestamp
    order.  Without a session filter ([None], or the empty text, which
    the code takes for no filter) the rows are the first 100, in that
    order, of the rows whose [user_id] column is the user, or all of them
    when there are fewer.  With a session id that is not empty the rows
    are exactly the rows whose [user_id] and [session_id] columns are the
    two arguments, however many. *)
Theorem journey_capped_or_exact (w : World) (uid : Z)
    (session_id : option string) :
  forallb decodable
    (filter (fun a => Z.eqb (a_user_id a) uid) (activities (database w)))
  = true ->
  exists rows steps,
    get_user_journey uid session_id w = (Ok steps, w)
    /\ map decoded_step rows = map Some steps
    /\ ascending steps
    /\ (session_id = None \/ session_id = Some EmptyString ->
        (List.length steps <= 100)%nat
        /\ List.length steps
           = Nat.min 100
               (List.length
                  (filter (fun a => Z.eqb (a_user_id a) uid)
                     (activities (database w))))
        /\ exists sorted,
             Permutation sorted
               (filter (fun a => Z.eqb (a_user_id a) uid)
                  (activities (database w)))
             /\ StronglySorted
                  (fun a b => a_timestamp a <= a_timestamp b) sorted
             /\ rows = firstn 100 sorted)
    /\ (forall sid,
          session_id = Some sid -> sid <> EmptyString ->
          Permutation rows
            (filter
               (fun a =>
                  Z.eqb (a_user_id a) uid
                  && match a_session_id a with
                     | Some s => String.eqb s sid
                     | None => false
                     end)
               (activities (database w)))).
Proof.
  intros Hdec.
  set (t := activities (database w)) in *.
  set (rows := journey_rows uid session_id t).
  pose proof (journey_rows_of_user uid session_id t) as Hincl.
  fold rows in Hincl.
  destruct (for_each_steps rows w (forallb_incl _ _ _ Hincl Hdec))
    as (steps & Hrun & Hsteps & Hts).
  assert (Hlen : List.length steps = List.length rows).
  { rewrite <- (length_map timestamp), Hts, length_map. reflexivity. }
  exists rows, steps. split; [|split; [|split; [|split]]].
  - unfold get_user_journey, bind, get_db. exact Hrun.
  - exact Hsteps.
  - unfold ascending. apply (proj2 (sorted_map timestamp steps)).
    rewrite Hts. apply (proj1 (sorted_map a_timestamp rows)).
    apply journey_rows_sorted.
  - intros Hnone.
    assert (Hrows : rows
                    = firstn 100 (order_by a_timestamp
                                    (filter (of_user uid) t))).
    { unfold rows, journey_rows. destruct Hnone as [-> | ->]; reflexivity. }
    rewrite Hlen, Hrows, length_firstn.
    rewrite (Permutation_length (order_by_perm a_timestamp _)).
    split; [lia|]. split; [reflexivity|].
    exists (order_by a_timestamp (filter (of_user uid) t)).
    split; [apply order_by_perm|]. split; [|reflexivity].
    apply (order_by_sorted a_timestamp).
  - intros sid -> Hne. unfold rows, journey_rows.
    destruct sid as [|c sid]; [contradiction|].
    cbn [truthy]. apply order_by_perm.
Qed.

(** The filter is tested for truth: an empty session id is no filter. *)
Lemma journey_of_empty_session_id_is_unscoped (w : World) (uid : Z) :
  get_user_journey uid (Some EmptyString) w = get_user_journey uid None w.
Proof. reflexivity. Qed.

Lemma journey_witness :
  forallb decodable
    (filter (fun a => Z.eqb (a_user_id a) 1)
       (activities (database journey_world))) = true
  /\ get_user_journey 1 (Some "s1") journey_world
     = (Ok [ {| event_type := "login"; event_data := JDict [];
                timestamp := 10 |};
             {| event_type := "page_view";
                event_data := JDict [("page", JStr "/cart")];
                timestamp := 30 |} ], journey_world)
  /\ exists rows steps,
       get_user_journey 1 (Some "s1") journey_world = (Ok steps, journey_world)
       /\ map decoded_step rows = map Some steps
       /\ ascending steps
       /\ (Some "s1" = None \/ Some "s1" = Some EmptyString ->
           (List.length steps <= 100)%nat
           /\ List.length steps
              = Nat.min 100
                  (List.length
                     (filter (fun a => Z.eqb (a_user_id a) 1)
                        (activities (database journey_world))))
           /\ exists sorted,
                Permutation sorted
                  (filter (fun a => Z.eqb (a_user_id a) 1)
                     (activities (database journey_world)))
                /\ StronglySorted
                     (fun a b => a_timestamp a <= a_timestamp b) sorted
                /\ rows = firstn 100 sorted)
       /\ (forall sid,
             Some "s1" = Some sid -> sid <> EmptyString ->
             Permutation rows
               (filter
                  (fun a =>
                     Z.eqb (a_user_id a) 1
                     && match a_session_id a with
                        | Some s => String.eqb s sid
                        | None => false
                        end)
                  (activities (database journey_world)))).
Proof.
  split; [vm_compute; reflexivity|].
  split; [vm_compute; reflexivity|].
  apply (journey_capped_or_exact journey_world 1 (Some "s1")).
  vm_compute. reflexivity.
Defined.

End JourneyClaim.

(** ** Conversion funnel *)

Section Funnel.

Import ActivityAnalytics.

(** C8.  Over steps [[a; b; c]] with 10, 4 and 2 distinct users, the
    funnel gives the second step the rate ["40.00%"] and the third the
    rate ["50.00%"], each the count of the step over the count of the
    step before as a percentage with two decimals, and gives the first
    step no rate. *)
Theorem funnel_rates_10_4_2 (w : World) (a b c : string) :
  count_distinct_users a (activities (database w)) = 10 ->
  count_distinct_users b (activities (database w)) = 4 ->
  count_distinct_users c (activities (database w)) = 2 ->
  get_conversion_funnel [a; b; c] w
  = (Ok [ {| step := a; users := 10; conversion_rate := None |};
          {| step := b; users := 4; conversion_rate := Some "40.00%" |};
          {| step := c; users := 2; conversion_rate := Some "50.00%" |} ],
     w).
Proof.
  intros Ha Hb Hc.
  unfold get_conversion_funnel, bind, get_db, ret.
  cbn [map]. rewrite Ha, Hb, Hc.
  vm_compute. reflexivity.
Qed.

Lemma funnel_rates_witness :
  count_distinct_users "view" (activities (database shop_world)) = 10
  /\ count_distinct_users "cart" (activities (database shop_world)) = 4
  /\ count_distinct_users "buy" (activities (database shop_world)) = 2
  /\ get_conversion_funnel ["view"; "cart"; "buy"] shop_world
     = (Ok [ {| step := "view"; users := 10; conversion_rate := None |};
             {| step := "cart"; users := 4;
                conversion_rate := Some "40.00%" |};
             {| step := "buy"; users := 2;
                conversion_rate := Some "50.00%" |} ],
        shop_world).
Proof.
  split; [vm_compute; reflexivity|].
  split; [vm_compute; reflexivity|].
  split; [vm_compute; reflexivity|].
  apply (funnel_rates_10_4_2 shop_world "view" "cart" "buy");
    vm_compute; reflexivity.
Defined.

End Funnel.

(** ** The first funnel entry *)

Section FunnelHead.

Import ActivityAnalytics.

Lemma rate_step_head (e : funnel_entry) (l : list funnel_entry) (i : nat) :
  exists l', rate_step (e :: l) (S i) = e :: l'.
Proof.
  unfold rate_step.
  destruct (users (nth (S i - 1) (e :: l) nobody) >? 0).
  - cbn [update_at]. eexists. reflexivity.
  - exists l. reflexivity.
Qed.

Lemma rate_steps_head (e : funnel_entry) (n k : nat)
    (l : list funnel_entry) :
  exists l', fold_left rate_step (seq (S k) n) (e :: l) = e :: l'.
Proof.
  revert k l. induction n as [|n IH]; intros k l; simpl.
  - exists l. reflexivity.
  - destruct (rate_step_head e l k) as (l' & ->). apply IH.
Qed.

(** Whatever the steps and the counts, the entry of the first step has
    no conversion rate. *)
Lemma funnel_first_entry_has_no_rate (w : World) (s : string)
    (steps : list string) :
  exists rest,
    get_conversion_funnel (s :: steps) w
    = (Ok ({| step := s;
              users := count_distinct_users s (activities (database w));
              conversion_rate := None |} :: rest), w).
Proof.
  unfold get_conversion_funnel, bind, get_db, ret. cbn [map List.length].
  rewrite Nat.sub_succ, Nat.sub_0_r.
  destruct (rate_steps_head
              {| step := s;
                 users := count_distinct_users s (activities (database w));
                 conversion_rate := None |}
              (List.length
                 (map (fun s0 =>
                         {| step := s0;
                            users := count_distinct_users s0
                                       (activities (database w));
                            conversion_rate := None |}) steps))
              0
              (map (fun s0 =>
                      {| step := s0;
                         users := count_distinct_users s0
                                    (activities (database w));
                         conversion_rate := None |}) steps))
    as (rest & ->).
  exists rest. reflexivity.
Qed.

End FunnelHead.

(** ** Retention sweep *)

Section Retention.

Lemma rowcount_deleted {A} (old : A -> bool) (t : list A) :
  rowcount t (filter (fun r => negb (old r)) t)
  = Z.of_nat (List.length (filter old t)).
Proof.
  unfold rowcount. f_equal.
  pose proof (filter_length old t). lia.
Qed.

Lemma delete_old_activities_run (days : Z) (w : World) :
  let cutoff := current_time w - days * 86400 in
  let kept :=
    filter (fun a => negb (a_timestamp a <? cutoff))
      (activities (database w)) in
  DataRetentionPolicy.delete_old_activities days w
  = (Ok (rowcount (activities (database w)) kept),
     {| database := with_activities (database w) kept;
        clock := clock w; ticks := S (ticks w) |}).
Proof.
  unfold DataRetentionPolicy.delete_old_activities,
    DataRetentionPolicy.cutoff_time, bind, now, get_db, put_db, ret,
    current_time.
  simpl. replace (days * 24 * 60 * 60) with (days * 86400) by lia.
  reflexivity.
Qed.

Lemma delete_old_sessions_run (days : Z) (w : World) :
  let cutoff := current_time w - days * 86400 in
  let kept :=
    filter (fun r => negb (s_created_at r <? cutoff))
      (sessions (database w)) in
  DataRetentionPolicy.delete_old_sessions days w
  = (Ok (rowcount (sessions (database w)) kept),
     {| database := with_sessions (database w) kept;
        clock := clock w; ticks := S (ticks w) |}).
Proof.
  unfold DataRetentionPolicy.delete_old_sessions,
    DataRetentionPolicy.cutoff_time, bind, now, get_db, put_db, ret,
    current_time.
  simpl. replace (days * 24 * 60 * 60) with (days * 86400) by lia.
  reflexivity.
Qed.

(** C9.  With [retention_days = 90], [delete_old_activities] removes
    exactly the activities whose [timestamp] is strictly below
    [now - 90 * 86400] and [delete_old_sessions] removes exactly the
    sessions whose [created_at] is strictly below it, [now] being the
    clock reading each sweep takes; every other row, in order, and every
    other table stay as they were, and the number returned is the
    number of rows removed. *)
Theorem retention_sweep_90_days (w : World) :
  let cutoff := current_time w - 90 * 86400 in
  (exists w',
     DataRetentionPolicy.delete_old_activities 90 w
     = (Ok (Z.of_nat
              (List.length
                 (filter (fun a => a_timestamp a <? cutoff)
                    (activities (database w))))), w')
     /\ activities (database w')
        = filter (fun a => negb (a_timestamp a <? cutoff))
            (activities (database w))
     /\ (forall a,
           In a (activities (database w'))
           <-> In a (activities (database w)) /\ ~ a_timestamp a < cutoff)
     /\ sessions (database w') = sessions (database w)
     /\ preferences (database w') = preferences (database w)
     /\ consent (database w') = consent (database w))
  /\ (exists w',
        DataRetentionPolicy.delete_old_sessions 90 w
        = (Ok (Z.of_nat
                 (List.length
                    (filter (fun r => s_created_at r <? cutoff)
                       (sessions (database w))))), w')
        /\ sessions (database w')
           = filter (fun r => negb (s_created_at r <? cutoff))
               (sessions (database w))
        /\ (forall r,
              In r (sessions (database w'))
              <-> In r (sessions (database w)) /\ ~ s_created_at r < cutoff)
        /\ activities (database w') = activities (database w)
        /\ preferences (database w') = preferences (database w)
        /\ consent (database w') = consent (database w)).
Proof.
  intros cutoff. split.
  - eexists. split.
    { rewrite delete_old_activities_run, rowcount_deleted. reflexivity. }
    split; [reflexivity|]. split; [|repeat split].
    intros a. simpl. rewrite filter_In. fold cutoff.
    destruct (Z.ltb_spec (a_timestamp a) cutoff); simpl;
      intuition (try discriminate; try lia).
  - eexists. split.
    { rewrite delete_old_sessions_run, rowcount_deleted. reflexivity. }
    split; [reflexivity|]. split; [|repeat split].
    intros r. simpl. rewrite filter_In. fold cutoff.
    destruct (Z.ltb_spec (s_created_at r) cutoff); simpl;
      intuition (try discriminate; try lia).
Qed.

(** The whole policy: the two sweeps one after the other, each with its
    own clock reading. *)
Lemma apply_retention_policy_run (days : Z) (w : World) :
  let cutoff1 := clock w (ticks w) - days * 86400 in
  let cutoff2 := clock w (S (ticks w)) - days * 86400 in
  let kept_a :=
    filter (fun a => negb (a_timestamp a <? cutoff1))
      (activities (database w)) in
  let kept_s :=
    filter (fun r => negb (s_created_at r <? cutoff2))
      (sessions (database w)) in
  DataRetentionPolicy.apply_retention_policy days w
  = (Ok {| rs_activities_deleted := rowcount (activities (database w)) kept_a;
           rs_sessions_deleted := rowcount (sessions (database w)) kept_s;
           rs_retention_days := days;
           rs_applied_at := clock w (S (S (ticks w))) |},
     {| database :=
          with_sessions (with_activities (database w) kept_a) kept_s;
        clock := clock w; ticks := S (S (S (ticks w))) |}).
Proof.
  unfold DataRetentionPolicy.apply_retention_policy, bind.
  rewrite delete_old_activities_run.
  rewrite delete_old_sessions_run. reflexivity.
Qed.

End Retention.

(** ** GDPR export and erasure *)

Section GDPR.

Lemma filter_none_negb {A} (p : A -> bool) (t : list A) :
  filter p t = [] -> filter (fun r => negb (p r)) t = t.
Proof.
  induction t as [|r t IH]; simpl; auto.
  destruct (p r); [discriminate|]. simpl. intros H. rewrite IH; auto.
Qed.

Lemma rowcount_same {A} (t : list A) : rowcount t t = 0.
Proof. unfold rowcount. rewrite Nat.sub_diag. reflexivity. Qed.

(** C10.  For a user without a preference record, [export_user_data]
    returns normally and its [preferences] entry is the empty dict; for
    a user without a row in any of the four tables, [delete_user_data]
    returns normally, all four counts are zero, and the tables are
    untouched. *)
Theorem gdpr_export_and_erase_of_absent_user (w : World) (uid : Z) :
  (find (fun p => Z.eqb (p_user_id p) uid) (preferences (database w)) = None ->
   exists e w',
     GDPRHandler.export_user_data uid w = (Ok e, w')
     /\ ex_preferences e = JDict []
     /\ database w' = database w)
  /\ (filter (SessionStore.has_user uid) (sessions (database w)) = [] ->
      filter (BehavioralTracker.of_user uid) (activities (database w)) = [] ->
      filter (fun p => Z.eqb (p_user_id p) uid) (preferences (database w))
      = [] ->
      filter (fun c => Z.eqb (c_user_id c) uid) (consent (database w)) = [] ->
      exists s w',
        GDPRHandler.delete_user_data uid w = (Ok s, w')
        /\ ds_sessions_deleted s = 0
        /\ ds_activities_deleted s = 0
        /\ ds_preferences_deleted s = 0
        /\ ds_consent_deleted s = 0
        /\ database w' = database w).
Proof.
  split.
  - intros Hpref. eexists. eexists.
    unfold GDPRHandler.export_user_data, bind, get_db, ret, now.
    rewrite Hpref. simpl. repeat split.
  - intros Hs Ha Hp Hc. eexists. eexists.
    unfold GDPRHandler.delete_user_data, bind, get_db, put_db, ret, now.
    simpl.
    rewrite (filter_none_negb _ _ Hs), (filter_none_negb _ _ Ha),
      (filter_none_negb _ _ Hp), (filter_none_negb _ _ Hc).
    rewrite !rowcount_same.
    split; [reflexivity|]. simpl. repeat split.
    destruct (database w); reflexivity.
Qed.

Lemma gdpr_absent_user_witness :
  find (fun p => Z.eqb (p_user_id p) 99) (preferences (database stale_world))
  = None
  /\ filter (SessionStore.has_user 99) (sessions (database stale_world)) = []
  /\ filter (BehavioralTracker.of_user 99)
       (activities (database stale_world)) = []
  /\ filter (fun p => Z.eqb (p_user_id p) 99)
       (preferences (database stale_world)) = []
  /\ filter (fun c => Z.eqb (c_user_id c) 99)
       (consent (database stale_world)) = []
  /\ (exists e w',
        GDPRHandler.export_user_data 99 stale_world = (Ok e, w')
        /\ ex_preferences e = JDict []
        /\ database w' = database stale_world)
  /\ (exists s w',
        GDPRHandler.delete_user_data 99 stale_world = (Ok s, w')
        /\ ds_sessions_deleted s = 0
        /\ ds_activities_deleted s = 0
        /\ ds_preferences_deleted s = 0
        /\ ds_consent_deleted s = 0
        /\ database w' = database stale_world).
Proof.
  destruct (gdpr_export_and_erase_of_absent_user stale_world 99)
    as [Hexport Herase].
  repeat (split; [reflexivity|]).
  split.
  - apply Hexport. reflexivity.
  - apply Herase; reflexivity.
Defined.

End GDPR.

(* ================================================================== *)
(** * Further properties *)
(* ================================================================== *)

(** ** Destroying, creating and reading sessions *)

Section SessionEdges.

Import SessionStore.

Lemma delete_missing_same (sid : string) (t : list session_row) :
  select sid t = None -> filter (fun r => negb (has_id sid r)) t = t.
Proof.
  unfold select. induction t as [|r t IH]; simpl; auto.
  destruct (has_id sid r); [discriminate|]. simpl. intros H.
  rewrite IH; auto.
Qed.

Lemma database_with_same_sessions (w : World) :
  with_sessions (database w) (sessions (database w)) = database w.
Proof. destruct (database w); reflexivity. Qed.

(** X1.  [destroy_session] never raises.  Afterwards the id is not
    stored, every other id is stored as before, destroying an id that is
    not stored leaves the database as it was, and so does destroying a
    second time. *)
Theorem destroy_session_idempotent (w : World) (sid : string) :
  exists w1,
    SessionManager.destroy_session sid w = (Ok tt, w1)
    /\ stored sid w1 = None
    /\ (forall sid', sid' <> sid -> stored sid' w1 = stored sid' w)
    /\ (stored sid w = None -> database w1 = database w)
    /\ database (snd (SessionManager.destroy_session sid w1)) = database w1.
Proof.
  eexists. split; [reflexivity|]. split; [|split; [|split]].
  - unfold stored. simpl. apply select_delete_same.
  - intros sid' Hne. unfold stored. simpl.
    apply select_delete_other. exact Hne.
  - intros Hnone. simpl. unfold stored in Hnone.
    rewrite delete_missing_same by exact Hnone.
    apply database_with_same_sessions.
  - simpl.
    rewrite (delete_missing_same sid
               (filter (fun r => negb (has_id sid r))
                  (sessions (database w))))
      by apply select_delete_same.
    reflexivity.
Qed.

Lemma create_duplicate_run (w : World) (timeout : Z) (token : string)
    (uid : Z) (ip ua : option string) (row : session_row) :
  stored token w = Some row ->
  SessionManager.create_session timeout token uid ip ua w
  = (Raise IntegrityError,
     {| database := database w; clock := clock w;
        ticks := S (S (ticks w)) |}).
Proof.
  intros Hsel. unfold stored in Hsel.
  assert (Hex : existsb (has_id token) (sessions (database w)) = true).
  { destruct (existsb (has_id token) (sessions (database w))) eqn:E; auto.
    apply select_none_existsb in E. congruence. }
  unfold SessionManager.create_session, create_session, bind, now, get_db.
  simpl. rewrite Hex. reflexivity.
Qed.

Lemma get_session_live_run (w : World) (sid : string)
    (row : session_row) (d : json) :
  stored sid w = Some row ->
  decode_column (s_data row) = Some d ->
  current_time w <= s_expires_at row ->
  SessionManager.get_session sid w
  = (Ok (Some (session_of_row row d)),
     world_with w
       (update sid (set_last_activity (clock w (S (ticks w))))
          (sessions (database w)))
       (S (S (ticks w)))).
Proof.
  intros Hsel Hdec Hlive.
  unfold SessionManager.get_session, bind.
  rewrite (store_get_session_found w sid row d Hsel Hdec).
  unfold SessionManager.is_expired, bind, now, ret.
  cbn [expires_at session_of_row clock ticks].
  unfold current_time in Hlive.
  destruct (Z.gtb_spec (clock w (ticks w)) (s_expires_at row)); [lia|].
  reflexivity.
Qed.

(** X2.  [create_session] under a token that is already stored raises
    the store's [IntegrityError] and leaves the database as it was: the
    stored session is not replaced. *)
Theorem create_session_duplicate_token (w : World) (timeout : Z)
    (token : string) (uid : Z) (ip ua : option string) (row : session_row) :
  stored token w = Some row ->
  exists w1,
    SessionManager.create_session timeout token uid ip ua w
    = (Raise IntegrityError, w1)
    /\ database w1 = database w
    /\ stored token w1 = Some row.
Proof.
  intros Hsel. eexists. split; [|split].
  - apply (create_duplicate_run w timeout token uid ip ua row Hsel).
  - reflexivity.
  - exact Hsel.
Qed.

Lemma create_session_duplicate_witness :
  stored "tok" live_world = Some stale_row
  /\ exists w1,
       SessionManager.create_session 3600 "tok" 9 None None live_world
       = (Raise IntegrityError, w1)
       /\ database w1 = database live_world
       /\ stored "tok" w1 = Some stale_row.
Proof.
  split; [reflexivity|].
  apply (create_session_duplicate_token live_world 3600 "tok" 9 None None
           stale_row).
  reflexivity.
Defined.

(** X3.  [get_session] on a stored session that has not expired returns
    the session as it was read, with the last activity of before the
    call, stores the clock reading taken after the expiry check as the
    new last activity, and leaves every other column and every other
    session as it was. *)
Theorem get_session_live_refreshes (w : World) (sid : string)
    (row : session_row) (d : json) :
  stored sid w = Some row ->
  decode_column (s_data row) = Some d ->
  current_time w <= s_expires_at row ->
  exists w1,
    SessionManager.get_session sid w = (Ok (Some (session_of_row row d)), w1)
    /\ stored sid w1
       = Some (set_last_activity (clock w (S (ticks w))) row)
    /\ (forall sid', sid' <> sid -> stored sid' w1 = stored sid' w)
    /\ ticks w1 = S (S (ticks w)).
Proof.
  intros Hsel Hdec Hlive. eexists. split; [|split; [|split]].
  - apply (get_session_live_run w sid row d Hsel Hdec Hlive).
  - unfold stored in *. simpl. rewrite select_update by reflexivity.
    rewrite Hsel. simpl. rewrite (select_has_id sid _ row Hsel).
    reflexivity.
  - intros sid' Hne. unfold stored. simpl.
    rewrite select_update by reflexivity.
    destruct (select sid' (sessions (database w))) as [r|] eqn:E; auto.
    simpl. apply select_has_id in E. unfold has_id in *.
    apply String.eqb_eq in E.
    destruct (String.eqb_spec (s_session_id r) sid); congruence.
  - reflexivity.
Qed.

Lemma get_session_live_witness :
  stored "tok" live_world = Some stale_row
  /\ decode_column (s_data stale_row) = Some (JDict [("cart", JInt 3)])
  /\ current_time live_world <= s_expires_at stale_row
  /\ exists w1,
       SessionManager.get_session "tok" live_world
       = (Ok (Some (session_of_row stale_row (JDict [("cart", JInt 3)]))),
          w1)
       /\ stored "tok" w1
          = Some (set_last_activity
                    (clock live_world (S (ticks live_world))) stale_row)
       /\ (forall sid', sid' <> "tok" ->
           stored sid' w1 = stored sid' live_world)
       /\ ticks w1 = S (S (ticks live_world)).
Proof.
  split; [reflexivity|]. split; [reflexivity|].
  split; [vm_compute; discriminate|].
  apply (get_session_live_refreshes live_world "tok" stale_row
           (JDict [("cart", JInt 3)])); try reflexivity.
  vm_compute. discriminate.
Defined.

End SessionEdges.

(** ** What every sequence of manager calls keeps *)

Section ManagerInvariant.

Import SessionStore.

Lemma select_none_not_in (sid : string) (t : list session_row) :
  select sid t = None -> ~ In sid (map s_session_id t).
Proof.
  unfold select. induction t as [|r t IH]; simpl; auto.
  unfold has_id at 1. destruct (String.eqb_spec (s_session_id r) sid);
    [discriminate|].
  intros H [Heq | Hin]; [congruence | exact (IH H Hin)].
Qed.

Lemma nodup_ids_app (t : list session_row) (r : session_row) :
  NoDup (map s_session_id t) ->
  select (s_session_id r) t = None ->
  NoDup (map s_session_id (t ++ [r])).
Proof.
  intros Hnd Hnone. rewrite map_app. simpl.
  apply NoDup_app; auto.
  - repeat constructor. simpl. tauto.
  - intros sid Hin [<- | []]. exact (select_none_not_in _ _ Hnone Hin).
Qed.

Lemma nodup_ids_filter (keep : session_row -> bool)
    (t : list session_row) :
  NoDup (map s_session_id t) -> NoDup (map s_session_id (filter keep t)).
Proof.
  induction t as [|r t IH]; simpl; auto.
  intros H. inversion H as [|? ? Hnotin Hnd]; subst.
  destruct (keep r); simpl; auto.
  constructor; auto.
  intros Hin. apply Hnotin. apply in_map_iff in Hin.
  destruct Hin as (r' & Hid & Hin). apply filter_In in Hin.
  apply in_map_iff. exists r'. tauto.
Qed.

Lemma ids_update (sid : string) (f : session_row -> session_row)
    (t : list session_row) :
  (forall r, s_session_id (f r) = s_session_id r) ->
  map s_session_id (update sid f t) = map s_session_id t.
Proof.
  intros Hf. unfold update. rewrite map_map. apply map_ext.
  intros r. destruct (has_id sid r); auto.
Qed.

Lemma holds_dict_update (sid : string) (f : session_row -> session_row)
    (t : list session_row) :
  (forall r, holds_dict r -> holds_dict (f r)) ->
  Forall holds_dict t -> Forall holds_dict (update sid f t).
Proof.
  intros Hf H. unfold update. apply Forall_map.
  eapply Forall_impl; [|exact H]. intros r Hr.
  destruct (has_id sid r); auto.
Qed.

Lemma holds_dict_filter (keep : session_row -> bool)
    (t : list session_row) :
  Forall holds_dict t -> Forall holds_dict (filter keep t).
Proof.
  intros H. apply Forall_forall. intros r Hin. apply filter_In in Hin.
  rewrite Forall_forall in H. apply H. tauto.
Qed.


Lemma manager_get_session_step (w : World) (sid : string) :
  table_step (sessions (database w))
    (sessions (database (snd (SessionManager.get_session sid w)))).
Proof.
  destruct (manager_get_session_world w sid) as [-> | [-> | ->]].
  - constructor.
  - simpl. apply step_delete.
  - simpl. apply (step_update _ sid (set_last_activity _)); auto.
Qed.

Lemma run_call_step (c : manager_call) (w : World) :
  call_ok c = true ->
  table_step (sessions (database w))
    (sessions (database (snd (run_call c w)))).
Proof.
  intros Hok.
  destruct c as [timeout token uid ip ua|sid|sid|sid|uid|sid key value
                |sid key default| |uid|timeout]; cbn [run_call snd].
  - destruct (stored token w) as [row|] eqn:E.
    + rewrite (create_duplicate_run w timeout token uid ip ua row E).
      simpl. constructor.
    + rewrite create_session_fresh by exact E. simpl.
      apply step_insert; [exact E|].
      exists []. reflexivity.
  - apply manager_get_session_step.
  - rewrite validate_session_world. apply manager_get_session_step.
  - simpl. apply step_delete.
  - simpl. apply step_delete.
  - unfold SessionManager.set_session_data, bind, get_session, get_db,
      loads_or_empty, bind, ret, raise.
    destruct (select sid (sessions (database w))) as [row|]; simpl;
      [|apply step_same].
    destruct (decode_column (s_data row)) as [[| | | | |d]|] eqn:E; simpl;
      try apply step_same.
    apply (step_update _ sid (set_data _)); [reflexivity|].
    intros r _. eexists. apply decode_column_dumps.
    apply wf_dict_set; [exact Hok|].
    apply (decode_column_wf _ _ E).
  - rewrite manager_get_session_data_world. constructor.
  - simpl. apply step_delete.
  - simpl. constructor.
  - simpl. constructor.
Qed.

Lemma table_step_ok (w w' : World) :
  table_step (sessions (database w)) (sessions (database w')) ->
  sessions_ok w -> sessions_ok w'.
Proof.
  intros Hstep [Hnd Hd]. unfold sessions_ok.
  destruct Hstep as [|r Hnew Hr|keep|sid f Hid Hf].
  - auto.
  - split; [apply nodup_ids_app; assumption|].
    apply Forall_app. auto.
  - split; [apply nodup_ids_filter | apply holds_dict_filter]; assumption.
  - split; [rewrite ids_update by exact Hid; exact Hnd|].
    apply holds_dict_update; assumption.
Qed.

(** X4.  Starting from a sessions table in which no two rows share an id
    and every data column decodes to a dict (an empty table, say), any
    sequence of manager calls that hand over Python values leaves such a
    table. *)
Theorem manager_calls_keep_sessions_ok (cs : list manager_call) (w : World) :
  sessions_ok w ->
  forallb call_ok cs = true ->
  sessions_ok (run_calls cs w).
Proof.
  revert w. induction cs as [|c cs IH]; intros w Hok Hcs; simpl; auto.
  simpl in Hcs. apply andb_true_iff in Hcs. destruct Hcs as [Hc Hcs].
  apply IH; auto.
  apply (table_step_ok w); auto. apply run_call_step. exact Hc.
Qed.


End ManagerInvariant.

Section ManagerInvariantWitnesses.

Lemma fresh_world_ok : sessions_ok fresh_world.
Proof. split; constructor. Qed.

Lemma manager_calls_keep_sessions_ok_witness :
  let cs := [CallCreate 10 "tok" 7 None None;
             CallSetData "tok" "cart" (JList [JInt 1; JStr "a"]);
             CallGet "tok";
             CallCreate 10 "tok" 8 None None;
             CallCleanup] in
  sessions_ok fresh_world
  /\ forallb call_ok cs = true
  /\ sessions_ok (run_calls cs fresh_world).
Proof.
  intros cs. split; [exact fresh_world_ok|]. split; [reflexivity|].
  apply (manager_calls_keep_sessions_ok cs fresh_world);
    [exact fresh_world_ok | reflexivity].
Defined.



End ManagerInvariantWitnesses.

(** ** Sweeping, counting and listing sessions *)

Section Sweep.

Import SessionStore.

Lemma is_expired_run (row : session_row) (d : json) (w : World) :
  fst (SessionManager.is_expired (session_of_row row d) w)
  = Ok (current_time w >? s_expires_at row).
Proof. reflexivity. Qed.

(** X6.  The sweep and the lazy expiry of [get_session] use the same
    test: [cleanup_expired_sessions] removes exactly the rows on which
    [is_expired] answers true at the sweep's clock reading, keeps the
    others in order (a row expiring at exactly that reading among them),
    and returns the number of rows removed. *)
Theorem cleanup_agrees_with_lazy_expiry (w : World) :
  exists w1,
    SessionManager.cleanup_expired_sessions w
    = (Ok (Z.of_nat
             (List.length
                (filter (fun r => current_time w >? s_expires_at r)
                   (sessions (database w))))), w1)
    /\ sessions (database w1)
       = filter (fun r => negb (current_time w >? s_expires_at r))
           (sessions (database w))
    /\ forall row d,
         In row (sessions (database w)) ->
         (In row (sessions (database w1))
          <-> fst (SessionManager.is_expired (session_of_row row d) w)
              = Ok false).
Proof.
  assert (Hext : forall r,
            (s_expires_at r <? current_time w)
            = (current_time w >? s_expires_at r)).
  { intros r. symmetry. apply Z.gtb_ltb. }
  eexists. split; [|split].
  - unfold SessionManager.cleanup_expired_sessions, delete_expired_sessions,
      bind, now, get_db, put_db, ret.
    cbn [fst snd database clock ticks].
    rewrite rowcount_deleted.
    rewrite (filter_ext _ _ Hext). reflexivity.
  - simpl. apply filter_ext. intros r. unfold current_time.
    rewrite Z.gtb_ltb. reflexivity.
  - intros row d Hin. rewrite is_expired_run. simpl.
    rewrite filter_In. fold (current_time w). rewrite Hext.
    destruct (current_time w >? s_expires_at row); simpl.
    + split; [intros [_ H]; discriminate | intros H; discriminate].
    + tauto.
Qed.

Lemma count_by_expiry (now_ : Z) (t : list session_row) :
  (List.length (filter (fun r => (now_ <? s_expires_at r)%Z) t)
   + List.length (filter (fun r => (s_expires_at r <? now_)%Z) t)
   + List.length (filter (fun r => (s_expires_at r =? now_)%Z) t)
   = List.length t)%nat.
Proof.
  induction t as [|r t IH]; simpl; auto.
  destruct (Z.ltb_spec now_ (s_expires_at r)),
    (Z.ltb_spec (s_expires_at r) now_),
    (Z.eqb_spec (s_expires_at r) now_); simpl; lia.
Qed.

(** X7.  Taken at the same clock reading, the sessions counted as active
    and the sessions a sweep would remove do not add up to the table:
    what is missing is the sessions that expire at exactly that reading,
    which the sweep keeps and the count leaves out. *)
Theorem active_count_leaves_out_boundary (w : World) :
  exists active swept,
    fst (SessionStore.get_active_sessions_count w) = Ok active
    /\ fst (SessionManager.cleanup_expired_sessions w) = Ok swept
    /\ active + swept
       + Z.of_nat
           (List.length
              (filter (fun r => s_expires_at r =? current_time w)
                 (sessions (database w))))
       = Z.of_nat (List.length (sessions (database w))).
Proof.
  eexists. eexists. split; [reflexivity|]. split.
  - unfold SessionManager.cleanup_expired_sessions, delete_expired_sessions,
      bind, now, get_db, put_db, ret.
    cbn [fst snd database clock ticks]. rewrite rowcount_deleted.
    reflexivity.
  - pose proof (count_by_expiry (current_time w) (sessions (database w))).
    unfold current_time in *. cbn [database clock ticks]. lia.
Qed.

(** X8.  [set_session_data] on one key of one session changes nothing
    else: [get_session_data] on any other key of that session answers as
    before, and every other session is stored as before. *)
Theorem set_session_data_frame (w : World) (sid key key' : string)
    (value default : json) (row : session_row) (d : pydict) :
  stored sid w = Some row ->
  decode_column (s_data row) = Some (JDict d) ->
  wf_json value = true ->
  key' <> key ->
  let w1 := snd (SessionManager.set_session_data sid key value w) in
  fst (SessionManager.get_session_data sid key' default w1)
  = fst (SessionManager.get_session_data sid key' default w)
  /\ (forall sid', sid' <> sid -> stored sid' w1 = stored sid' w).
Proof.
  intros Hsel Hdec Hwf Hne w1.
  pose proof (decode_column_wf _ _ Hdec) as Hd.
  pose proof (wf_dict_set key value d Hwf Hd) as Hd'.
  assert (Hw1 : w1 = world_with w
                       (update sid
                          (set_data (json_dumps
                                       (JDict (dict_set key value d))))
                          (sessions (database w)))
                       (ticks w)).
  { unfold w1, SessionManager.set_session_data, bind.
    rewrite (store_get_session_found w sid row (JDict d) Hsel Hdec).
    reflexivity. }
  rewrite Hw1. split.
  - unfold SessionManager.get_session_data, bind.
    rewrite (store_get_session_found w sid row (JDict d) Hsel Hdec).
    rewrite (store_get_session_found _ sid
               (set_data (json_dumps (JDict (dict_set key value d))) row)
               (JDict (dict_set key value d))).
    + simpl. rewrite dict_get_set_other by exact Hne. reflexivity.
    + unfold stored in Hsel. simpl.
      rewrite select_update by reflexivity. rewrite Hsel. simpl.
      rewrite (select_has_id sid _ row Hsel). reflexivity.
    + apply decode_column_dumps. exact Hd'.
  - intros sid' Hne'. unfold stored. simpl.
    rewrite select_update by reflexivity.
    destruct (select sid' (sessions (database w))) as [r|] eqn:E; auto.
    simpl. apply select_has_id in E. unfold has_id in *.
    apply String.eqb_eq in E.
    destruct (String.eqb_spec (s_session_id r) sid); congruence.
Qed.

Lemma set_session_data_frame_witness :
  stored "tok" live_world = Some stale_row
  /\ decode_column (s_data stale_row) = Some (JDict [("cart", JInt 3)])
  /\ wf_json (JStr "dark") = true
  /\ "cart" <> "theme"
  /\ (let w1 :=
        snd (SessionManager.set_session_data "tok" "theme" (JStr "dark")
               live_world) in
      fst (SessionManager.get_session_data "tok" "cart" JNull w1)
      = fst (SessionManager.get_session_data "tok" "cart" JNull live_world)
      /\ (forall sid', sid' <> "tok" ->
          stored sid' w1 = stored sid' live_world)).
Proof.
  split; [reflexivity|]. split; [reflexivity|]. split; [reflexivity|].
  split; [discriminate|].
  apply (set_session_data_frame live_world "tok" "theme" "cart"
           (JStr "dark") JNull stale_row [("cart", JInt 3)]);
    try reflexivity.
  discriminate.
Defined.

Lemma filter_filter_negb {A} (p : A -> bool) (t : list A) :
  filter p (filter (fun r => negb (p r)) t) = [].
Proof.
  induction t as [|r t IH]; simpl; auto.
  destruct (p r) eqn:E; simpl; auto. rewrite E. exact IH.
Qed.

Lemma filter_negb_idem {A} (p : A -> bool) (t : list A) :
  filter (fun r => negb (p r)) (filter (fun r => negb (p r)) t)
  = filter (fun r => negb (p r)) t.
Proof.
  induction t as [|r t IH]; simpl; auto.
  destruct (p r) eqn:E; simpl; auto. rewrite E. simpl. f_equal. exact IH.
Qed.

(** X9.  For a user id in the 64 bits SQLite binds,
    [destroy_user_sessions] returns normally and removes every session
    of the user, expired or not: [get_user_sessions] lists none
    afterwards, and the sessions of all other users stay, in order. *)
Theorem destroy_user_sessions_removes_all (w : World) (uid : Z) :
  int64 uid = true ->
  exists w1,
    SessionManager.destroy_user_sessions uid w = (Ok tt, w1)
    /\ UserSessions.get_user_sessions uid w1 = (Ok [], w1)
    /\ sessions (database w1)
       = filter (fun r => negb (has_user uid r)) (sessions (database w))
    /\ forall uid', uid' <> uid ->
         fst (UserSessions.get_user_sessions uid' w1)
         = fst (UserSessions.get_user_sessions uid' w).
Proof.
  intros _.
  eexists. split; [reflexivity|]. split; [|split].
  - unfold UserSessions.get_user_sessions,
      UserSessions.store_get_user_sessions, bind, get_db, ret.
    simpl. rewrite filter_filter_negb. reflexivity.
  - reflexivity.
  - intros uid' Hne.
    unfold UserSessions.get_user_sessions,
      UserSessions.store_get_user_sessions, bind, get_db, ret.
    simpl. f_equal. f_equal.
    induction (sessions (database w)) as [|r t IH]; simpl; auto.
    destruct (has_user uid r) eqn:E; simpl.
    + assert (E' : has_user uid' r = false).
      { unfold has_user in *. apply Z.eqb_eq in E.
        destruct (Z.eqb_spec (s_user_id r) uid'); congruence. }
      rewrite E'. exact IH.
    + destruct (has_user uid' r); simpl; rewrite IH; reflexivity.
Qed.

Lemma destroy_user_sessions_witness :
  int64 7 = true
  /\ exists w1,
       SessionManager.destroy_user_sessions 7 live_world = (Ok tt, w1)
       /\ UserSessions.get_user_sessions 7 w1 = (Ok [], w1)
       /\ sessions (database w1)
          = filter (fun r => negb (has_user 7 r))
              (sessions (database live_world))
       /\ forall uid', uid' <> 7 ->
            fst (UserSessions.get_user_sessions uid' w1)
            = fst (UserSessions.get_user_sessions uid' live_world).
Proof.
  split; [reflexivity|].
  apply (destroy_user_sessions_removes_all live_world 7). reflexivity.
Defined.

(** X10.  [get_user_sessions] has no expiry check: a session that has
    expired but was not yet removed by a read or a sweep is still
    listed, and listing it neither removes nor refreshes it. *)
Theorem get_user_sessions_lists_expired (w : World) (sid : string)
    (row : session_row) :
  stored sid w = Some row ->
  current_time w > s_expires_at row ->
  exists l,
    UserSessions.get_user_sessions (s_user_id row) w = (Ok l, w)
    /\ In (UserSessions.summary_of_row row) l.
Proof.
  intros Hsel Hexp. eexists. split; [reflexivity|].
  apply in_map. apply filter_In.
  unfold stored, select in Hsel. apply find_some in Hsel.
  split; [tauto|]. unfold has_user. apply Z.eqb_refl.
Qed.

Lemma get_user_sessions_lists_expired_witness :
  stored "tok" stale_world = Some stale_row
  /\ current_time stale_world > s_expires_at stale_row
  /\ exists l,
       UserSessions.get_user_sessions (s_user_id stale_row) stale_world
       = (Ok l, stale_world)
       /\ In (UserSessions.summary_of_row stale_row) l.
Proof.
  split; [reflexivity|]. split; [reflexivity|].
  apply (get_user_sessions_lists_expired stale_world "tok" stale_row);
    reflexivity.
Defined.

End Sweep.

(** ** Tracking and reading activities *)

Section Activities.

Import BehavioralTracker ActivityQueries.

Lemma track_event_run (w : World) (uid : Z) (event : string)
    (event_data : option json) (sid ip ua : option string) :
  ActivityTracker.track_event uid event event_data sid ip ua w
  = (Ok tt,
     {| database :=
          {| sessions := sessions (database w);
             activities :=
               activities (database w)
               ++ [{| a_id := Z.max (activities_seq (database w)) 0 + 1;
                      a_user_id := uid; a_session_id := sid;
                      a_event_type := event;
                      a_event_data :=
                        match event_data with
                        | Some v =>
                            if json_truthy v then Some (json_dumps v)
                            else None
                        | None => None
                        end;
                      a_ip_address := ip; a_user_agent := ua;
                      a_timestamp := clock w (ticks w) |}];
             activities_seq := Z.max (activities_seq (database w)) 0 + 1;
             preferences := preferences (database w);
             consent := consent (database w) |};
        clock := clock w; ticks := S (ticks w) |}).
Proof. reflexivity. Qed.

(** X11.  [track_event] appends one row for the user, stamped with the
    clock reading, and touches nothing else.  Event data that is true in
    Python's sense is read back as it was given; event data that is
    false ([None], [{}], [[]], [0], [''], [False]) is stored as [NULL]
    and read back as the empty dict. *)
Theorem track_event_round_trip (w : World) (uid : Z) (event : string)
    (v : json) (sid ip ua : option string) :
  wf_json v = true ->
  exists row w1,
    ActivityTracker.track_event uid event (Some v) sid ip ua w = (Ok tt, w1)
    /\ activities (database w1) = (activities (database w) ++ [row])%list
    /\ sessions (database w1) = sessions (database w)
    /\ a_user_id row = uid
    /\ a_session_id row = sid
    /\ a_timestamp row = current_time w
    /\ decoded_step row
       = Some {| event_type := event;
                 event_data := if json_truthy v then v else JDict [];
                 timestamp := current_time w |}.
Proof.
  intros Hwf. eexists. eexists.
  split; [apply track_event_run|].
  repeat (split; [reflexivity|]).
  unfold decoded_step. cbn [a_event_data a_event_type a_timestamp].
  destruct (json_truthy v); [|reflexivity].
  rewrite decode_column_dumps by exact Hwf. reflexivity.
Qed.

Lemma track_event_round_trip_witness :
  wf_json (JList []) = true
  /\ exists row w1,
       ActivityTracker.track_event 1 "search" (Some (JList []))
         (Some "s1") None None journey_world = (Ok tt, w1)
       /\ activities (database w1)
          = (activities (database journey_world) ++ [row])%list
       /\ sessions (database w1) = sessions (database journey_world)
       /\ a_user_id row = 1
       /\ a_session_id row = Some "s1"
       /\ a_timestamp row = current_time journey_world
       /\ decoded_step row
          = Some {| event_type := "search";
                    event_data :=
                      if json_truthy (JList []) then JList [] else JDict [];
                    timestamp := current_time journey_world |}.
Proof.
  split; [reflexivity|].
  apply (track_event_round_trip journey_world 1 "search" (JList [])
           (Some "s1") None None).
  reflexivity.
Defined.

Lemma activity_of_decoded (row : activity_row) (d : json) (w : World) :
  decode_column (a_event_data row) = Some d ->
  activity_of row w
  = (Ok {| act_id := a_id row; act_event_type := a_event_type row;
           act_event_data := d; act_timestamp := a_timestamp row;
           act_session_id := a_session_id row |}, w).
Proof.
  intros E. unfold activity_of, loads_or_empty, bind. rewrite E.
  reflexivity.
Qed.

Lemma for_each_activities (rows : list activity_row) (w : World) :
  forallb decodable rows = true ->
  exists acts,
    for_each activity_of rows w = (Ok acts, w)
    /\ map act_timestamp acts = map a_timestamp rows
    /\ map act_id acts = map a_id rows.
Proof.
  induction rows as [|row rows IH]; intros H.
  - exists []. repeat split.
  - simpl in H. apply andb_true_iff in H. destruct H as [Hrow Hrows].
    destruct (IH Hrows) as (acts & Hrun & Hts & Hid).
    unfold decodable in Hrow.
    destruct (decode_column (a_event_data row)) as [d|] eqn:E;
      [|discriminate].
    eexists (_ :: acts). split; [|split].
    + cbn [for_each]. unfold bind at 1.
      rewrite (activity_of_decoded row d w E).
      unfold bind. rewrite Hrun. reflexivity.
    + simpl. rewrite Hts. reflexivity.
    + simpl. rewrite Hid. reflexivity.
Qed.

Lemma typed_activity_of_decoded (row : activity_row) (d : json)
    (w : World) :
  decode_column (a_event_data row) = Some d ->
  typed_activity_of row w
  = (Ok {| ta_id := a_id row; ta_event_type := a_event_type row;
           ta_event_data := d; ta_timestamp := a_timestamp row |}, w).
Proof.
  intros E. unfold typed_activity_of, loads_or_empty, bind. rewrite E.
  reflexivity.
Qed.

Lemma for_each_typed (rows : list activity_row) (w : World) :
  forallb decodable rows = true ->
  exists acts,
    for_each typed_activity_of rows w = (Ok acts, w)
    /\ List.length acts = List.length rows.
Proof.
  induction rows as [|row rows IH]; intros H.
  - exists []. repeat split.
  - simpl in H. apply andb_true_iff in H. destruct H as [Hrow Hrows].
    destruct (IH Hrows) as (acts & Hrun & Hlen).
    unfold decodable in Hrow.
    destruct (decode_column (a_event_data row)) as [d|] eqn:E;
      [|discriminate].
    eexists (_ :: acts). split.
    + cbn [for_each]. unfold bind at 1.
      rewrite (typed_activity_of_decoded row d w E).
      unfold bind. rewrite Hrun. reflexivity.
    + simpl. rewrite Hlen. reflexivity.
Qed.

Lemma newest_first_perm (l : list activity_row) :
  Permutation (newest_first l) l.
Proof. apply order_by_perm. Qed.

Lemma newest_first_sorted (l : list activity_row) :
  StronglySorted (fun a b => a_timestamp b <= a_timestamp a)
    (newest_first l).
Proof.
  pose proof (order_by_sorted (fun a => - a_timestamp a) l) as H.
  unfold newest_first.
  induction H as [|a l' Hs IH Ha]; constructor; auto.
  eapply Forall_impl; [|exact Ha]. simpl. intros b Hb. lia.
Qed.

Lemma limit_rows_incl {A} (limit : Z) (l : list A) :
  incl (limit_rows limit l) l.
Proof.
  unfold limit_rows. destruct (limit <? 0); [apply incl_refl|].
  intros a Ha. rewrite <- (firstn_skipn (Z.to_nat limit) l).
  apply in_or_app. auto.
Qed.

Lemma limit_rows_sorted {A} (R : A -> A -> Prop) (limit : Z) (l : list A) :
  StronglySorted R l -> StronglySorted R (limit_rows limit l).
Proof.
  intros H. unfold limit_rows. destruct (limit <? 0); auto.
  generalize (Z.to_nat limit) as n.
  induction H as [|x l' Hs IH Hx]; intros [|n]; simpl;
    try constructor; auto.
  apply Forall_forall. intros y Hy.
  rewrite Forall_forall in Hx. apply Hx.
  rewrite <- (firstn_skipn n l'). apply in_or_app. auto.
Qed.

Lemma sorted_desc_map {A} (f : A -> Z) (l : list A) :
  StronglySorted (fun x y => f y <= f x) l
  <-> StronglySorted Z.ge (map f l).
Proof.
  induction l as [|x l IH]; simpl.
  - split; constructor.
  - split; intros H; inversion H as [|? ? Hs Hx]; subst; constructor;
      try (apply IH; assumption).
    + apply Forall_map. eapply Forall_impl; [|exact Hx].
      simpl. intros; lia.
    + pose proof (proj1 (Forall_map _ _ _) Hx) as Hx'.
      eapply Forall_impl; [|exact Hx']. simpl. intros; lia.
Qed.

(** X12.  When the event data of the user's activities decode,
    [get_user_activities] returns activities of that user, newest first,
    and as many as the limit allows: all of them under a negative limit,
    otherwise the smaller of the limit and their number. *)
Theorem get_user_activities_newest_first (w : World) (uid : Z)
    (limit : Z) :
  forallb decodable (filter (of_user uid) (activities (database w))) = true ->
  exists acts,
    get_user_activities uid limit w = (Ok acts, w)
    /\ StronglySorted (fun a b => act_timestamp b <= act_timestamp a) acts
    /\ List.length acts
       = (if limit <? 0
          then List.length (filter (of_user uid) (activities (database w)))
          else Nat.min (Z.to_nat limit)
                 (List.length
                    (filter (of_user uid) (activities (database w)))))
    /\ forall id_, In id_ (map act_id acts) ->
         exists row, In row (activities (database w))
                     /\ a_user_id row = uid /\ a_id row = id_.
Proof.
  intros Hdec.
  set (mine := filter (of_user uid) (activities (database w))) in *.
  set (rows := limit_rows limit (newest_first mine)).
  assert (Hincl : incl rows mine).
  { intros a Ha. apply limit_rows_incl in Ha.
    apply (Permutation_in a (newest_first_perm mine)). exact Ha. }
  destruct (for_each_activities rows w (forallb_incl _ _ _ Hincl Hdec))
    as (acts & Hrun & Hts & Hid).
  exists acts. split; [exact Hrun|]. split; [|split].
  - apply (proj2 (sorted_desc_map act_timestamp acts)). rewrite Hts.
    apply (proj1 (sorted_desc_map a_timestamp rows)).
    apply limit_rows_sorted. apply newest_first_sorted.
  - rewrite <- (length_map act_timestamp), Hts, length_map.
    unfold rows, limit_rows. destruct (limit <? 0).
    + apply Permutation_length. apply newest_first_perm.
    + rewrite length_firstn.
      rewrite (Permutation_length (newest_first_perm mine)). reflexivity.
  - intros id_ Hin. rewrite Hid in Hin. apply in_map_iff in Hin.
    destruct Hin as (row & Hrow & Hin). apply Hincl in Hin.
    apply filter_In in Hin. destruct Hin as [Hin Hu].
    exists row. repeat split; auto. apply Z.eqb_eq. exact Hu.
Qed.

Lemma get_user_activities_witness :
  forallb decodable
    (filter (of_user 1) (activities (database journey_world))) = true
  /\ exists acts,
       get_user_activities 1 2 journey_world = (Ok acts, journey_world)
       /\ StronglySorted (fun a b => act_timestamp b <= act_timestamp a) acts
       /\ List.length acts
          = (if 2 <? 0
             then List.length
                    (filter (of_user 1) (activities (database journey_world)))
             else Nat.min (Z.to_nat 2)
                    (List.length
                       (filter (of_user 1)
                          (activities (database journey_world)))))
       /\ forall id_, In id_ (map act_id acts) ->
            exists row, In row (activities (database journey_world))
                        /\ a_user_id row = 1 /\ a_id row = id_.
Proof.
  split; [vm_compute; reflexivity|].
  apply (get_user_activities_newest_first journey_world 1 2).
  vm_compute. reflexivity.
Defined.

(** X13.  [get_activity_count] tests its event type for truth: with the
    empty text it counts all events of the user, as with [None].  With a
    type that is not empty it counts what [get_activities_by_type]
    returns, never more than the count of all events. *)
Theorem get_activity_count_by_type (w : World) (uid : Z) :
  forallb decodable (filter (of_user uid) (activities (database w))) = true ->
  get_activity_count uid (Some EmptyString) w
  = get_activity_count uid None w
  /\ forall event,
       truthy (Some event) = true ->
       exists acts n total,
         get_activities_by_type uid event w = (Ok acts, w)
         /\ get_activity_count uid (Some event) w = (Ok n, w)
         /\ get_activity_count uid None w = (Ok total, w)
         /\ n = Z.of_nat (List.length acts)
         /\ n <= total.
Proof.
  intros Hdec. split; [reflexivity|].
  intros event Htruthy.
  set (typed := filter (fun a => of_user uid a && of_type event a)
                  (activities (database w))).
  assert (Hincl : incl (newest_first typed)
                    (filter (of_user uid) (activities (database w)))).
  { intros a Ha. apply (Permutation_in a (newest_first_perm typed)) in Ha.
    apply filter_In in Ha. destruct Ha as [Hin Hp].
    apply andb_true_iff in Hp. apply filter_In. tauto. }
  destruct (for_each_typed _ w (forallb_incl _ _ _ Hincl Hdec))
    as (acts & Hrun & Hlen).
  exists acts. eexists. eexists.
  split; [exact Hrun|]. split; [reflexivity|]. split; [reflexivity|].
  rewrite Htruthy. split.
  - rewrite Hlen.
    rewrite (Permutation_length (newest_first_perm typed)). reflexivity.
  - apply inj_le. unfold typed.
    generalize (activities (database w)) as t.
    induction t as [|a t IH]; simpl; auto.
    destruct (of_user uid a); simpl; auto.
    destruct (of_type event a); simpl; lia.
Qed.

Lemma get_activity_count_witness :
  forallb decodable
    (filter (of_user 1) (activities (database journey_world))) = true
  /\ get_activity_count 1 (Some EmptyString) journey_world
     = get_activity_count 1 None journey_world
  /\ forall event,
       truthy (Some event) = true ->
       exists acts n total,
         get_activities_by_type 1 event journey_world
         = (Ok acts, journey_world)
         /\ get_activity_count 1 (Some event) journey_world
            = (Ok n, journey_world)
         /\ get_activity_count 1 None journey_world
            = (Ok total, journey_world)
         /\ n = Z.of_nat (List.length acts)
         /\ n <= total.
Proof.
  split; [vm_compute; reflexivity|].
  apply (get_activity_count_by_type journey_world 1).
  vm_compute. reflexivity.
Defined.

End Activities.

Section ActivityComposition.

Import BehavioralTracker ActivityQueries.

(** X14.  The sweep measures age from its own clock reading: an event
    tracked and then swept at once is kept exactly when the time between
    the two clock readings does not exceed the retention.  With
    [days = 0] the event is deleted as soon as the clock has advanced. *)
Theorem tracked_event_swept_by_age (w : World) (uid : Z) (event : string)
    (event_data : option json) (sid ip ua : option string) (days : Z) :
  let w1 := snd (ActivityTracker.track_event uid event event_data sid ip ua w)
  in
  let w2 := snd (delete_old_activities days w1) in
  exists row,
    activities (database w1) = (activities (database w) ++ [row])%list
    /\ a_timestamp row = current_time w
    /\ (In row (activities (database w2))
        <-> current_time w1 - current_time w <= days * 86400).
Proof.
  intros w1 w2. unfold w2, w1.
  rewrite track_event_run. eexists. split; [reflexivity|].
  split; [reflexivity|].
  simpl. rewrite filter_In. cbn [a_timestamp]. unfold current_time.
  cbn [clock ticks].
  destruct (Z.ltb_spec (clock w (ticks w))
              (clock w (S (ticks w)) - days * 24 * 60 * 60)); simpl.
  - split; [intros [_ H']; discriminate | lia].
  - split; [lia|]. intros _. split; [|reflexivity].
    apply in_or_app. right. left. reflexivity.
Qed.

(** X15.  A page view logged under a session id shows up in the journey
    of that user and session, with the page as its event data. *)
Theorem logged_page_view_in_journey (w : World) (uid : Z) (page : json)
    (sid : string) :
  wf_json page = true ->
  truthy (Some sid) = true ->
  forallb decodable (filter (of_user uid) (activities (database w))) = true ->
  let w1 := snd (EventLogger.log_page_view uid page (Some sid) w) in
  exists steps,
    get_user_journey uid (Some sid) w1 = (Ok steps, w1)
    /\ In {| event_type := "page_view";
             event_data := JDict [("page", page)];
             timestamp := current_time w |} steps.
Proof.
  intros Hwf Htruthy Hdec w1.
  set (row := {| a_id := Z.max (activities_seq (database w)) 0 + 1;
                 a_user_id := uid; a_session_id := Some sid;
                 a_event_type := "page_view";
                 a_event_data := Some (json_dumps (JDict [("page", page)]));
                 a_ip_address := None; a_user_agent := None;
                 a_timestamp := clock w (ticks w) |}).
  assert (Hw1 : activities (database w1)
                = (activities (database w) ++ [row])%list)
    by reflexivity.
  assert (Hrow : decoded_step row
                 = Some {| event_type := "page_view";
                           event_data := JDict [("page", page)];
                           timestamp := current_time w |}).
  { unfold decoded_step. cbn [a_event_data row].
    rewrite decode_column_dumps; [reflexivity|].
    simpl. rewrite Hwf. reflexivity. }
  assert (Hdec1 : forallb decodable
                    (filter (of_user uid) (activities (database w1)))
                  = true).
  { rewrite Hw1, filter_app, forallb_app, Hdec. simpl.
    unfold of_user at 1. cbn [a_user_id row]. rewrite Z.eqb_refl.
    simpl. unfold decodable, decoded_step in *.
    destruct (decode_column (a_event_data row)); [reflexivity|discriminate]. }
  set (rows := journey_rows uid (Some sid) (activities (database w1))).
  pose proof (journey_rows_of_user uid (Some sid) (activities (database w1)))
    as Hincl.
  fold rows in Hincl.
  destruct (for_each_steps rows w1 (forallb_incl _ _ _ Hincl Hdec1))
    as (steps & Hrun & Hsteps & _).
  exists steps. split; [exact Hrun|].
  assert (Hin : In row rows).
  { unfold rows, journey_rows. rewrite Htruthy.
    apply (Permutation_in row (Permutation_sym (order_by_perm _ _))).
    apply filter_In. split.
    - rewrite Hw1. apply in_or_app. right. left. reflexivity.
    - unfold of_user, of_session. cbn [a_user_id a_session_id row].
      rewrite Z.eqb_refl, String.eqb_refl. reflexivity. }
  apply (in_map decoded_step) in Hin. rewrite Hsteps, Hrow in Hin.
  apply in_map_iff in Hin. destruct Hin as (st & [= <-] & Hst). exact Hst.
Qed.

Lemma logged_page_view_witness :
  wf_json (JStr "/cart") = true
  /\ truthy (Some "s1") = true
  /\ forallb decodable
       (filter (of_user 1) (activities (database journey_world))) = true
  /\ (let w1 :=
        snd (EventLogger.log_page_view 1 (JStr "/cart") (Some "s1")
               journey_world) in
      exists steps,
        get_user_journey 1 (Some "s1") w1 = (Ok steps, w1)
        /\ In {| event_type := "page_view";
                 event_data := JDict [("page", JStr "/cart")];
                 timestamp := current_time journey_world |} steps).
Proof.
  split; [reflexivity|]. split; [reflexivity|].
  split; [vm_compute; reflexivity|].
  apply (logged_page_view_in_journey journey_world 1 (JStr "/cart") "s1");
    reflexivity.
Defined.

End ActivityComposition.

(** ** Counting by event type *)

Section Tally.

Import BehavioralTracker ActivityQueries.

Lemma count_of_bump_same (k : string) (groups : list (string * Z)) :
  count_of k (bump String.eqb k groups) = count_of k groups + 1.
Proof.
  unfold count_of. induction groups as [|[k' n] groups IH]; simpl.
  - rewrite String.eqb_refl. reflexivity.
  - destruct (String.eqb k' k) eqn:E; simpl; rewrite E; auto.
Qed.

Lemma count_of_bump_other (k k' : string) (groups : list (string * Z)) :
  k' <> k ->
  count_of k' (bump String.eqb k groups) = count_of k' groups.
Proof.
  intros Hne. unfold count_of.
  induction groups as [|[k0 n] groups IH]; simpl.
  - destruct (String.eqb_spec k k'); congruence.
  - destruct (String.eqb_spec k0 k) as [-> | Hk]; simpl.
    + destruct (String.eqb_spec k k'); congruence.
    + destruct (String.eqb k0 k'); auto.
Qed.

Lemma total_of_bump (k : string) (groups : list (string * Z)) :
  total_of (bump String.eqb k groups) = total_of groups + 1.
Proof.
  induction groups as [|[k' n] groups IH]; simpl; [lia|].
  destruct (String.eqb k' k); simpl; lia.
Qed.

Lemma positive_bump (k : string) (groups : list (string * Z)) :
  Forall (fun g => 0 < snd g) groups ->
  Forall (fun g => 0 < snd g) (bump String.eqb k groups).
Proof.
  induction 1 as [|[k' n] groups Hn Hg IH]; simpl.
  - repeat constructor.
  - destruct (String.eqb k' k); constructor; simpl in *; auto; lia.
Qed.

Lemma tally_fold (keys : list string) (acc : list (string * Z)) :
  let groups := fold_left (fun g k => bump String.eqb k g) keys acc in
  (forall k, count_of k groups
             = count_of k acc + Z.of_nat (count_occ string_dec keys k))
  /\ total_of groups = total_of acc + Z.of_nat (List.length keys)
  /\ (Forall (fun g => 0 < snd g) acc -> Forall (fun g => 0 < snd g) groups).
Proof.
  revert acc. induction keys as [|k0 keys IH]; intros acc; simpl.
  - repeat split; auto; intros; lia.
  - destruct (IH (bump String.eqb k0 acc)) as (Hc & Ht & Hp).
    split; [|split].
    + intros k. rewrite Hc.
      destruct (string_dec k0 k) as [-> | Hne].
      * rewrite count_of_bump_same. lia.
      * rewrite count_of_bump_other by congruence. lia.
    + rewrite Ht, total_of_bump. lia.
    + intros Hacc. apply Hp. apply positive_bump. exact Hacc.
Qed.

Lemma count_typed (uid : Z) (event : string) (t : list activity_row) :
  List.length (filter (fun a => of_user uid a && of_type event a) t)
  = count_occ string_dec (map a_event_type (filter (of_user uid) t)) event.
Proof.
  induction t as [|a t IH]; simpl; auto.
  destruct (of_user uid a); simpl; auto.
  unfold of_type at 1.
  destruct (string_dec (a_event_type a) event) as [-> | Hne].
  - rewrite String.eqb_refl. simpl. rewrite IH. reflexivity.
  - destruct (String.eqb_spec (a_event_type a) event); [congruence|].
    exact IH.
Qed.

(** X16.  [get_feature_usage] and [get_activity_count] agree: the usage
    of an event type is the count of the user's events of that type (a
    type without events has no entry), every entry is positive, and the
    entries add up to the count of all events of the user. *)
Theorem feature_usage_matches_counts (w : World) (uid : Z) :
  exists usage total,
    get_feature_usage uid w = (Ok usage, w)
    /\ get_activity_count uid None w = (Ok total, w)
    /\ total_of usage = total
    /\ Forall (fun g => 0 < snd g) usage
    /\ forall event,
         truthy (Some event) = true ->
         get_activity_count uid (Some event) w
         = (Ok (count_of event usage), w).
Proof.
  eexists. eexists. split; [reflexivity|]. split; [reflexivity|].
  destruct (tally_fold
              (map a_event_type
                 (filter (of_user uid) (activities (database w)))) [])
    as (Hc & Ht & Hp).
  split; [|split].
  - unfold tally. rewrite Ht, length_map. reflexivity.
  - apply Hp. constructor.
  - intros event Htruthy.
    unfold get_activity_count, bind, get_db, ret. rewrite Htruthy.
    unfold tally. rewrite Hc, count_typed. reflexivity.
Qed.

(** X17.  [get_user_summary] reads without writing.  Its
    [last_activity] is absent exactly when the user has no event and is
    otherwise the largest timestamp among the user's events; its totals
    are the counts of the user's events and sessions, and its breakdown
    is the feature usage. *)
Theorem user_summary_totals (w : World) (uid : Z) :
  let mine := filter (of_user uid) (activities (database w)) in
  exists s,
    UserAnalytics.get_user_summary uid w = (Ok s, w)
    /\ get_activity_count uid None w = (Ok (total_activities s), w)
    /\ total_sessions s
       = Z.of_nat (List.length
                     (filter (SessionStore.has_user uid)
                        (sessions (database w))))
    /\ get_feature_usage uid w = (Ok (event_breakdown s), w)
    /\ (us_last_activity s = None <-> mine = [])
    /\ (forall t, us_last_activity s = Some t ->
          In t (map a_timestamp mine)
          /\ forall row, In row mine -> a_timestamp row <= t).
Proof.
  intros mine. eexists. split; [reflexivity|].
  cbn [total_activities total_sessions event_breakdown us_last_activity].
  repeat (split; [reflexivity|]).
  fold mine.
  pose proof (newest_first_perm mine) as Hperm.
  pose proof (newest_first_sorted mine) as Hsorted.
  unfold limit_rows. simpl (1 <? 0). cbn iota. simpl (Z.to_nat 1).
  destruct (newest_first mine) as [|top rest] eqn:E; simpl.
  - apply Permutation_nil in Hperm. split.
    + split; auto.
    + intros t [=].
  - split.
    + split; [discriminate|]. intros Hnil. rewrite Hnil in Hperm.
      apply Permutation_sym, Permutation_nil in Hperm. discriminate.
    + intros t [= <-]. split.
      * apply in_map. apply (Permutation_in top Hperm). left. reflexivity.
      * intros row Hin.
        apply (Permutation_in row (Permutation_sym Hperm)) in Hin.
        inversion Hsorted as [|? ? _ Htop]; subst.
        destruct Hin as [<- | Hin]; [lia|].
        rewrite Forall_forall in Htop. apply Htop. exact Hin.
Qed.

End Tally.

(** ** Preferences *)

Section Preferences.

Import PreferenceManager.

Lemma find_replaced (uid : Z) (t : list preference_row)
    (row : preference_row) :
  p_user_id row = uid ->
  find (of_user uid) (filter (fun p => negb (of_user uid p)) t ++ [row])
  = Some row.
Proof.
  intros Hid. induction t as [|p t IH]; simpl.
  - unfold of_user. rewrite Hid, Z.eqb_refl. reflexivity.
  - destruct (of_user uid p) eqn:E; simpl; auto. rewrite E. exact IH.
Qed.

Lemma find_replaced_other (uid uid' : Z) (t : list preference_row)
    (row : preference_row) :
  p_user_id row = uid -> uid' <> uid ->
  find (of_user uid') (filter (fun p => negb (of_user uid p)) t ++ [row])
  = find (of_user uid') t.
Proof.
  intros Hid Hne. induction t as [|p t IH]; simpl.
  - unfold of_user. rewrite Hid.
    destruct (Z.eqb_spec uid uid'); congruence.
  - destruct (of_user uid p) eqn:E; simpl.
    + assert (E' : of_user uid' p = false).
      { unfold of_user in *. apply Z.eqb_eq in E.
        destruct (Z.eqb_spec (p_user_id p) uid'); congruence. }
      rewrite E'. exact IH.
    + destruct (of_user uid' p); auto.
Qed.

Lemma get_preferences_stored (self_defaults : pydict) (uid : Z) (w : World)
    (row : preference_row) (v : json) :
  find (of_user uid) (preferences (database w)) = Some row ->
  json_loads (p_preferences row) = Some v ->
  get_preferences_from self_defaults uid w = (Ok (v, Loaded), w).
Proof.
  intros Hfind Hload. unfold get_preferences_from, bind, get_db.
  rewrite Hfind, Hload. reflexivity.
Qed.

Lemma get_preferences_default (self_defaults : pydict) (uid : Z)
    (w : World) :
  find (of_user uid) (preferences (database w)) = None ->
  get_preferences_from self_defaults uid w
  = (Ok (JDict self_defaults, CopiedDefaults), w).
Proof.
  intros Hfind. unfold get_preferences_from, bind, get_db.
  rewrite Hfind. reflexivity.
Qed.

Lemma set_preferences_run (uid : Z) (prefs : json) (w : World) :
  set_preferences uid prefs w
  = (Ok tt,
     {| database :=
          {| sessions := sessions (database w);
             activities := activities (database w);
             activities_seq := activities_seq (database w);
             preferences :=
               filter (fun p => negb (of_user uid p))
                 (preferences (database w))
               ++ [{| p_user_id := uid;
                      p_preferences := json_dumps prefs |}];
             consent := consent (database w) |};
        clock := clock w; ticks := ticks w |}).
Proof. reflexivity. Qed.

Lemma get_after_set (self_defaults : pydict) (uid : Z) (prefs : json)
    (w : World) :
  wf_json prefs = true ->
  get_preferences_from self_defaults uid (snd (set_preferences uid prefs w))
  = (Ok (prefs, Loaded), snd (set_preferences uid prefs w)).
Proof.
  intros Hwf. rewrite set_preferences_run.
  apply (get_preferences_stored _ _ _
           {| p_user_id := uid; p_preferences := json_dumps prefs |}).
  - simpl. apply find_replaced. reflexivity.
  - apply json_loads_dumps. exact Hwf.
Qed.

Lemma get_other_after_set (self_defaults : pydict) (uid uid' : Z)
    (prefs : json) (w : World) :
  uid' <> uid ->
  fst (get_preferences_from self_defaults uid'
         (snd (set_preferences uid prefs w)))
  = fst (get_preferences_from self_defaults uid' w).
Proof.
  intros Hne. rewrite set_preferences_run.
  unfold get_preferences_from, bind, get_db. simpl.
  rewrite find_replaced_other by (auto; reflexivity).
  destruct (find (of_user uid') (preferences (database w))) as [row|];
    [|reflexivity].
  destruct (json_loads (p_preferences row)); reflexivity.
Qed.

Lemma get_preferences_fst (self_defaults : pydict) (uid : Z) (w : World) :
  fst (get_preferences self_defaults uid w)
  = match fst (get_preferences_from self_defaults uid w) with
    | Ok r => Ok (fst r)
    | Raise e => Raise e
    end.
Proof.
  unfold get_preferences, bind.
  destruct (get_preferences_from self_defaults uid w) as [[r|e] w'];
    reflexivity.
Qed.

(** X18.  [set_preferences] overwrites wholesale: whatever was stored
    before and whatever the defaults are, [get_preferences] then returns
    exactly the value written, the user has one row, and the
    preferences of every other user read as before. *)
Theorem set_then_get_preferences (w : World) (self_defaults : pydict)
    (uid : Z) (prefs : json) :
  wf_json prefs = true ->
  exists w1,
    set_preferences uid prefs w = (Ok tt, w1)
    /\ get_preferences self_defaults uid w1 = (Ok prefs, w1)
    /\ List.length (filter (of_user uid) (preferences (database w1))) = 1%nat
    /\ forall uid', uid' <> uid ->
         fst (get_preferences self_defaults uid' w1)
         = fst (get_preferences self_defaults uid' w).
Proof.
  intros Hwf. exists (snd (set_preferences uid prefs w)).
  split; [reflexivity|]. split; [|split].
  - unfold get_preferences, bind.
    rewrite (get_after_set self_defaults uid prefs w Hwf). reflexivity.
  - rewrite set_preferences_run. simpl. rewrite filter_app.
    rewrite filter_filter_negb. simpl.
    unfold of_user. simpl. rewrite Z.eqb_refl. reflexivity.
  - intros uid' Hne. rewrite !get_preferences_fst.
    rewrite (get_other_after_set self_defaults uid uid' prefs w Hne).
    reflexivity.
Qed.

Lemma set_then_get_preferences_witness :
  wf_json (JDict [("theme", JStr "blue")]) = true
  /\ exists w1,
       set_preferences 1 (JDict [("theme", JStr "blue")]) prefs_world
       = (Ok tt, w1)
       /\ get_preferences defaults 1 w1
          = (Ok (JDict [("theme", JStr "blue")]), w1)
       /\ List.length (filter (of_user 1) (preferences (database w1)))
          = 1%nat
       /\ forall uid', uid' <> 1 ->
            fst (get_preferences defaults uid' w1)
            = fst (get_preferences defaults uid' prefs_world).
Proof.
  split; [reflexivity|].
  apply (set_then_get_preferences prefs_world defaults 1
           (JDict [("theme", JStr "blue")])).
  reflexivity.
Defined.

(** X19.  The defaults are stored by the first write only: for a user
    without a row [get_preferences] returns the defaults and writes
    nothing; [update_preference] then stores the defaults with the one
    key changed, and from then on the user's preferences no longer
    follow the defaults. *)
Theorem first_update_persists_defaults (w : World)
    (self_defaults later_defaults : pydict) (uid : Z) (key : string)
    (value : json) :
  find (of_user uid) (preferences (database w)) = None ->
  wf_json (JDict self_defaults) = true ->
  wf_json value = true ->
  get_preferences self_defaults uid w = (Ok (JDict self_defaults), w)
  /\ exists w1,
       update_preference self_defaults uid key value w = (Ok tt, w1)
       /\ get_preferences later_defaults uid w1
          = (Ok (JDict (dict_set key value self_defaults)), w1).
Proof.
  intros Hnone Hd Hv. split.
  - unfold get_preferences, bind.
    rewrite (get_preferences_default self_defaults uid w Hnone).
    reflexivity.
  - exists (snd (set_preferences uid
                   (JDict (dict_set key value self_defaults)) w)).
    split.
    + unfold update_preference, get_preferences, bind.
      rewrite (get_preferences_default self_defaults uid w Hnone).
      reflexivity.
    + unfold get_preferences, bind.
      rewrite get_after_set; [reflexivity|].
      apply wf_dict_set; assumption.
Qed.

Lemma first_update_witness :
  find (of_user 2) (preferences (database prefs_world)) = None
  /\ wf_json (JDict defaults) = true
  /\ wf_json (JStr "dark") = true
  /\ get_preferences defaults 2 prefs_world = (Ok (JDict defaults), prefs_world)
  /\ exists w1,
       update_preference defaults 2 "theme" (JStr "dark") prefs_world
       = (Ok tt, w1)
       /\ get_preferences [] 2 w1
          = (Ok (JDict (dict_set "theme" (JStr "dark") defaults)), w1).
Proof.
  split; [reflexivity|]. split; [reflexivity|]. split; [reflexivity|].
  apply (first_update_persists_defaults prefs_world defaults [] 2 "theme"
           (JStr "dark")); reflexivity.
Defined.

(** X20.  [set_preferences] stores any JSON value.  Once it has stored a
    list, [update_preference] raises a [TypeError] and [get_preference]
    an [AttributeError] for that user, and neither changes the
    database. *)
Theorem list_preferences_break_updates (w : World) (self_defaults : pydict)
    (uid : Z) (items : list json) (key : string) (value default : json) :
  wf_json (JList items) = true ->
  let w1 := snd (set_preferences uid (JList items) w) in
  update_preference self_defaults uid key value w1 = (Raise TypeError, w1)
  /\ get_preference self_defaults uid key default w1
     = (Raise AttributeError, w1).
Proof.
  intros Hwf w1. split.
  - unfold update_preference, get_preferences, bind.
    unfold w1. rewrite (get_after_set self_defaults uid _ w Hwf).
    reflexivity.
  - unfold get_preference, get_preferences, bind.
    unfold w1. rewrite (get_after_set self_defaults uid _ w Hwf).
    reflexivity.
Qed.

Lemma list_preferences_witness :
  wf_json (JList [JStr "dark"]) = true
  /\ (let w1 := snd (set_preferences 1 (JList [JStr "dark"]) prefs_world) in
      update_preference defaults 1 "theme" (JStr "light") w1
      = (Raise TypeError, w1)
      /\ get_preference defaults 1 "theme" JNull w1
         = (Raise AttributeError, w1)).
Proof.
  split; [reflexivity|].
  apply (list_preferences_break_updates prefs_world defaults 1
           [JStr "dark"] "theme" (JStr "light") JNull).
  reflexivity.
Defined.

End Preferences.

(** ** Privacy settings *)

Section Privacy.

Import PrivacyManager.

Lemma wf_members_get (key : string) (d : pydict) (v : json) :
  wf_members d = true -> dict_get key d = Some v -> wf_json v = true.
Proof.
  induction d as [|[k x] d IH]; simpl; [discriminate|].
  intros Hwf Hget. apply andb_true_iff in Hwf. destruct Hwf as [Hx Hd].
  destruct (String.eqb k key).
  - injection Hget as <-. exact Hx.
  - exact (IH Hd Hget).
Qed.

Lemma wf_dict_get (key : string) (d : pydict) (v : json) :
  wf_json (JDict d) = true -> dict_get key d = Some v -> wf_json v = true.
Proof.
  rewrite wf_dict_iff. intros Hwf. apply andb_true_iff in Hwf.
  apply wf_members_get. exact (proj2 Hwf).
Qed.

Lemma get_privacy_settings_stored (self_defaults d : pydict) (uid : Z)
    (w : World) :
  wf_json (JDict d) = true ->
  get_privacy_settings self_defaults uid
    (snd (PreferenceManager.set_preferences uid (JDict d) w))
  = (Ok (match dict_get "privacy" d with
         | Some v => v
         | None => JDict []
         end),
     snd (PreferenceManager.set_preferences uid (JDict d) w)).
Proof.
  intros Hwf. unfold get_privacy_settings, PreferenceManager.get_preferences.
  unfold bind at 1 2.
  rewrite (get_after_set self_defaults uid (JDict d) w Hwf). reflexivity.
Qed.

Lemma get_privacy_settings_default (self_defaults : pydict) (uid : Z)
    (w : World) :
  find (PreferenceManager.of_user uid) (preferences (database w)) = None ->
  get_privacy_settings self_defaults uid w
  = (Ok (match dict_get "privacy" self_defaults with
         | Some v => v
         | None => JDict []
         end), w).
Proof.
  intros Hnone. unfold get_privacy_settings, PreferenceManager.get_preferences.
  unfold bind at 1 2.
  rewrite (get_preferences_default self_defaults uid w Hnone). reflexivity.
Qed.

Lemma set_then_ret (uid : Z) (prefs : json) (d : pydict) (w : World) :
  (PreferenceManager.set_preferences uid prefs ;; ret d) w
  = (Ok d, snd (PreferenceManager.set_preferences uid prefs w)).
Proof. reflexivity. Qed.

Ltac read_setter_run H :=
  rewrite set_then_ret in H;
  match type of H with
  | (_, ?x) = _ =>
      let ws := fresh "ws" in
      let Hws := fresh "Hws" in
      remember x as ws eqn:Hws; injection H as <- <-; subst ws
  end.

(** X21.  The three setters (one body, [set_flag], with three flag
    names) change the defaults of every user.  For a
    user without a stored row the preferences are a shallow copy of the
    manager's defaults, so writing the flag into their ['privacy'] dict
    writes it into the defaults: every other user without a row, who saw
    the old privacy defaults before the call, sees the flag afterwards. *)
Theorem privacy_flag_leaks_through_defaults (w : World)
    (self_defaults p : pydict) (flag : string) (uid : Z) (value : bool) :
  find (PreferenceManager.of_user uid) (preferences (database w)) = None ->
  dict_get "privacy" self_defaults = Some (JDict p) ->
  wf_json (JDict self_defaults) = true ->
  exists defaults' w1,
    set_flag flag self_defaults uid value w = (Ok defaults', w1)
    /\ forall other,
         other <> uid ->
         find (PreferenceManager.of_user other) (preferences (database w))
         = None ->
         get_privacy_settings self_defaults other w = (Ok (JDict p), w)
         /\ get_privacy_settings defaults' other w1
            = (Ok (JDict (dict_set flag (JBool value) p)), w1).
Proof.
  intros Hnone Hp Hwf.
  set (p' := dict_set flag (JBool value) p).
  set (stored := JDict (dict_set "privacy" (JDict p') self_defaults)).
  exists (dict_set "privacy" (JDict p') self_defaults),
         (snd (PreferenceManager.set_preferences uid stored w)).
  split.
  - unfold set_flag. unfold bind at 1.
    rewrite (get_preferences_default self_defaults uid w Hnone).
    cbn [fst snd]. rewrite Hp. reflexivity.
  - intros other Hne Hother. split.
    + rewrite (get_privacy_settings_default _ _ _ Hother), Hp. reflexivity.
    + rewrite get_privacy_settings_default.
      * rewrite dict_get_set_same. reflexivity.
      * rewrite set_preferences_run. cbn [snd database preferences].
        rewrite find_replaced_other by (auto; reflexivity). exact Hother.
Qed.

Lemma privacy_flag_leak_witness :
  exists defaults' w1,
    set_profile_visibility PreferenceManager.defaults 2 true prefs_world
    = (Ok defaults', w1)
    /\ forall other,
         other <> 2 ->
         find (PreferenceManager.of_user other)
           (preferences (database prefs_world)) = None ->
         get_privacy_settings PreferenceManager.defaults other prefs_world
         = (Ok (JDict [("profile_public", JBool false);
                       ("show_activity", JBool true);
                       ("allow_analytics", JBool true)]), prefs_world)
         /\ get_privacy_settings defaults' other w1
            = (Ok (JDict [("profile_public", JBool true);
                          ("show_activity", JBool true);
                          ("allow_analytics", JBool true)]), w1).
Proof.
  apply (privacy_flag_leaks_through_defaults prefs_world
           PreferenceManager.defaults
           [("profile_public", JBool false); ("show_activity", JBool true);
            ("allow_analytics", JBool true)]
           "profile_public" 2 true).
  - reflexivity.
  - reflexivity.
  - reflexivity.
Defined.

(** X22.  Whenever a setter returns, [get_privacy_settings] of the same
    user then returns a dict that holds the flag with the value set and
    every other privacy flag as the setter found it; and if the user had
    a stored row, the manager's defaults are left as they were. *)
Theorem privacy_flag_round_trip (w w1 : World)
    (self_defaults defaults' : pydict) (flag : string) (uid : Z)
    (value : bool) :
  wf_json (JDict self_defaults) = true ->
  set_flag flag self_defaults uid value w = (Ok defaults', w1) ->
  exists before after,
    fst (get_privacy_settings self_defaults uid w) = Ok (JDict before)
    /\ get_privacy_settings defaults' uid w1 = (Ok (JDict after), w1)
    /\ dict_get flag after = Some (JBool value)
    /\ (forall other, other <> flag ->
          dict_get other after = dict_get other before)
    /\ (find (PreferenceManager.of_user uid) (preferences (database w))
        <> None -> defaults' = self_defaults).
Proof.
  intros Hwf Hrun.
  unfold set_flag in Hrun. unfold bind at 1 in Hrun.
  unfold get_privacy_settings at 1, PreferenceManager.get_preferences.
  unfold bind at 1 2.
  destruct (find (PreferenceManager.of_user uid) (preferences (database w)))
    as [row|] eqn:Hfind.
  - destruct (json_loads (p_preferences row)) as [v|] eqn:Hload.
    + rewrite (get_preferences_stored self_defaults uid w row v Hfind Hload)
        in *.
      cbn [fst snd] in *.
      pose proof (json_loads_wf _ _ Hload) as Hv.
      destruct v as [| | | | |d]; try discriminate.
      destruct (dict_get "privacy" d) as [pv|] eqn:Hp.
      * destruct pv as [| | | | |p]; try discriminate.
        read_setter_run Hrun.
        exists p, (dict_set flag (JBool value) p).
        split; [unfold ret; cbn; rewrite ?Hp; reflexivity|].
        split; [|split; [|split]].
        -- rewrite get_privacy_settings_stored.
           ++ rewrite dict_get_set_same. reflexivity.
           ++ apply wf_dict_set; [|exact Hv].
              apply wf_dict_set; [reflexivity|].
              exact (wf_dict_get _ _ _ Hv Hp).
        -- apply dict_get_set_same.
        -- intros other Hne. apply dict_get_set_other. exact Hne.
        -- reflexivity.
      * read_setter_run Hrun.
        exists [], [(flag, JBool value)].
        split; [unfold ret; cbn; rewrite ?Hp; reflexivity|].
        split; [|split; [|split]].
        -- rewrite get_privacy_settings_stored.
           ++ rewrite dict_get_set_same. reflexivity.
           ++ apply wf_dict_set; [reflexivity|exact Hv].
        -- simpl. rewrite String.eqb_refl. reflexivity.
        -- intros other Hne. simpl.
           destruct (String.eqb_spec flag other); congruence.
        -- reflexivity.
    + unfold PreferenceManager.get_preferences_from, bind, get_db in Hrun.
      rewrite Hfind, Hload in Hrun. discriminate.
  - rewrite (get_preferences_default self_defaults uid w Hfind) in *.
    cbn [fst snd] in *.
    destruct (dict_get "privacy" self_defaults) as [pv|] eqn:Hp.
    + destruct pv as [| | | | |p]; try discriminate.
      read_setter_run Hrun.
      exists p, (dict_set flag (JBool value) p).
      split; [unfold ret; cbn; rewrite ?Hp; reflexivity|].
        split; [|split; [|split]].
      * rewrite get_privacy_settings_stored.
        -- rewrite dict_get_set_same. reflexivity.
        -- apply wf_dict_set; [|exact Hwf].
           apply wf_dict_set; [reflexivity|].
           exact (wf_dict_get _ _ _ Hwf Hp).
      * apply dict_get_set_same.
      * intros other Hne. apply dict_get_set_other. exact Hne.
      * intros Hcontra. contradiction.
    + read_setter_run Hrun.
      exists [], [(flag, JBool value)].
      split; [unfold ret; cbn; rewrite ?Hp; reflexivity|].
        split; [|split; [|split]].
      * rewrite get_privacy_settings_stored.
        -- rewrite dict_get_set_same. reflexivity.
        -- apply wf_dict_set; [reflexivity|exact Hwf].
      * simpl. rewrite String.eqb_refl. reflexivity.
      * intros other Hne. simpl.
        destruct (String.eqb_spec flag other); congruence.
      * intros Hcontra. contradiction.
Qed.

Lemma privacy_flag_round_trip_witness :
  exists before after,
    fst (get_privacy_settings PreferenceManager.defaults 1 prefs_world)
    = Ok (JDict before)
    /\ get_privacy_settings PreferenceManager.defaults 1
         (snd (set_activity_visibility PreferenceManager.defaults 1 false
                 prefs_world))
       = (Ok (JDict after),
          snd (set_activity_visibility PreferenceManager.defaults 1 false
                 prefs_world))
    /\ dict_get "show_activity" after = Some (JBool false)
    /\ (forall other, other <> "show_activity" ->
          dict_get other after = dict_get other before)
    /\ (find (PreferenceManager.of_user 1)
          (preferences (database prefs_world)) <> None ->
        PreferenceManager.defaults = PreferenceManager.defaults).
Proof.
  apply (privacy_flag_round_trip prefs_world
           (snd (set_activity_visibility PreferenceManager.defaults 1 false
                   prefs_world))
           PreferenceManager.defaults PreferenceManager.defaults
           "show_activity" 1 false).
  - reflexivity.
  - vm_compute. reflexivity.
Defined.

End Privacy.

(** ** Anonymising an address *)

Section Anonymize.

Import PrivacyManager.

Lemma split_dots_not_nil (s : string) : split_dots s <> [].
Proof.
  induction s as [|c s IH]; simpl; [discriminate|].
  destruct (Ascii.eqb c "."); [discriminate|].
  destruct (split_dots s); discriminate.
Qed.

Lemma join_dots_cons (part : string) (parts : list string) :
  parts <> [] ->
  join_dots (part :: parts) = (part ++ String "." (join_dots parts))%string.
Proof. destruct parts; [contradiction|reflexivity]. Qed.

Lemma join_split_dots (s : string) : join_dots (split_dots s) = s.
Proof.
  induction s as [|c s IH]; [reflexivity|].
  cbn [split_dots]. destruct (Ascii.eqb_spec c ".") as [->|Hc].
  - rewrite join_dots_cons by apply split_dots_not_nil.
    rewrite IH. reflexivity.
  - pose proof (split_dots_not_nil s) as Hne.
    destruct (split_dots s) as [|part parts]; [contradiction|].
    destruct parts as [|part' parts].
    + simpl in *. rewrite IH. reflexivity.
    + rewrite join_dots_cons by discriminate.
      rewrite join_dots_cons in IH by discriminate.
      rewrite <- IH. reflexivity.
Qed.

Lemma split_dots_part (part rest : string) :
  no_dot part ->
  split_dots (part ++ String "." rest) = part :: split_dots rest.
Proof.
  unfold no_dot. induction part as [|c part IH]; intros Hno.
  - reflexivity.
  - simpl in Hno. simpl.
    destruct (Ascii.eqb_spec c ".") as [->|Hc].
    + exfalso. apply Hno. left. reflexivity.
    + rewrite IH by (intros Hin; apply Hno; right; exact Hin).
      reflexivity.
Qed.

Lemma split_dots_single (part : string) :
  no_dot part -> split_dots part = [part].
Proof.
  unfold no_dot. induction part as [|c part IH]; intros Hno.
  - reflexivity.
  - simpl in Hno. simpl.
    destruct (Ascii.eqb_spec c ".") as [->|Hc].
    + exfalso. apply Hno. left. reflexivity.
    + rewrite IH by (intros Hin; apply Hno; right; exact Hin).
      reflexivity.
Qed.

Lemma split_join_dots (parts : list string) :
  parts <> [] -> Forall no_dot parts ->
  split_dots (join_dots parts) = parts.
Proof.
  induction parts as [|part parts IH]; [contradiction|].
  intros _ Hall. inversion Hall as [|? ? Hpart Hrest]; subst.
  destruct parts as [|part' parts].
  - apply split_dots_single. exact Hpart.
  - rewrite join_dots_cons by discriminate.
    rewrite split_dots_part by exact Hpart.
    rewrite IH by (auto; discriminate). reflexivity.
Qed.

Lemma split_dots_no_dot (s : string) : Forall no_dot (split_dots s).
Proof.
  induction s as [|c s IH]; simpl.
  - constructor; [|constructor]. intros [].
  - destruct (Ascii.eqb_spec c ".") as [->|Hc].
    + constructor; [intros []|exact IH].
    + destruct (split_dots s) as [|part parts].
      * constructor; [|constructor]. intros [H|[]]. congruence.
      * inversion IH as [|? ? Hpart Hrest]; subst.
        constructor; [|exact Hrest].
        intros [H|H]; [congruence|exact (Hpart H)].
Qed.

Lemma anonymize_four (a b c d : string) :
  no_dot a -> no_dot b -> no_dot c -> no_dot d ->
  anonymize_ip
    (Some (a ++ String "." (b ++ String "." (c ++ String "." d))))
  = Some (a ++ String "." (b ++ String "." (c ++ String "." "0"))).
Proof.
  intros Ha Hb Hc Hd.
  assert (Hsplit :
    split_dots (a ++ String "." (b ++ String "." (c ++ String "." d)))
    = [a; b; c; d]).
  { rewrite !split_dots_part by assumption.
    rewrite split_dots_single by assumption. reflexivity. }
  unfold anonymize_ip. rewrite Hsplit. simpl.
  destruct a; reflexivity.
Qed.

(** X23.  [anonymize_ip] looks only at the dots: whatever four
    dot-free parts an address is made of, numbers or not, the first three
    are kept and the fourth becomes ["0"], so two addresses that differ
    in the last part only are mapped to the same string. *)
Theorem anonymize_ip_masks_last_part (a b c d d' : string) :
  no_dot a -> no_dot b -> no_dot c -> no_dot d -> no_dot d' ->
  anonymize_ip
    (Some (a ++ String "." (b ++ String "." (c ++ String "." d))))
  = Some (a ++ String "." (b ++ String "." (c ++ String "." "0")))
  /\ anonymize_ip
       (Some (a ++ String "." (b ++ String "." (c ++ String "." d'))))
     = anonymize_ip
         (Some (a ++ String "." (b ++ String "." (c ++ String "." d)))).
Proof.
  intros Ha Hb Hc Hd Hd'. split.
  - apply anonymize_four; assumption.
  - rewrite !anonymize_four by assumption. reflexivity.
Qed.

Lemma anonymize_ip_masks_witness :
  anonymize_ip (Some "192.168.1.77") = Some "192.168.1.0"
  /\ anonymize_ip (Some "192.168.1.12") = anonymize_ip (Some "192.168.1.77").
Proof.
  apply (anonymize_ip_masks_last_part "192" "168" "1" "77" "12");
    unfold no_dot; simpl; intros H;
    repeat (destruct H as [H|H]; [discriminate|]); exact H.
Defined.

(** X24.  [anonymize_ip] is idempotent and changes nothing else: an
    address that does not split into exactly four parts at its dots (an
    IPv6 address, a host name) is returned as it is, and [None] and the
    empty string give [None]. *)
Theorem anonymize_ip_idempotent (ip_address : option string) :
  anonymize_ip (anonymize_ip ip_address) = anonymize_ip ip_address
  /\ (forall ip, ip_address = Some ip -> ip <> EmptyString ->
        List.length (split_dots ip) <> 4%nat ->
        anonymize_ip ip_address = Some ip)
  /\ (anonymize_ip ip_address = None <->
      ip_address = None \/ ip_address = Some EmptyString).
Proof.
  split; [|split].
  - destruct ip_address as [ip|]; [|reflexivity].
    destruct ip as [|ch ip]; [reflexivity|].
    unfold anonymize_ip at 2.
    destruct (Nat.eqb_spec (List.length (split_dots (String ch ip))) 4)
      as [Hlen|Hlen].
    + pose proof (split_dots_no_dot (String ch ip)) as Hno.
      pose proof (join_split_dots (String ch ip)) as Hjoin.
      destruct (split_dots (String ch ip)) as [|a [|b [|c [|d [|]]]]];
        try discriminate.
      inversion Hno as [|? ? Ha Hno1]; subst.
      inversion Hno1 as [|? ? Hb Hno2]; subst.
      inversion Hno2 as [|? ? Hc Hno3]; subst.
      inversion Hno3 as [|? ? Hd _]; subst.
      rewrite <- Hjoin. cbn [set_last join_dots].
      assert (H0 : no_dot "0").
      { unfold no_dot. simpl. intros [H|[]]. discriminate. }
      rewrite !anonymize_four by assumption. reflexivity.
    + unfold anonymize_ip.
      destruct (Nat.eqb_spec (List.length (split_dots (String ch ip))) 4);
        [contradiction|reflexivity].
  - intros ip -> Hne Hlen. unfold anonymize_ip.
    destruct ip; [contradiction|].
    destruct (Nat.eqb_spec (List.length (split_dots (String a ip))) 4);
      [contradiction|reflexivity].
  - split.
    + destruct ip_address as [ip|]; [|auto].
      destruct ip as [|ch ip]; [auto|].
      unfold anonymize_ip.
      destruct (Nat.eqb (List.length (split_dots (String ch ip))) 4);
        discriminate.
    + intros [->| ->]; reflexivity.
Qed.

Lemma anonymize_ip_idempotent_witness :
  anonymize_ip (anonymize_ip (Some "10.0.0.7")) = anonymize_ip (Some "10.0.0.7")
  /\ (forall ip, Some "10.0.0.7" = Some ip -> ip <> EmptyString ->
        List.length (split_dots ip) <> 4%nat ->
        anonymize_ip (Some "10.0.0.7") = Some ip)
  /\ (anonymize_ip (Some "10.0.0.7") = None <->
      Some "10.0.0.7" = None \/ Some "10.0.0.7" = Some EmptyString).
Proof. exact (anonymize_ip_idempotent (Some "10.0.0.7")). Defined.

End Anonymize.

(** ** Consent and erasure *)

Section ConsentAndErasure.

Import Consent.

Lemma find_consent_replaced (uid : Z) (consent_type : string)
    (t : list consent_row) (row : consent_row) :
  is_for uid consent_type row = true ->
  find (is_for uid consent_type)
    (filter (fun c => negb (is_for uid consent_type c)) t ++ [row])
  = Some row.
Proof.
  intros Hrow. induction t as [|c t IH]; simpl.
  - rewrite Hrow. reflexivity.
  - destruct (is_for uid consent_type c) eqn:E; simpl; auto.
    rewrite E. exact IH.
Qed.

Lemma find_consent_other (uid uid' : Z) (consent_type consent_type' : string)
    (t : list consent_row) (row : consent_row) :
  is_for uid consent_type row = true ->
  (uid', consent_type') <> (uid, consent_type) ->
  find (is_for uid' consent_type')
    (filter (fun c => negb (is_for uid consent_type c)) t ++ [row])
  = find (is_for uid' consent_type') t.
Proof.
  intros Hrow Hne.
  assert (Hex : forall c, is_for uid consent_type c = true ->
                          is_for uid' consent_type' c = false).
  { intros c Hc. unfold is_for in *. apply andb_true_iff in Hc.
    destruct Hc as [Hu Ht]. apply Z.eqb_eq in Hu. apply String.eqb_eq in Ht.
    destruct (Z.eqb_spec (c_user_id c) uid');
      destruct (String.eqb_spec (c_consent_type c) consent_type');
      simpl; auto.
    exfalso. apply Hne. congruence. }
  induction t as [|c t IH]; simpl.
  - rewrite (Hex row Hrow). reflexivity.
  - destruct (is_for uid consent_type c) eqn:E; simpl.
    + rewrite (Hex c E). exact IH.
    + destruct (is_for uid' consent_type' c); auto.
Qed.

(** X25.  [record_consent] replaces: whatever was recorded before,
    [get_consent] then returns the value just recorded, the table holds
    one row for that user and consent type, and the consent of every
    other user or type reads as before. *)
Theorem record_then_get_consent (w : World) (uid : Z)
    (consent_type : string) (granted : bool) :
  exists w1,
    record_consent uid consent_type granted w = (Ok tt, w1)
    /\ get_consent uid consent_type w1 = (Ok granted, w1)
    /\ List.length
         (filter (is_for uid consent_type) (consent (database w1)))
       = 1%nat
    /\ forall uid' consent_type',
         (uid', consent_type') <> (uid, consent_type) ->
         fst (get_consent uid' consent_type' w1)
         = fst (get_consent uid' consent_type' w).
Proof.
  eexists. split.
  { unfold record_consent, bind, get_db, put_db, ret, now. simpl.
    reflexivity. }
  assert (Hrow : forall t,
    is_for uid consent_type
      {| c_user_id := uid; c_consent_type := consent_type;
         c_granted := granted; c_timestamp := t |} = true).
  { intros t. unfold is_for. simpl.
    rewrite Z.eqb_refl, String.eqb_refl. reflexivity. }
  split; [|split].
  - unfold get_consent, bind, get_db. simpl.
    rewrite find_consent_replaced by apply Hrow. reflexivity.
  - simpl. rewrite filter_app, filter_filter_negb. simpl.
    rewrite Hrow. reflexivity.
  - intros uid' consent_type' Hne.
    unfold get_consent, bind, get_db. simpl.
    rewrite (find_consent_other uid uid' consent_type consent_type')
      by (auto; apply Hrow).
    destruct (find (is_for uid' consent_type') (consent (database w)));
      reflexivity.
Qed.

Lemma find_filter_negb {A} (p : A -> bool) (t : list A) :
  find p (filter (fun r => negb (p r)) t) = None.
Proof.
  induction t as [|r t IH]; simpl; auto.
  destruct (p r) eqn:E; simpl; auto. rewrite E. exact IH.
Qed.

Lemma filter_other_kept {A} (p q : A -> bool) (t : list A) :
  (forall r, p r = true -> q r = false) ->
  filter q (filter (fun r => negb (p r)) t) = filter q t.
Proof.
  intros Hex. induction t as [|r t IH]; simpl; auto.
  destruct (p r) eqn:E; simpl.
  - rewrite (Hex r E). exact IH.
  - destruct (q r); rewrite IH; reflexivity.
Qed.

Lemma find_other_kept {A} (p q : A -> bool) (t : list A) :
  (forall r, p r = true -> q r = false) ->
  find q (filter (fun r => negb (p r)) t) = find q t.
Proof.
  intros Hex. induction t as [|r t IH]; simpl; auto.
  destruct (p r) eqn:E; simpl.
  - rewrite (Hex r E). exact IH.
  - destruct (q r); auto.
Qed.

Lemma eqb_other (x uid uid' : Z) :
  uid' <> uid -> Z.eqb x uid = true -> Z.eqb x uid' = false.
Proof.
  intros Hne Hx. apply Z.eqb_eq in Hx. apply Z.eqb_neq. congruence.
Qed.

(** X26.  Erasure removes all that the export reads.  After
    [delete_user_data] the export of the same user holds no session, no
    activity and no consent, and [{}] for the preferences; a second
    erasure deletes nothing; and the export of any other user is the
    same as before the erasure, up to its date. *)
Theorem erased_user_exports_nothing (w : World) (uid : Z) :
  exists summary w1,
    GDPRHandler.delete_user_data uid w = (Ok summary, w1)
    /\ (exists e w2,
          GDPRHandler.export_user_data uid w1 = (Ok e, w2)
          /\ export_contents e = ([], [], JDict [], []))
    /\ (exists again w2,
          GDPRHandler.delete_user_data uid w1 = (Ok again, w2)
          /\ ds_sessions_deleted again = 0
          /\ ds_activities_deleted again = 0
          /\ ds_preferences_deleted again = 0
          /\ ds_consent_deleted again = 0)
    /\ forall uid', uid' <> uid ->
         same_export (fst (GDPRHandler.export_user_data uid' w1))
                     (fst (GDPRHandler.export_user_data uid' w)).
Proof.
  eexists. eexists. split.
  { unfold GDPRHandler.delete_user_data, bind, get_db, put_db, ret, now.
    simpl. reflexivity. }
  split; [|split].
  - eexists. eexists. split.
    + unfold GDPRHandler.export_user_data, bind, get_db, ret, now. simpl.
      rewrite (find_filter_negb (fun p => Z.eqb (p_user_id p) uid)).
      simpl. reflexivity.
    + unfold export_contents. simpl.
      rewrite (filter_filter_negb (SessionStore.has_user uid)).
      rewrite (filter_filter_negb (BehavioralTracker.of_user uid)).
      rewrite (filter_filter_negb (fun c => Z.eqb (c_user_id c) uid)).
      reflexivity.
  - eexists. eexists. split.
    + unfold GDPRHandler.delete_user_data, bind, get_db, put_db, ret, now.
      simpl. reflexivity.
    + simpl. rewrite !filter_negb_idem, !rowcount_same. auto.
  - intros uid' Hne.
    unfold GDPRHandler.export_user_data, bind, get_db, ret, now. simpl.
    rewrite (find_other_kept (fun p => Z.eqb (p_user_id p) uid)
               (fun p => Z.eqb (p_user_id p) uid'))
      by (intros r; apply eqb_other; exact Hne).
    destruct (find (fun p => Z.eqb (p_user_id p) uid')
                (preferences (database w))) as [row|].
    + destruct (json_loads (p_preferences row)); simpl; [|reflexivity].
      unfold export_contents. simpl.
      rewrite (filter_other_kept (SessionStore.has_user uid)
                 (SessionStore.has_user uid'))
        by (intros r; apply eqb_other; exact Hne).
      rewrite (filter_other_kept (BehavioralTracker.of_user uid)
                 (BehavioralTracker.of_user uid'))
        by (intros r; apply eqb_other; exact Hne).
      rewrite (filter_other_kept (fun c => Z.eqb (c_user_id c) uid)
                 (fun c => Z.eqb (c_user_id c) uid'))
        by (intros r; apply eqb_other; exact Hne).
      reflexivity.
    + simpl. unfold export_contents. simpl.
      rewrite (filter_other_kept (SessionStore.has_user uid)
                 (SessionStore.has_user uid'))
        by (intros r; apply eqb_other; exact Hne).
      rewrite (filter_other_kept (BehavioralTracker.of_user uid)
                 (BehavioralTracker.of_user uid'))
        by (intros r; apply eqb_other; exact Hne).
      rewrite (filter_other_kept (fun c => Z.eqb (c_user_id c) uid)
                 (fun c => Z.eqb (c_user_id c) uid'))
        by (intros r; apply eqb_other; exact Hne).
      reflexivity.
Qed.

End ConsentAndErasure.

(** ** The funnel in general *)

Section FunnelRates.

Import ActivityAnalytics.

Lemma update_at_app (pre l : list funnel_entry)
    (f : funnel_entry -> funnel_entry) (k : nat) :
  update_at (List.length pre + k) f (pre ++ l)%list
  = (pre ++ update_at k f l)%list.
Proof.
  induction pre as [|e pre IH]; simpl.
  - reflexivity.
  - rewrite IH. reflexivity.
Qed.

Lemma nth_after (pre l : list funnel_entry) (k : nat) :
  nth (List.length pre + k) (pre ++ l)%list nobody = nth k l nobody.
Proof.
  rewrite app_nth2 by lia. f_equal. lia.
Qed.

Lemma rate_step_at (pre l : list funnel_entry) (e x : funnel_entry) :
  rate_step (pre ++ e :: x :: l)%list (S (List.length pre))
  = (pre ++ e :: rated (users e) [x] ++ l)%list.
Proof.
  unfold rate_step. rewrite Nat.sub_succ, Nat.sub_0_r.
  replace (nth (List.length pre) (pre ++ e :: x :: l)%list nobody) with e
    by (rewrite <- (Nat.add_0_r (List.length pre)) at 1;
        rewrite nth_after; reflexivity).
  replace (nth (S (List.length pre)) (pre ++ e :: x :: l)%list nobody)
    with x
    by (rewrite <- (Nat.add_1_r (List.length pre));
        rewrite nth_after; reflexivity).
  cbn [rated app]. destruct (users e >? 0); [|reflexivity].
  rewrite <- (Nat.add_1_r (List.length pre)), update_at_app. reflexivity.
Qed.

Lemma users_rated_head (prev : Z) (x : funnel_entry) :
  map users (rated prev [x]) = [users x].
Proof. simpl. destruct (prev >? 0); reflexivity. Qed.

Lemma rate_steps_rated (l pre : list funnel_entry) (e : funnel_entry) :
  fold_left rate_step (seq (S (List.length pre)) (List.length l))
    (pre ++ e :: l)%list
  = (pre ++ e :: rated (users e) l)%list.
Proof.
  revert pre e. induction l as [|x l IH]; intros pre e.
  - reflexivity.
  - cbn [List.length seq fold_left]. rewrite rate_step_at.
    pose proof (users_rated_head (users e) x) as Hx.
    destruct (rated (users e) [x]) as [|x' [|]] eqn:Hr; try discriminate.
    injection Hx as Hx.
    change (pre ++ e :: [x'] ++ l)%list with (pre ++ e :: x' :: l)%list.
    replace (pre ++ e :: x' :: l)%list with ((pre ++ [e]) ++ x' :: l)%list
      by (rewrite <- app_assoc; reflexivity).
    assert (Hlen : S (S (List.length pre))
                   = S (List.length (pre ++ [e])%list))
      by (rewrite List.length_app; simpl; lia).
    rewrite Hlen, IH. rewrite <- app_assoc. cbn [app].
    rewrite Hx. cbn [rated] in Hr |- *. injection Hr as Hr.
    rewrite Hr. reflexivity.
Qed.

Lemma map_step_rated (l : list funnel_entry) (prev : Z) :
  map step (rated prev l) = map step l.
Proof.
  revert prev. induction l as [|e l IH]; intros prev; simpl; auto.
  rewrite IH. destruct (prev >? 0); reflexivity.
Qed.

Lemma map_users_rated (l : list funnel_entry) (prev : Z) :
  map users (rated prev l) = map users l.
Proof.
  revert prev. induction l as [|e l IH]; intros prev; simpl; auto.
  rewrite IH. destruct (prev >? 0); reflexivity.
Qed.

Lemma rate_of_rated (l : list funnel_entry) (prev : Z) (i : nat) :
  (i < List.length l)%nat ->
  Forall (fun e => conversion_rate e = None) l ->
  conversion_rate (nth i (rated prev l) nobody)
  = if nth i (prev :: map users l) 0 >? 0 then
      Some (format_2f
              (PrimFloat.mul
                 (true_div (users (nth i l nobody))
                    (nth i (prev :: map users l) 0))
                 (float_of_int 100)) ++ "%")
    else None.
Proof.
  revert prev i. induction l as [|e l IH]; intros prev i Hi Hnone.
  - simpl in Hi. lia.
  - inversion Hnone as [|? ? He Hl]; subst.
    destruct i as [|i].
    + simpl. destruct (prev >? 0); [reflexivity|exact He].
    + cbn [rated nth map]. simpl in Hi.
      rewrite (IH (users e) i) by (auto; lia). reflexivity.
Qed.

(** X27.  The funnel for any list of steps: one entry per step, in the
    order given, each with the count of distinct users of its event
    type; an entry after the first has a conversion rate exactly when the
    entry before it counts at least one user, and the rate is then the
    quotient of the two counts times 100 with two decimals.  A step that
    follows a step nobody reached has no rate, and nothing is divided by
    zero. *)
Theorem funnel_rate_of_each_step (w : World) (steps : list string) :
  exists funnel,
    get_conversion_funnel steps w = (Ok funnel, w)
    /\ map step funnel = steps
    /\ map users funnel
       = map (fun s => count_distinct_users s (activities (database w)))
           steps
    /\ forall i, (S i < List.length steps)%nat ->
         conversion_rate (nth (S i) funnel nobody)
         = if users (nth i funnel nobody) >? 0 then
             Some (format_2f
                     (PrimFloat.mul
                        (true_div (users (nth (S i) funnel nobody))
                           (users (nth i funnel nobody)))
                        (float_of_int 100)) ++ "%")
           else None.
Proof.
  unfold get_conversion_funnel, bind, get_db, ret.
  set (entry := fun s =>
         {| step := s;
            users := count_distinct_users s (activities (database w));
            conversion_rate := None |}).
  destruct steps as [|s steps].
  - exists []. repeat split. intros i Hi. simpl in Hi. lia.
  - exists (entry s :: rated (users (entry s)) (map entry steps)).
    split; [|split; [|split]].
    + cbn [map List.length]. rewrite Nat.sub_succ, Nat.sub_0_r.
      pose proof (rate_steps_rated (map entry steps) [] (entry s)) as Hrun.
      cbn [List.length app] in Hrun. rewrite Hrun. reflexivity.
    + cbn [map]. rewrite map_step_rated, map_map. simpl.
      rewrite map_id. reflexivity.
    + cbn [map]. rewrite map_users_rated, map_map. reflexivity.
    + intros i Hi. cbn [List.length] in Hi.
      cbn [nth].
      assert (Hlen : (i < List.length (map entry steps))%nat)
        by (rewrite List.length_map; lia).
      assert (Hnone : Forall (fun e => conversion_rate e = None)
                        (map entry steps)).
      { apply Forall_forall. intros e He. apply in_map_iff in He.
        destruct He as (s' & <- & _). reflexivity. }
      rewrite (rate_of_rated _ (users (entry s)) i Hlen Hnone).
      assert (Hprev :
        nth i (users (entry s) :: map users (map entry steps)) 0
        = users (nth i (entry s :: rated (users (entry s))
                          (map entry steps)) nobody)).
      { change 0 with (users nobody).
        rewrite <- (map_users_rated (map entry steps) (users (entry s))).
        change (users (entry s)
                :: map users (rated (users (entry s)) (map entry steps)))
          with (map users (entry s :: rated (users (entry s))
                             (map entry steps))).
        apply map_nth. }
      assert (Hcur :
        users (nth i (map entry steps) nobody)
        = users (nth i (rated (users (entry s)) (map entry steps)) nobody)).
      { rewrite <- !(map_nth users).
        rewrite map_users_rated. reflexivity. }
      rewrite Hprev, Hcur. reflexivity.
Qed.

End FunnelRates.

(** ** Requests *)

Section Requests.

Import SessionMiddleware.

Lemma not_in_select_none (sid : string) (t : list session_row) :
  ~ In sid (map s_session_id t) -> SessionStore.select sid t = None.
Proof.
  unfold SessionStore.select. induction t as [|r t IH]; simpl; auto.
  intros Hnot. unfold SessionStore.has_id at 1.
  destruct (String.eqb_spec (s_session_id r) sid) as [Heq|Hne].
  - exfalso. apply Hnot. left. exact Heq.
  - apply IH. intros Hin. apply Hnot. right. exact Hin.
Qed.

Lemma select_erased (sid : string) (uid : Z) (t : list session_row)
    (row : session_row) :
  NoDup (map s_session_id t) ->
  SessionStore.select sid t = Some row ->
  s_user_id row = uid ->
  SessionStore.select sid
    (filter (fun r => negb (SessionStore.has_user uid r)) t) = None.
Proof.
  intros Hnd Hsel Huid. induction t as [|r t IH]; [discriminate|].
  inversion Hnd as [|? ? Hnotin Hnd']; subst.
  unfold SessionStore.select in Hsel. simpl in Hsel. simpl.
  destruct (SessionStore.has_id sid r) eqn:E.
  - injection Hsel as <-.
    unfold SessionStore.has_user at 1. rewrite Z.eqb_refl. simpl.
    apply select_filter_none. apply not_in_select_none.
    unfold SessionStore.has_id in E. apply String.eqb_eq in E.
    rewrite <- E. exact Hnotin.
  - destruct (negb (SessionStore.has_user (s_user_id row) r)).
    + unfold SessionStore.select. simpl. rewrite E.
      exact (IH Hnd' Hsel).
    + exact (IH Hnd' Hsel).
Qed.

Lemma before_request_live (w : World) (sid : string) (header : option string)
    (row : session_row) (d : json) :
  sid <> EmptyString ->
  stored sid w = Some row ->
  decode_column (s_data row) = Some d ->
  current_time w <= s_expires_at row ->
  before_request_handler (Some sid) header w
  = (Ok (Some {| g_session := SessionStore.session_of_row row d;
                 g_user_id := s_user_id row;
                 g_session_id := sid |}),
     world_with w
       (SessionStore.update sid
          (SessionStore.set_last_activity (clock w (S (ticks w))))
          (sessions (database w)))
       (S (S (ticks w)))).
Proof.
  intros Hne Hsel Hdec Hlive.
  unfold before_request_handler, py_or.
  destruct sid as [|c sid]; [contradiction|].
  cbn [truthy]. unfold bind.
  rewrite (get_session_live_run w (String c sid) row d Hsel Hdec Hlive).
  reflexivity.
Qed.

Lemma before_request_missing (w : World) (sid : string)
    (header : option string) :
  sid <> EmptyString ->
  stored sid w = None ->
  before_request_handler (Some sid) header w = (Ok None, w).
Proof.
  intros Hne Hsel.
  unfold before_request_handler, py_or.
  destruct sid as [|c sid]; [contradiction|].
  cbn [truthy]. unfold bind.
  rewrite (manager_get_session_missing w (String c sid) Hsel).
  reflexivity.
Qed.

Lemma handle_missing {A : Type} (w : World) (sid : string)
    (header : option string) (view : g_attrs -> M A) :
  sid <> EmptyString ->
  stored sid w = None ->
  handle (Some sid) header view w = (Ok Unauthorized, w).
Proof.
  intros Hne Hsel. unfold handle, bind.
  rewrite (before_request_missing w sid header Hne Hsel). reflexivity.
Qed.

(** X28.  The cookie takes precedence over the header and is not
    retried: a request whose [session_id] cookie is a non-empty string
    that names no stored session is answered 401 by every view under
    [require_session], without running the view and without a change,
    whatever [X-Session-ID] says; an empty cookie counts as no cookie. *)
Theorem cookie_shadows_header {A : Type} (w : World) (sid : string)
    (header : option string) (view : g_attrs -> M A) :
  sid <> EmptyString ->
  stored sid w = None ->
  handle (Some sid) header view w = (Ok Unauthorized, w)
  /\ handle (Some EmptyString) header view w = handle None header view w.
Proof.
  intros Hne Hsel. split.
  - apply handle_missing; assumption.
  - reflexivity.
Qed.

Lemma cookie_shadows_header_witness :
  "gone" <> EmptyString
  /\ stored "gone" live_world = None
  /\ handle (Some "gone") (Some "tok") App.logout live_world
     = (Ok Unauthorized, live_world)
  /\ handle (Some EmptyString) (Some "tok") App.logout live_world
     = handle None (Some "tok") App.logout live_world.
Proof.
  split; [discriminate|]. split; [reflexivity|].
  apply (cookie_shadows_header live_world "gone" (Some "tok") App.logout).
  - discriminate.
  - reflexivity.
Defined.

(** X29.  Logging out ends the session.  A logout request that carries
    the id of a live session is served: it appends one [logout] activity
    for the user and the session, and removes the session's record, so
    the same request sent again is answered 401 and changes nothing. *)
Theorem logout_ends_the_session (w : World) (sid : string)
    (header : option string) (row : session_row) (d : json) :
  sid <> EmptyString ->
  stored sid w = Some row ->
  decode_column (s_data row) = Some d ->
  current_time w <= s_expires_at row ->
  exists w1 a,
    handle (Some sid) header App.logout w = (Ok (Returned tt), w1)
    /\ stored sid w1 = None
    /\ activities (database w1) = (activities (database w) ++ [a])%list
    /\ a_user_id a = s_user_id row
    /\ a_event_type a = "logout"
    /\ a_session_id a = Some sid
    /\ handle (Some sid) header App.logout w1 = (Ok Unauthorized, w1).
Proof.
  intros Hne Hsel Hdec Hlive.
  eexists. eexists. split.
  { unfold handle. unfold bind at 1.
    rewrite (before_request_live w sid header row d Hne Hsel Hdec Hlive).
    unfold require_session, App.logout, EventLogger.log_logout.
    cbn [g_user_id g_session_id]. unfold bind at 1 2.
    rewrite track_event_run.
    unfold SessionManager.destroy_session, SessionStore.delete_session,
      bind, get_db, put_db, ret.
    cbn [database sessions activities activities_seq preferences consent
         clock ticks world_with with_sessions fst snd].
    reflexivity. }
  assert (Hgone : forall ws,
    stored sid
      {| database :=
           with_sessions ws
             (filter (fun r => negb (SessionStore.has_id sid r))
                (SessionStore.update sid
                   (SessionStore.set_last_activity (clock w (S (ticks w))))
                   (sessions (database w))));
         clock := clock w; ticks := S (S (S (ticks w))) |} = None).
  { intros ws. unfold stored. cbn [database sessions with_sessions].
    apply select_delete_same. }
  split; [apply Hgone|].
  split; [reflexivity|]. split; [reflexivity|]. split; [reflexivity|].
  split; [reflexivity|].
  apply handle_missing; [exact Hne|apply Hgone].
Qed.

Lemma logout_ends_the_session_witness :
  exists w1 a,
    handle (Some "tok") None App.logout live_world = (Ok (Returned tt), w1)
    /\ stored "tok" w1 = None
    /\ activities (database w1)
       = (activities (database live_world) ++ [a])%list
    /\ a_user_id a = 7
    /\ a_event_type a = "logout"
    /\ a_session_id a = Some "tok"
    /\ handle (Some "tok") None App.logout w1 = (Ok Unauthorized, w1).
Proof.
  apply (logout_ends_the_session live_world "tok" None stale_row
           (JDict [("cart", JInt 3)])).
  - discriminate.
  - reflexivity.
  - vm_compute. reflexivity.
  - vm_compute. discriminate.
Defined.

(** X30.  Erasure over the API ends the caller's own session.  With
    session ids unique in the table, a request to the erasure route under
    a live session is served, its summary counts at least that session
    among the deleted ones, and afterwards the id names no record: every
    further request under it, to any view, is answered 401. *)
Theorem erasure_route_ends_the_session (w : World) (sid : string)
    (header : option string) (row : session_row) (d : json) :
  sid <> EmptyString ->
  NoDup (map s_session_id (sessions (database w))) ->
  stored sid w = Some row ->
  decode_column (s_data row) = Some d ->
  current_time w <= s_expires_at row ->
  exists summary w1,
    handle (Some sid) header App.delete_user_data w
    = (Ok (Returned summary), w1)
    /\ ds_user_id summary = s_user_id row
    /\ 1 <= ds_sessions_deleted summary
    /\ stored sid w1 = None
    /\ handle (Some sid) header App.export_user_data w1
       = (Ok Unauthorized, w1).
Proof.
  intros Hne Hnd Hsel Hdec Hlive.
  set (f := SessionStore.set_last_activity (clock w (S (ticks w)))).
  set (t := SessionStore.update sid f (sessions (database w))).
  assert (Hf : forall r, s_session_id (f r) = s_session_id r)
    by reflexivity.
  assert (Hsel' : SessionStore.select sid t = Some (f row)).
  { unfold t. rewrite (select_update sid sid f _ Hf).
    unfold stored in Hsel. rewrite Hsel. simpl.
    rewrite (select_has_id _ _ _ Hsel). reflexivity. }
  eexists. eexists. split.
  { unfold handle. unfold bind at 1.
    rewrite (before_request_live w sid header row d Hne Hsel Hdec Hlive).
    unfold require_session, App.delete_user_data,
      GDPRHandler.delete_user_data, bind, get_db, put_db, ret, now.
    cbn [g_user_id database sessions activities activities_seq preferences
         consent clock ticks world_with with_sessions fst snd].
    reflexivity. }
  assert (Hgone : SessionStore.select sid
            (filter (fun r => negb (SessionStore.has_user (s_user_id row) r))
               t) = None).
  { apply (select_erased sid (s_user_id row) t (f row)).
    - unfold t. rewrite (ids_update sid f _ Hf). exact Hnd.
    - exact Hsel'.
    - reflexivity. }
  split; [reflexivity|]. split; [|split].
  - cbn [ds_sessions_deleted]. fold f. fold t.
    rewrite (rowcount_deleted (SessionStore.has_user (s_user_id row)) t).
    assert (Hin : In (f row)
                    (filter (SessionStore.has_user (s_user_id row)) t)).
    { apply filter_In. split.
      - unfold SessionStore.select in Hsel'.
        apply find_some in Hsel'. tauto.
      - unfold SessionStore.has_user. simpl. apply Z.eqb_refl. }
    destruct (filter (SessionStore.has_user (s_user_id row)) t);
      [contradiction|]. simpl. lia.
  - unfold stored. cbn [database sessions]. fold f. fold t. exact Hgone.
  - apply handle_missing; [exact Hne|].
    unfold stored. cbn [database sessions]. fold f. fold t. exact Hgone.
Qed.

Lemma erasure_route_witness :
  exists summary w1,
    handle (Some "tok") None App.delete_user_data live_world
    = (Ok (Returned summary), w1)
    /\ ds_user_id summary = 7
    /\ 1 <= ds_sessions_deleted summary
    /\ stored "tok" w1 = None
    /\ handle (Some "tok") None App.export_user_data w1
       = (Ok Unauthorized, w1).
Proof.
  apply (erasure_route_ends_the_session live_world "tok" None stale_row
           (JDict [("cart", JInt 3)])).
  - discriminate.
  - repeat constructor; simpl; tauto.
  - reflexivity.
  - vm_compute. reflexivity.
  - vm_compute. discriminate.
Defined.

End Requests.
